(** * PanelExtensionAdapter: a shallow embedding of the extension adapter

    The adapter of
    [packages/studio-base/src/components/PanelExtensionAdapter/PanelExtensionAdapter.tsx]
    hosts a panel extension: it builds the extension context (subscribe,
    advertise, setPreviewTime, layout.addPanel, ...), runs the render cycle
    with its single-flight lock, and re-initialises the panel when the panel
    id, the extension context or the [initPanel] prop changes.

    React state cells ([useState]), refs ([useRef]) and the memoised extension
    context ([useMemo]) become fields of one record; every effect and every
    context method is a function on that record.  The collaborators the
    adapter only calls into (message pipeline, timeline hover store, panel
    context, uuid, logger) are part of the same record, so that what the
    adapter asks of them can be observed. *)

From Stdlib Require Import PrimFloat.
From stdpp Require Import gmap strings list.

Open Scope string_scope.
Open Scope list_scope.
Open Scope nat_scope.

#[local] Set Warnings "-register-all,-inexact-float".

(** ** Values crossing the extension boundary *)

(** A JavaScript number is an IEEE 754 binary64 value. *)
Abbreviation number := float.

(** [config: unknown]: the shapes a panel configuration can take. *)
Inductive JsValue : Type :=
| JUndefined
| JNull
| JBool (b : bool)
| JNumber (n : number)
| JString (s : string)
| JArray (items : list JsValue)
| JObject (props : list (string * JsValue)).

(** lodash [isEqual(config, {})]: only an object without own properties
    compares equal to the empty object literal (an empty array does not). *)
Definition isEqual_empty_object (v : JsValue) : bool :=
  match v with
  | JObject [] => true
  | _ => false
  end.

(** [Error | undefined]: the adapter stores what the render function threw
    in a cell of this type. *)
Definition Error := string.

(** [uuid()] identifiers.  Version-4 uuids are drawn at random; the model
    numbers them in the order in which they are drawn. *)
Definition PanelId := nat.

(** [Time] of @foxglove/rostime and its [toSec]. *)
Record Time := { sec : number; nsec : number }.

Definition toSec (t : Time) : number := (sec t + nsec t * 1e-9)%float.

(** [Subscription] of @foxglove/studio: [{ topic, preload? }]. *)
Record Subscription := { sub_topic : string; sub_preload : option bool }.

(** An element of the array handed to [subscribe]: [string | Subscription]. *)
Inductive SubscribeItem :=
| TopicString (t : string)
| TopicSubscription (sub : Subscription).

Inductive PreloadType := full | partial.

(** [SubscribePayload] of players/types. *)
Record SubscribePayload := { payload_topic : string; preloadType : PreloadType }.

(** [AdvertiseOptions] of players/types. *)
Record AdvertiseOptions :=
  { adv_topic : string; adv_datatype : string; adv_options : option JsValue }.

Inductive PlayerCapabilities_t := cap_advertise | cap_callServices | cap_other (name : string).

#[global] Instance PlayerCapabilities_eq_dec : EqDecision PlayerCapabilities_t.
Proof. solve_decision. Defined.

(** [capabilities.includes(c)] *)
Definition includes (caps : list PlayerCapabilities_t) (c : PlayerCapabilities_t) : bool :=
  bool_decide (c ∈ caps).

(** ** The message pipeline *)

(** [playerState.activeData?.startTime] is all the adapter reads of the
    active data. *)
Record PlayerStateActiveData := { startTime : Time }.

Record PlayerState :=
  { capabilities : list PlayerCapabilities_t;
    activeData : option PlayerStateActiveData }.

(** A pause token: [pauseFrame(id)] hands out a resume function; the token
    remembers who paused and how many times its resume function ran. *)
Record FrameToken := { tok_subscriber : PanelId; tok_resumed : nat }.

(** Modelled from the spec: the MessagePipeline store is not among the
    sources.  It keeps "subscription and publisher registries keyed by panel
    id", which [setSubscriptions] and [setPublishers] replace for one id, and
    "a pause/resume token per subscriber id". *)
Record MessagePipelineContext :=
  { playerState : PlayerState;
    subscriptions : gmap PanelId (list SubscribePayload);
    publishers : gmap PanelId (list AdvertiseOptions);
    frameTokens : list FrameToken }.

Definition pipeline_setSubscriptions (id : PanelId) (payloads : list SubscribePayload)
    (ctx : MessagePipelineContext) : MessagePipelineContext :=
  {| playerState := playerState ctx;
     subscriptions := <[id := payloads]> (subscriptions ctx);
     publishers := publishers ctx;
     frameTokens := frameTokens ctx |}.

Definition pipeline_setPublishers (id : PanelId) (payloads : list AdvertiseOptions)
    (ctx : MessagePipelineContext) : MessagePipelineContext :=
  {| playerState := playerState ctx;
     subscriptions := subscriptions ctx;
     publishers := <[id := payloads]> (publishers ctx);
     frameTokens := frameTokens ctx |}.

(** [pauseFrame(id)]: a new token; its index stands for the returned
    [resumeFrame] function. *)
Definition pipeline_pauseFrame (id : PanelId) (ctx : MessagePipelineContext)
    : nat * MessagePipelineContext :=
  (length (frameTokens ctx),
   {| playerState := playerState ctx;
      subscriptions := subscriptions ctx;
      publishers := publishers ctx;
      frameTokens := frameTokens ctx ++ [{| tok_subscriber := id; tok_resumed := 0 |}] |}).

Definition resume_token (tok : FrameToken) : FrameToken :=
  {| tok_subscriber := tok_subscriber tok; tok_resumed := S (tok_resumed tok) |}.

(** Running the resume function of token [i]. *)
Definition pipeline_resumeFrame (i : nat) (ctx : MessagePipelineContext)
    : MessagePipelineContext :=
  {| playerState := playerState ctx;
     subscriptions := subscriptions ctx;
     publishers := publishers ctx;
     frameTokens := alter resume_token i (frameTokens ctx) |}.

Definition pipeline_setPlayerState (ps : PlayerState) (ctx : MessagePipelineContext)
    : MessagePipelineContext :=
  {| playerState := ps;
     subscriptions := subscriptions ctx;
     publishers := publishers ctx;
     frameTokens := frameTokens ctx |}.

(** The publisher registration of one panel id; an id nobody registered for
    has no publishers. *)
Definition publishersOf (ctx : MessagePipelineContext) (id : PanelId) : list AdvertiseOptions :=
  default [] (publishers ctx !! id).

(** ** The timeline hover store *)

Record HoverValue := { hv_type : string; componentId : string; value : number }.

(** Modelled from the spec: TimelineInteractionStateContext is not among the
    sources.  The store holds the hover value: [setHoverValue] is "setting
    one", and [clearHoverValue(componentId)] "clears a hover/preview
    indicator", so that "any previously set preview/hover value" is gone.
    The spec does not say what the component id is used for. *)
Definition timeline_setHoverValue (hv : HoverValue) (cur : option HoverValue)
    : option HoverValue := Some hv.

Definition timeline_clearHoverValue (cid : string) (cur : option HoverValue)
    : option HoverValue := None.

(** ** The render-state builder and the hosted render function *)

(** What the adapter hands to [buildRenderState]: its own watched fields and
    subscribed topics, and the inputs it only passes through (global
    variables, hover value, player state, colour scheme, app settings,
    current frame), kept together as [in_env]. *)
Record BuilderInput (Env : Type) :=
  { in_watchedFields : gset string;
    in_subscribedTopics : list string;
    in_env : Env }.
Arguments in_watchedFields {Env} _.
Arguments in_subscribedTopics {Env} _.
Arguments in_env {Env} _.

(** Modelled from the spec: [./renderState] is not among the sources.  The
    "render-state builder" turns "pipeline snapshot + watched-field set into
    an optional render-state object"; the function [initRenderStateBuilder()]
    returns keeps the previous render state in its closure, which is the
    [Builder] threaded through [runBuilder]. *)
Class RenderStateBuilder :=
  { RenderState : Type;
    Env : Type;
    Builder : Type;
    initRenderStateBuilder : Builder;
    runBuilder : Builder -> BuilderInput Env -> Builder * option RenderState }.

(** A toy builder: the render state is the frame number, and nothing is
    produced when the frame number did not change. *)
Definition frameCounterBuilder : RenderStateBuilder :=
  {| RenderState := nat;
     Env := nat;
     Builder := option nat;
     initRenderStateBuilder := None;
     runBuilder := fun prev input =>
       if bool_decide (prev = Some (in_env input)) then (prev, None)
       else (Some (in_env input), Some (in_env input)) |}.

(** What one synchronous call of the hosted render function does with the
    completion callback it was given, as far as the adapter can tell: how
    often it calls the callback before it returns, and whether it returns
    or throws. *)
Record RenderBehaviour :=
  { doneCallsDuringRender : nat; thrown : option Error }.

(** The closure of one render invocation: its [doneCalled] variable, the
    [resumeFrame] function it captured (the index of a pause token) and the
    panel id of the render pass that made it. *)
Record Invocation := { doneCalled : bool; resumeFrame : nat; inv_panelId : PanelId }.

(** The values the memoised extension context closes over. *)
Record ExtensionContext :=
  { ctx_panelId : PanelId;
    ctx_initialState : JsValue;
    ctx_capabilities : list PlayerCapabilities_t }.

(** The argument of [openSiblingPanel]. *)
Record OpenSiblingPanelParams :=
  { panelType : string;
    updateIfExists : bool;
    siblingConfigCreator : JsValue -> JsValue }.

Inductive LogEntry :=
| warn_done_twice (id : PanelId)   (* `${panelId} called render done function twice` *)
| info_init_panel (id : PanelId).  (* `Init panel ${panelId}` *)

(** How a call ends: it returns, or it throws. *)
Inductive Completion (A : Type) :=
| returned (a : A)
| threw (e : Error).
Arguments returned {A} _.
Arguments threw {A} _.

(** Modelled from the spec: util/assertNever is not among the sources; an
    unsupported layout-placement value is a programming error "signaled
    immediately", so [assertNever(variant, message)] throws an [Error]
    carrying the message. *)
Definition assertNever {A : Type} (variant : string) (message : string) : Completion A :=
  threw message.

Section Adapter.

Context `{RSB : RenderStateBuilder}.

(** [RenderFn]: the hosted render function, seen through what it does with
    the render state and the completion callback. *)
Definition RenderFn := RenderState -> RenderBehaviour.

(** The calls a hosted extension can make on its context. *)
Inductive ContextCall :=
| call_set_onRender (renderFunction : option RenderFn)
| call_watch (field : string)
| call_subscribe (topics : list SubscribeItem)
| call_unsubscribeAll
| call_advertise (topic datatype : string) (options : option JsValue)
| call_unadvertise (topic : string)
| call_setPreviewTime (stamp : option number)
| call_addPanel (position type : string) (update : bool) (getState : JsValue -> JsValue).

(** ** The adapter and its surroundings *)

Record Adapter :=
  {
    (* props.initPanel: the calls the extension makes on its context while it
       initialises, given [context.initialState] *)
    initPanel : JsValue -> list ContextCall;
    (* useState(() => uuid()) *)
    panelId : PanelId;
    (* useState<Error | undefined>() *)
    error : option Error;
    (* useState(new Set<keyof RenderState>()) *)
    watchedFields : gset string;
    (* useState<string[]>([]) *)
    subscribedTopics : list string;
    (* useState<RenderFn | undefined>() *)
    renderFn : option RenderFn;
    (* useState(false) *)
    slowRender : bool;
    (* useState(() => initRenderStateBuilder()) *)
    buildRenderState : Builder;
    (* useRef(config) *)
    initialState : JsValue;
    (* useRef(new Map<string, AdvertiseOptions>()), in insertion order *)
    advertisementsRef : list (string * AdvertiseOptions);
    (* useRef<boolean>(false) *)
    renderingRef : bool;
    (* useRef<HTMLDivElement>(ReactNull): the panel elements in the container,
       each tagged with the panel id it was created for *)
    panelContainerRef : option (list PanelId);
    (* the useMemo cell of the extension context *)
    partialExtensionContext : option ExtensionContext;
    (* the closures of the render invocations made so far *)
    invocations : list Invocation;
    (* getMessagePipelineContext() *)
    pipeline : MessagePipelineContext;
    (* the timeline hover store *)
    hoverValue : option HoverValue;
    (* the requests made through usePanelContext().openSiblingPanel *)
    siblingPanels : list OpenSiblingPanelParams;
    (* Logger output *)
    log : list LogEntry;
    (* how many uuids were drawn *)
    uuids : nat }.

(** Assignments to one cell; every other cell keeps its value. *)

Definition set_initPanel (v : JsValue -> list ContextCall) (s : Adapter) : Adapter :=
  {| initPanel := v; panelId := panelId s; error := error s;
     watchedFields := watchedFields s; subscribedTopics := subscribedTopics s;
     renderFn := renderFn s; slowRender := slowRender s;
     buildRenderState := buildRenderState s; initialState := initialState s;
     advertisementsRef := advertisementsRef s; renderingRef := renderingRef s;
     panelContainerRef := panelContainerRef s;
     partialExtensionContext := partialExtensionContext s; invocations := invocations s;
     pipeline := pipeline s; hoverValue := hoverValue s; siblingPanels := siblingPanels s;
     log := log s; uuids := uuids s |}.

Definition set_panelId (v : PanelId) (s : Adapter) : Adapter :=
  {| initPanel := initPanel s; panelId := v; error := error s;
     watchedFields := watchedFields s; subscribedTopics := subscribedTopics s;
     renderFn := renderFn s; slowRender := slowRender s;
     buildRenderState := buildRenderState s; initialState := initialState s;
     advertisementsRef := advertisementsRef s; renderingRef := renderingRef s;
     panelContainerRef := panelContainerRef s;
     partialExtensionContext := partialExtensionContext s; invocations := invocations s;
     pipeline := pipeline s; hoverValue := hoverValue s; siblingPanels := siblingPanels s;
     log := log s; uuids := uuids s |}.

Definition set_error (v : option Error) (s : Adapter) : Adapter :=
  {| initPanel := initPanel s; panelId := panelId s; error := v;
     watchedFields := watchedFields s; subscribedTopics := subscribedTopics s;
     renderFn := renderFn s; slowRender := slowRender s;
     buildRenderState := buildRenderState s; initialState := initialState s;
     advertisementsRef := advertisementsRef s; renderingRef := renderingRef s;
     panelContainerRef := panelContainerRef s;
     partialExtensionContext := partialExtensionContext s; invocations := invocations s;
     pipeline := pipeline s; hoverValue := hoverValue s; siblingPanels := siblingPanels s;
     log := log s; uuids := uuids s |}.

Definition set_watchedFields (v : gset string) (s : Adapter) : Adapter :=
  {| initPanel := initPanel s; panelId := panelId s; error := error s; watchedFields := v;
     subscribedTopics := subscribedTopics s; renderFn := renderFn s;
     slowRender := slowRender s; buildRenderState := buildRenderState s;
     initialState := initialState s; advertisementsRef := advertisementsRef s;
     renderingRef := renderingRef s; panelContainerRef := panelContainerRef s;
     partialExtensionContext := partialExtensionContext s; invocations := invocations s;
     pipeline := pipeline s; hoverValue := hoverValue s; siblingPanels := siblingPanels s;
     log := log s; uuids := uuids s |}.

Definition set_subscribedTopics (v : list string) (s : Adapter) : Adapter :=
  {| initPanel := initPanel s; panelId := panelId s; error := error s;
     watchedFields := watchedFields s; subscribedTopics := v; renderFn := renderFn s;
     slowRender := slowRender s; buildRenderState := buildRenderState s;
     initialState := initialState s; advertisementsRef := advertisementsRef s;
     renderingRef := renderingRef s; panelContainerRef := panelContainerRef s;
     partialExtensionContext := partialExtensionContext s; invocations := invocations s;
     pipeline := pipeline s; hoverValue := hoverValue s; siblingPanels := siblingPanels s;
     log := log s; uuids := uuids s |}.

Definition set_renderFn (v : option RenderFn) (s : Adapter) : Adapter :=
  {| initPanel := initPanel s; panelId := panelId s; error := error s;
     watchedFields := watchedFields s; subscribedTopics := subscribedTopics s; renderFn := v;
     slowRender := slowRender s; buildRenderState := buildRenderState s;
     initialState := initialState s; advertisementsRef := advertisementsRef s;
     renderingRef := renderingRef s; panelContainerRef := panelContainerRef s;
     partialExtensionContext := partialExtensionContext s; invocations := invocations s;
     pipeline := pipeline s; hoverValue := hoverValue s; siblingPanels := siblingPanels s;
     log := log s; uuids := uuids s |}.

Definition set_slowRender (v : bool) (s : Adapter) : Adapter :=
  {| initPanel := initPanel s; panelId := panelId s; error := error s;
     watchedFields := watchedFields s; subscribedTopics := subscribedTopics s;
     renderFn := renderFn s; slowRender := v; buildRenderState := buildRenderState s;
     initialState := initialState s; advertisementsRef := advertisementsRef s;
     renderingRef := renderingRef s; panelContainerRef := panelContainerRef s;
     partialExtensionContext := partialExtensionContext s; invocations := invocations s;
     pipeline := pipeline s; hoverValue := hoverValue s; siblingPanels := siblingPanels s;
     log := log s; uuids := uuids s |}.

Definition set_buildRenderState (v : Builder) (s : Adapter) : Adapter :=
  {| initPanel := initPanel s; panelId := panelId s; error := error s;
     watchedFields := watchedFields s; subscribedTopics := subscribedTopics s;
     renderFn := renderFn s; slowRender := slowRender s; buildRenderState := v;
     initialState := initialState s; advertisementsRef := advertisementsRef s;
     renderingRef := renderingRef s; panelContainerRef := panelContainerRef s;
     partialExtensionContext := partialExtensionContext s; invocations := invocations s;
     pipeline := pipeline s; hoverValue := hoverValue s; siblingPanels := siblingPanels s;
     log := log s; uuids := uuids s |}.

Definition set_initialState (v : JsValue) (s : Adapter) : Adapter :=
  {| initPanel := initPanel s; panelId := panelId s; error := error s;
     watchedFields := watchedFields s; subscribedTopics := subscribedTopics s;
     renderFn := renderFn s; slowRender := slowRender s;
     buildRenderState := buildRenderState s; initialState := v;
     advertisementsRef := advertisementsRef s; renderingRef := renderingRef s;
     panelContainerRef := panelContainerRef s;
     partialExtensionContext := partialExtensionContext s; invocations := invocations s;
     pipeline := pipeline s; hoverValue := hoverValue s; siblingPanels := siblingPanels s;
     log := log s; uuids := uuids s |}.

Definition set_advertisementsRef (v : list (string * AdvertiseOptions)) (s : Adapter) : Adapter :=
  {| initPanel := initPanel s; panelId := panelId s; error := error s;
     watchedFields := watchedFields s; subscribedTopics := subscribedTopics s;
     renderFn := renderFn s; slowRender := slowRender s;
     buildRenderState := buildRenderState s; initialState := initialState s;
     advertisementsRef := v; renderingRef := renderingRef s;
     panelContainerRef := panelContainerRef s;
     partialExtensionContext := partialExtensionContext s; invocations := invocations s;
     pipeline := pipeline s; hoverValue := hoverValue s; siblingPanels := siblingPanels s;
     log := log s; uuids := uuids s |}.

Definition set_renderingRef (v : bool) (s : Adapter) : Adapter :=
  {| initPanel := initPanel s; panelId := panelId s; error := error s;
     watchedFields := watchedFields s; subscribedTopics := subscribedTopics s;
     renderFn := renderFn s; slowRender := slowRender s;
     buildRenderState := buildRenderState s; initialState := initialState s;
     advertisementsRef := advertisementsRef s; renderingRef := v;
     panelContainerRef := panelContainerRef s;
     partialExtensionContext := partialExtensionContext s; invocations := invocations s;
     pipeline := pipeline s; hoverValue := hoverValue s; siblingPanels := siblingPanels s;
     log := log s; uuids := uuids s |}.

Definition set_panelContainerRef (v : option (list PanelId)) (s : Adapter) : Adapter :=
  {| initPanel := initPanel s; panelId := panelId s; error := error s;
     watchedFields := watchedFields s; subscribedTopics := subscribedTopics s;
     renderFn := renderFn s; slowRender := slowRender s;
     buildRenderState := buildRenderState s; initialState := initialState s;
     advertisementsRef := advertisementsRef s; renderingRef := renderingRef s;
     panelContainerRef := v; partialExtensionContext := partialExtensionContext s;
     invocations := invocations s; pipeline := pipeline s; hoverValue := hoverValue s;
     siblingPanels := siblingPanels s; log := log s; uuids := uuids s |}.

Definition set_partialExtensionContext (v : option ExtensionContext) (s : Adapter) : Adapter :=
  {| initPanel := initPanel s; panelId := panelId s; error := error s;
     watchedFields := watchedFields s; subscribedTopics := subscribedTopics s;
     renderFn := renderFn s; slowRender := slowRender s;
     buildRenderState := buildRenderState s; initialState := initialState s;
     advertisementsRef := advertisementsRef s; renderingRef := renderingRef s;
     panelContainerRef := panelContainerRef s; partialExtensionContext := v;
     invocations := invocations s; pipeline := pipeline s; hoverValue := hoverValue s;
     siblingPanels := siblingPanels s; log := log s; uuids := uuids s |}.

Definition set_invocations (v : list Invocation) (s : Adapter) : Adapter :=
  {| initPanel := initPanel s; panelId := panelId s; error := error s;
     watchedFields := watchedFields s; subscribedTopics := subscribedTopics s;
     renderFn := renderFn s; slowRender := slowRender s;
     buildRenderState := buildRenderState s; initialState := initialState s;
     advertisementsRef := advertisementsRef s; renderingRef := renderingRef s;
     panelContainerRef := panelContainerRef s;
     partialExtensionContext := partialExtensionContext s; invocations := v;
     pipeline := pipeline s; hoverValue := hoverValue s; siblingPanels := siblingPanels s;
     log := log s; uuids := uuids s |}.

Definition set_pipeline (v : MessagePipelineContext) (s : Adapter) : Adapter :=
  {| initPanel := initPanel s; panelId := panelId s; error := error s;
     watchedFields := watchedFields s; subscribedTopics := subscribedTopics s;
     renderFn := renderFn s; slowRender := slowRender s;
     buildRenderState := buildRenderState s; initialState := initialState s;
     advertisementsRef := advertisementsRef s; renderingRef := renderingRef s;
     panelContainerRef := panelContainerRef s;
     partialExtensionContext := partialExtensionContext s; invocations := invocations s;
     pipeline := v; hoverValue := hoverValue s; siblingPanels := siblingPanels s; log := log s;
     uuids := uuids s |}.

Definition set_hoverValue (v : option HoverValue) (s : Adapter) : Adapter :=
  {| initPanel := initPanel s; panelId := panelId s; error := error s;
     watchedFields := watchedFields s; subscribedTopics := subscribedTopics s;
     renderFn := renderFn s; slowRender := slowRender s;
     buildRenderState := buildRenderState s; initialState := initialState s;
     advertisementsRef := advertisementsRef s; renderingRef := renderingRef s;
     panelContainerRef := panelContainerRef s;
     partialExtensionContext := partialExtensionContext s; invocations := invocations s;
     pipeline := pipeline s; hoverValue := v; siblingPanels := siblingPanels s; log := log s;
     uuids := uuids s |}.

Definition set_siblingPanels (v : list OpenSiblingPanelParams) (s : Adapter) : Adapter :=
  {| initPanel := initPanel s; panelId := panelId s; error := error s;
     watchedFields := watchedFields s; subscribedTopics := subscribedTopics s;
     renderFn := renderFn s; slowRender := slowRender s;
     buildRenderState := buildRenderState s; initialState := initialState s;
     advertisementsRef := advertisementsRef s; renderingRef := renderingRef s;
     panelContainerRef := panelContainerRef s;
     partialExtensionContext := partialExtensionContext s; invocations := invocations s;
     pipeline := pipeline s; hoverValue := hoverValue s; siblingPanels := v; log := log s;
     uuids := uuids s |}.

Definition set_log (v : list LogEntry) (s : Adapter) : Adapter :=
  {| initPanel := initPanel s; panelId := panelId s; error := error s;
     watchedFields := watchedFields s; subscribedTopics := subscribedTopics s;
     renderFn := renderFn s; slowRender := slowRender s;
     buildRenderState := buildRenderState s; initialState := initialState s;
     advertisementsRef := advertisementsRef s; renderingRef := renderingRef s;
     panelContainerRef := panelContainerRef s;
     partialExtensionContext := partialExtensionContext s; invocations := invocations s;
     pipeline := pipeline s; hoverValue := hoverValue s; siblingPanels := siblingPanels s;
     log := v; uuids := uuids s |}.

Definition set_uuids (v : nat) (s : Adapter) : Adapter :=
  {| initPanel := initPanel s; panelId := panelId s; error := error s;
     watchedFields := watchedFields s; subscribedTopics := subscribedTopics s;
     renderFn := renderFn s; slowRender := slowRender s;
     buildRenderState := buildRenderState s; initialState := initialState s;
     advertisementsRef := advertisementsRef s; renderingRef := renderingRef s;
     panelContainerRef := panelContainerRef s;
     partialExtensionContext := partialExtensionContext s; invocations := invocations s;
     pipeline := pipeline s; hoverValue := hoverValue s; siblingPanels := siblingPanels s;
     log := log s; uuids := v |}.

(** ** The extension context (lines 267-415) *)

(** [layout.addPanel({ position, type, updateIfExists, getState })] *)
Definition addPanel (position type : string) (update : bool)
    (getState : JsValue -> JsValue) (s : Adapter) : Completion Adapter :=
  if String.eqb position "sibling" then
    returned
      (set_siblingPanels
         (siblingPanels s ++
            [{| panelType := type;
                updateIfExists := update;
                siblingConfigCreator := fun existingConfig => getState existingConfig |}])
         s)
  else assertNever position ("Unsupported position for addPanel: " +:+ position).

(** [setPreviewTime(stamp)] *)
Definition setPreviewTime (stamp : option number) (s : Adapter) : Adapter :=
  match stamp with
  | None =>
      set_hoverValue (timeline_clearHoverValue "PanelExtensionAdatper" (hoverValue s)) s
  | Some stamp =>
      let ctx := pipeline s in
      match activeData (playerState ctx) with
      | None => s
      | Some data =>
          let secondsFromStart := (stamp - toSec (startTime data))%float in
          set_hoverValue
            (timeline_setHoverValue
               {| hv_type := "PLAYBACK_SECONDS";
                  componentId := "PanelExtensionAdatper";
                  value := secondsFromStart |}
               (hoverValue s))
            s
      end
  end.

(** [watch(field)]: [old.add(field); return new Set(old)] *)
Definition watch (field : string) (s : Adapter) : Adapter :=
  set_watchedFields (watchedFields s ∪ {[field]}) s.

(** The [topics.map] callback of [subscribe], with the array it pushes to:
    each item yields its payload and appends its topic to
    [newSubscribedTopics]. *)
Fixpoint subscribe_map (topics : list SubscribeItem) (newSubscribedTopics : list string)
    : list string * list SubscribePayload :=
  match topics with
  | [] => (newSubscribedTopics, [])
  | TopicString item :: rest =>
      let '(pushed, payloads) := subscribe_map rest (newSubscribedTopics ++ [item]) in
      (pushed, {| payload_topic := item; preloadType := full |} :: payloads)
  | TopicSubscription item :: rest =>
      let '(pushed, payloads) := subscribe_map rest (newSubscribedTopics ++ [sub_topic item]) in
      (pushed,
       {| payload_topic := sub_topic item;
          preloadType := match sub_preload item with
                         | Some true => full
                         | _ => partial
                         end |} :: payloads)
  end.

(** [subscribe(topics)] of the context memoised for panel id [ctx_panelId]. *)
Definition subscribe (ctx : ExtensionContext) (topics : list SubscribeItem) (s : Adapter)
    : Adapter :=
  let '(newSubscribedTopics, subscribePayloads) := subscribe_map topics [] in
  let s := set_subscribedTopics newSubscribedTopics s in
  set_pipeline (pipeline_setSubscriptions (ctx_panelId ctx) subscribePayloads (pipeline s)) s.

(** [unsubscribeAll()] *)
Definition unsubscribeAll (ctx : ExtensionContext) (s : Adapter) : Adapter :=
  let s := set_subscribedTopics [] s in
  set_pipeline (pipeline_setSubscriptions (ctx_panelId ctx) [] (pipeline s)) s.

(** [Map.prototype.set]: an existing key keeps its place, a new key goes last. *)
Fixpoint Map_set {V : Type} (key : string) (v : V) (m : list (string * V))
    : list (string * V) :=
  match m with
  | [] => [(key, v)]
  | (k, old) :: rest =>
      if String.eqb k key then (key, v) :: rest else (k, old) :: Map_set key v rest
  end.

(** [Map.prototype.delete] *)
Fixpoint Map_delete {V : Type} (key : string) (m : list (string * V)) : list (string * V) :=
  match m with
  | [] => []
  | (k, old) :: rest =>
      if String.eqb k key then rest else (k, old) :: Map_delete key rest
  end.

(** [Array.from(map.values())] *)
Definition Map_values {V : Type} (m : list (string * V)) : list V := m.*2.

Definition Map_has {V : Type} (key : string) (m : list (string * V)) : bool :=
  bool_decide (key ∈ m.*1).

(** The body of [advertise]. *)
Definition advertise_fn (ctx : ExtensionContext) (topic datatype : string)
    (options : option JsValue) (s : Adapter) : Adapter :=
  let payload := {| adv_topic := topic; adv_datatype := datatype; adv_options := options |} in
  let s := set_advertisementsRef (Map_set topic payload (advertisementsRef s)) s in
  set_pipeline
    (pipeline_setPublishers (ctx_panelId ctx) (Map_values (advertisementsRef s)) (pipeline s)) s.

(** The body of [unadvertise]. *)
Definition unadvertise_fn (ctx : ExtensionContext) (topic : string) (s : Adapter) : Adapter :=
  let s := set_advertisementsRef (Map_delete topic (advertisementsRef s)) s in
  set_pipeline
    (pipeline_setPublishers (ctx_panelId ctx) (Map_values (advertisementsRef s)) (pipeline s)) s.

(** [advertise] and [unadvertise] exist on the context only when the player
    could advertise at the time the context was memoised. *)
Definition advertise (ctx : ExtensionContext)
    : option (string -> string -> option JsValue -> Adapter -> Adapter) :=
  if includes (ctx_capabilities ctx) cap_advertise then Some (advertise_fn ctx) else None.

Definition unadvertise (ctx : ExtensionContext) : option (string -> Adapter -> Adapter) :=
  if includes (ctx_capabilities ctx) cap_advertise then Some (unadvertise_fn ctx) else None.

(** The [onRender] setter handed to [initPanel]. *)
Definition set_onRender (renderFunction : option RenderFn) (s : Adapter) : Adapter :=
  set_renderFn renderFunction s.

(** One call of the extension on its context.  A method the context does not
    have cannot be run, and an exception of [addPanel] is raised in the
    extension's own code; neither changes anything the adapter owns. *)
Definition contextCall (ctx : ExtensionContext) (c : ContextCall) (s : Adapter) : Adapter :=
  match c with
  | call_set_onRender renderFunction => set_onRender renderFunction s
  | call_watch field => watch field s
  | call_subscribe topics => subscribe ctx topics s
  | call_unsubscribeAll => unsubscribeAll ctx s
  | call_advertise topic datatype options =>
      match advertise ctx with
      | Some f => f topic datatype options s
      | None => s
      end
  | call_unadvertise topic =>
      match unadvertise ctx with
      | Some f => f topic s
      | None => s
      end
  | call_setPreviewTime stamp => setPreviewTime stamp s
  | call_addPanel position type update getState =>
      match addPanel position type update getState s with
      | returned s' => s'
      | threw _ => s
      end
  end.

Definition contextCalls (ctx : ExtensionContext) (cs : list ContextCall) (s : Adapter)
    : Adapter :=
  fold_left (fun acc c => contextCall ctx c acc) cs s.

(** ** The render cycle (lines 195-255) *)

(** The completion callback handed to the [k]-th render invocation. *)
Definition done (k : nat) (s : Adapter) : Adapter :=
  match invocations s !! k with
  | None => s
  | Some inv =>
      if doneCalled inv then
        (* ignore any additional done calls from the panel *)
        set_log (log s ++ [warn_done_twice (inv_panelId inv)]) s
      else
        let s :=
          set_invocations
            (<[k := {| doneCalled := true;
                       resumeFrame := resumeFrame inv;
                       inv_panelId := inv_panelId inv |}]> (invocations s)) s in
        let s := set_pipeline (pipeline_resumeFrame (resumeFrame inv) (pipeline s)) s in
        set_renderingRef false s
  end.

Definition builderInput (env : Env) (s : Adapter) : BuilderInput Env :=
  {| in_watchedFields := watchedFields s;
     in_subscribedTopics := subscribedTopics s;
     in_env := env |}.

(** The body of the render layout effect. *)
Definition renderCycle (env : Env) (s : Adapter) : Adapter :=
  match renderFn s with
  | None => s
  | Some renderFn =>
      let '(builder, renderState) := runBuilder (buildRenderState s) (builderInput env s) in
      let s := set_buildRenderState builder s in
      match renderState with
      | None => s
      | Some renderState =>
          if renderingRef s then set_slowRender true s
          else
            let s := set_slowRender false s in
            let '(resumeFrame, paused) := pipeline_pauseFrame (panelId s) (pipeline s) in
            let s := set_pipeline paused s in
            (* tell the panel to render and lockout future renders until
               rendering is complete *)
            let s := set_renderingRef true s in
            let s := set_error None s in
            let k := length (invocations s) in
            let s :=
              set_invocations
                (invocations s ++
                   [{| doneCalled := false;
                       resumeFrame := resumeFrame;
                       inv_panelId := panelId s |}]) s in
            let behaviour := renderFn renderState in
            let s := Nat.iter (doneCallsDuringRender behaviour) (done k) s in
            match thrown behaviour with
            | Some err => set_error (Some err) s
            | None => s
            end
      end
  end.

(** The number of render invocations whose completion callback has not run. *)
Fixpoint in_flight (invs : list Invocation) : nat :=
  match invs with
  | [] => 0
  | inv :: rest => (if doneCalled inv then 0 else 1) + in_flight rest
  end.

(** ** Lifecycle (lines 146-153 and 423-469) *)

(** The body of the [useUpdateEffect] on [config]. *)
Definition configUpdateEffect (config : JsValue) (s : Adapter) : Adapter :=
  let s := set_initialState config s in
  if isEqual_empty_object config then
    let id := uuids s in
    set_panelId id (set_uuids (S (uuids s)) s)
  else s.

(** [useMemo] of the extension context: recomputed when the panel id or the
    capabilities differ from those it was computed for, or when one of the
    dependencies the record does not hold (saveConfig, seekPlayback,
    openSiblingPanel, dataSourceProfile, ...) changed. *)
Definition useMemo_partialExtensionContext (otherDepsChanged : bool) (s : Adapter)
    : ExtensionContext * bool :=
  let computed :=
    {| ctx_panelId := panelId s;
       ctx_initialState := initialState s;
       ctx_capabilities := capabilities (playerState (pipeline s)) |} in
  match partialExtensionContext s with
  | None => (computed, true)
  | Some memo =>
      if otherDepsChanged then (computed, true)
      else if bool_decide (ctx_panelId memo = panelId s) &&
              bool_decide (ctx_capabilities memo = capabilities (playerState (pipeline s)))
      then (memo, false)
      else (computed, true)
  end.

(** The body of the layout effect that initialises the panel. *)
Definition panelInitEffect (ctx : ExtensionContext) (s : Adapter) : Completion Adapter :=
  match panelContainerRef s with
  | None => threw "Expected panel container to be mounted"
  | Some children =>
      (* Reset local state when the panel element is mounted or changes *)
      let s := set_renderFn None s in
      let s := set_buildRenderState initRenderStateBuilder s in
      let s := set_panelContainerRef (Some (children ++ [ctx_panelId ctx])) s in
      let s := set_log (log s ++ [info_init_panel (ctx_panelId ctx)]) s in
      returned (contextCalls ctx (initPanel s (ctx_initialState ctx)) s)
  end.

(** The clean-up function that effect returned. *)
Definition panelInitCleanup (ctx : ExtensionContext) (s : Adapter) : Adapter :=
  let s :=
    set_panelContainerRef
      (filter (fun id => id <> ctx_panelId ctx) <$> panelContainerRef s) s in
  let s := set_pipeline (pipeline_setSubscriptions (ctx_panelId ctx) [] (pipeline s)) s in
  set_pipeline (pipeline_setPublishers (ctx_panelId ctx) [] (pipeline s)) s.

(** What the component body returns: the border it draws. *)
Definition componentBody (s : Adapter) : Completion (option string) :=
  match error s with
  | Some e => threw e
  | None => returned (if slowRender s then Some "orange" else None)
  end.

(** The [initPanel] prop as a render finds it: the function of the previous
    render, or another one. *)
Definition with_initPanel (initPanelProp : option (JsValue -> list ContextCall))
    (s : Adapter) : Adapter :=
  match initPanelProp with
  | Some init => set_initPanel init s
  | None => s
  end.

(** The dependencies of the initialisation effect (line 458): the
    [initPanel] prop, and the panel id and the extension context, which the
    memo answers for. *)
Definition initDepsChanged (initPanelProp : option (JsValue -> list ContextCall))
    (contextChanged : bool) : bool :=
  contextChanged || (if initPanelProp is Some _ then true else false).

(** One render of the adapter with its commit: the body runs (and throws a
    stored error), React attaches the container ref, the clean-up of the
    initialisation effect runs if one of its dependencies changed, then the
    layout effects whose dependencies changed run in the order in which the
    component declares them.  [renderDepsChanged] says whether a dependency
    of the render effect changed, [initPanelProp] holds the [initPanel] prop
    when the parent passes another function than before. *)
Definition render (env : Env) (renderDepsChanged otherDepsChanged : bool)
    (initPanelProp : option (JsValue -> list ContextCall)) (s : Adapter)
    : Completion Adapter :=
  match componentBody s with
  | threw e => threw e
  | returned _ =>
      let s := with_initPanel initPanelProp s in
      let '(ctx, contextChanged) := useMemo_partialExtensionContext otherDepsChanged s in
      let changed := initDepsChanged initPanelProp contextChanged in
      let s := set_panelContainerRef (Some (default [] (panelContainerRef s))) s in
      let s :=
        match partialExtensionContext s with
        | Some previous => if changed then panelInitCleanup previous s else s
        | None => s
        end in
      let s := set_partialExtensionContext (Some ctx) s in
      let s := if renderDepsChanged then renderCycle env s else s in
      if changed then panelInitEffect ctx s else returned s
  end.

(** The adapter as first rendered: the initial values of its state cells and
    refs, next to a pipeline nobody has used yet. *)
Definition mount (init : JsValue -> list ContextCall) (config : JsValue) (ps : PlayerState)
    : Adapter :=
  {| initPanel := init;
     panelId := 0;
     error := None;
     watchedFields := ∅;
     subscribedTopics := [];
     renderFn := None;
     slowRender := false;
     buildRenderState := initRenderStateBuilder;
     initialState := config;
     advertisementsRef := [];
     renderingRef := false;
     panelContainerRef := None;
     partialExtensionContext := None;
     invocations := [];
     pipeline :=
       {| playerState := ps; subscriptions := ∅; publishers := ∅; frameTokens := [] |};
     hoverValue := None;
     siblingPanels := [];
     log := [];
     uuids := 1 |}.

(** What can happen to a mounted adapter. *)
Inductive Event :=
| ev_render (env : Env) (renderDepsChanged otherDepsChanged : bool)
    (initPanelProp : option (JsValue -> list ContextCall))
    (* React renders and commits the adapter, with another [initPanel] prop
       when one is given *)
| ev_config (config : JsValue)
    (* a commit with a changed [config] prop: the update effect runs *)
| ev_done (k : nat)
    (* the extension calls the completion callback of invocation [k] *)
| ev_call (ctx : ExtensionContext) (c : ContextCall)
    (* the extension calls a method of a context *)
| ev_playerState (ps : PlayerState).
    (* the player state of the pipeline changes *)

(** A render that throws commits nothing, and the update effect only runs
    after a commit. *)
Definition step (ev : Event) (s : Adapter) : Adapter :=
  match ev with
  | ev_render env renderDepsChanged otherDepsChanged initPanelProp =>
      match render env renderDepsChanged otherDepsChanged initPanelProp s with
      | returned s' => s'
      | threw _ => s
      end
  | ev_config config =>
      match componentBody s with
      | returned _ => configUpdateEffect config s
      | threw _ => s
      end
  | ev_done k => done k s
  | ev_call ctx c => contextCall ctx c s
  | ev_playerState ps => set_pipeline (pipeline_setPlayerState ps (pipeline s)) s
  end.

Definition run (evs : list Event) (s : Adapter) : Adapter :=
  fold_left (fun acc ev => step ev acc) evs s.

Inductive reachable : Adapter -> Prop :=
| reachable_mount init config ps : reachable (mount init config ps)
| reachable_step ev s : reachable s -> reachable (step ev s).

End Adapter.

(** ** Scenarios

    Concrete adapters over [frameCounterBuilder], used to run the
    definitions above. *)
Section Scenarios.

#[local] Existing Instance frameCounterBuilder.

(** A player that can advertise and whose data starts at 1.5 s. *)
Definition demo_player : PlayerState :=
  {| capabilities := [cap_advertise];
     activeData := Some {| startTime := {| sec := 1; nsec := 500000000 |} |} |}.


(** A render function that keeps the completion callback for later. *)
Definition demo_render_pending : RenderFn :=
  fun _ => {| doneCallsDuringRender := 0; thrown := None |}.

(** A render function that throws. *)
Definition demo_render_throwing : RenderFn :=
  fun _ => {| doneCallsDuringRender := 0; thrown := Some "render failed" |}.

(** An extension that installs [f] and watches the topics only when it is
    given a configuration. *)
Definition demo_initPanel (f : RenderFn) (initial : JsValue) : list ContextCall :=
  if isEqual_empty_object initial then [call_set_onRender (Some f)]
  else [call_watch "topics"; call_set_onRender (Some f)].

Definition demo_config : JsValue := JObject [("topic", JString "/pose")].

(** The pipeline snapshot with frame number [n]. *)
Definition frame (n : nat) : Env := n.

(** Mounted and committed once: [initPanel] has run. *)
Definition demo_initialised (f : RenderFn) : Adapter :=
  step (ev_render 1 true false None) (mount (demo_initPanel f) demo_config demo_player).

(** A second commit with a new frame: the render function has been
    invoked and has not called back. *)
Definition demo_rendering : Adapter :=
  step (ev_render 2 true false None) (demo_initialised demo_render_pending).

(** The context the extension of [demo_initialised] was given. *)
Definition demo_context : ExtensionContext :=
  {| ctx_panelId := 0;
     ctx_initialState := demo_config;
     ctx_capabilities := [cap_advertise] |}.

(** The extension advertised on "/cmd". *)
Definition demo_advertising : Adapter :=
  step (ev_call demo_context (call_advertise "/cmd" "geometry_msgs/Twist" None))
    (demo_initialised demo_render_pending).



End Scenarios.

(** ** What the specification says an entry of [subscribe] stands for *)

(** The topic an entry names. *)
Definition item_topic (item : SubscribeItem) : string :=
  match item with
  | TopicString t => t
  | TopicSubscription sub => sub_topic sub
  end.

(** Full preloading for a plain topic string, and for a subscription object
    exactly when its [preload] field is [true]. *)
Definition item_preload (item : SubscribeItem) : PreloadType :=
  match item with
  | TopicString _ => full
  | TopicSubscription sub => if bool_decide (sub_preload sub = Some true) then full else partial
  end.

Definition item_payload (item : SubscribeItem) : SubscribePayload :=
  {| payload_topic := item_topic item; preloadType := item_preload item |}.

Section Properties.

Context `{RSB : RenderStateBuilder}.

Implicit Types (s : Adapter) (ctx : ExtensionContext).

(** *** Vocabulary of the properties *)

(** Calling [subscribe] once per element of [calls], in order. *)
Definition subscribe_each ctx (calls : list (list SubscribeItem)) s : Adapter :=
  fold_left (fun acc topics => subscribe ctx topics acc) calls s.

(** The pipeline's registration for the panel id of [ctx] lists the
    advertisements the adapter tracks. *)
Definition publishers_in_sync ctx s : Prop :=
  publishersOf (pipeline s) (ctx_panelId ctx) = Map_values (advertisementsRef s).

(** The part of the adapter the render lock lives in. *)
Definition render_core s
    : list Invocation * bool * list FrameToken * PanelId * nat * option ExtensionContext :=
  (invocations s, renderingRef s, frameTokens (pipeline s), panelId s, uuids s,
   partialExtensionContext s).

(** What holds of every adapter that was mounted and then used: nothing is
    in flight while the lock is open, at most one invocation is in flight,
    the [k]-th invocation holds the [k]-th pause token, a token was resumed
    once if its invocation completed and never otherwise, and the panel id
    and the panel id of the memoised context are among the uuids drawn so
    far. *)
Record adapter_inv s : Prop :=
  { inv_idle : renderingRef s = false → in_flight (invocations s) = 0;
    inv_single : in_flight (invocations s) ≤ 1;
    inv_length : length (frameTokens (pipeline s)) = length (invocations s);
    inv_tokens : ∀ (k : nat) (inv : Invocation), invocations s !! k = Some inv →
      resumeFrame inv = k ∧
      ∃ tok : FrameToken, frameTokens (pipeline s) !! k = Some tok ∧
        tok_resumed tok = if doneCalled inv then 1 else 0;
    inv_panelId_drawn : panelId s < uuids s;
    inv_memo_drawn : ∀ memo : ExtensionContext,
      partialExtensionContext s = Some memo → ctx_panelId memo < uuids s }.

(** The state in which the hosted render function is entered. *)
Definition render_entered (b : Builder) s : Adapter :=
  let s0 := set_slowRender false (set_buildRenderState b s) in
  set_invocations
    (invocations s ++
       [{| doneCalled := false;
           resumeFrame := length (frameTokens (pipeline s));
           inv_panelId := panelId s |}])
    (set_error None
       (set_renderingRef true
          (set_pipeline (pipeline_pauseFrame (panelId s) (pipeline s)).2 s0))).

(** The closure of invocation [k] is [inv], and its [doneCalled] is set. *)
Definition completed (k : nat) (inv : Invocation) s : Prop :=
  invocations s !! k = Some inv ∧ doneCalled inv = true.

(** The state the layout effects of a commit start from: the container
    ref is attached, the initialisation effect has been cleaned up if it is
    about to run again, and the extension context is in the memo cell. *)
Definition commit_prepared ctx (changed : bool) s : Adapter :=
  let s := set_panelContainerRef (Some (default [] (panelContainerRef s))) s in
  let s :=
    match partialExtensionContext s with
    | Some previous => if changed then panelInitCleanup previous s else s
    | None => s
    end in
  set_partialExtensionContext (Some ctx) s.

(** What neither the completion callback nor the render cycle touches. *)
Definition lifecycle_core s :=
  (watchedFields s, initPanel s, panelId s, partialExtensionContext s,
   panelContainerRef s, initialState s, uuids s).

(** *** subscribe *)

Lemma subscribe_map_spec (topics : list SubscribeItem) (pushed : list string) :
  subscribe_map topics pushed = (pushed ++ (item_topic <$> topics), item_payload <$> topics).
Proof.
  revert pushed. induction topics as [|item rest IH]; intros pushed; simpl.
  - by rewrite app_nil_r.
  - destruct item as [t|sub]; rewrite IH, <- app_assoc; simpl; f_equal; f_equal.
    unfold item_payload; simpl. f_equal.
    destruct (sub_preload sub) as [[|]|]; by simpl.
Qed.

Lemma subscribe_subscribedTopics ctx topics s :
  subscribedTopics (subscribe ctx topics s) = item_topic <$> topics.
Proof. unfold subscribe. by rewrite subscribe_map_spec. Qed.

Lemma subscribe_subscriptions ctx topics s :
  subscriptions (pipeline (subscribe ctx topics s)) =
  <[ctx_panelId ctx := item_payload <$> topics]> (subscriptions (pipeline s)).
Proof. unfold subscribe. by rewrite subscribe_map_spec. Qed.

(** C3: after any sequence of [subscribe] calls the subscribed-topic list is
    the topic list of the last call, and the pipeline's subscription registry
    holds, for the panel id, the payloads of that last call only. *)
Theorem subscribe_last_write_wins ctx (earlier : list (list SubscribeItem))
    (last : list SubscribeItem) s :
  let s' := subscribe_each ctx (earlier ++ [last]) s in
  subscribedTopics s' = item_topic <$> last ∧
  subscriptions (pipeline s') !! ctx_panelId ctx = Some (item_payload <$> last).
Proof.
  unfold subscribe_each. rewrite fold_left_app. simpl.
  rewrite subscribe_subscribedTopics, subscribe_subscriptions.
  split; [done | apply lookup_insert_eq].
Qed.

(** C10: entry by entry, [subscribe] forwards a plain topic string with full
    preloading and a subscription object with full preloading exactly when
    its [preload] is [true] (partial otherwise), and puts the entry's topic
    at the same position of the subscribed-topic list. *)
Theorem subscribe_entry_payload ctx (topics : list SubscribeItem) s :
  let s' := subscribe ctx topics s in
  ∃ payloads : list SubscribePayload,
    subscriptions (pipeline s') !! ctx_panelId ctx = Some payloads ∧
    length payloads = length topics ∧
    length (subscribedTopics s') = length topics ∧
    ∀ (i : nat) (item : SubscribeItem), topics !! i = Some item →
      subscribedTopics s' !! i = Some (item_topic item) ∧
      match item with
      | TopicString t =>
          payloads !! i = Some {| payload_topic := t; preloadType := full |}
      | TopicSubscription sub =>
          payloads !! i =
            Some {| payload_topic := sub_topic sub;
                    preloadType := match sub_preload sub with
                                   | Some true => full
                                   | _ => partial
                                   end |}
      end.
Proof.
  simpl. exists (item_payload <$> topics).
  rewrite subscribe_subscribedTopics, subscribe_subscriptions, lookup_insert_eq.
  rewrite !length_fmap. split_and!; [done..|].
  intros i item Hi. rewrite !list_lookup_fmap, Hi. simpl. split; [done|].
  destruct item as [t|sub]; [done|].
  unfold item_payload, item_preload; simpl.
  destruct (sub_preload sub) as [[|]|]; by simpl.
Qed.

(** *** layout.addPanel *)

(** C8: for the position "sibling" [addPanel] returns, and has handed one
    more request to [openSiblingPanel], the last one, which carries the
    panel type, the update flag and the state function it was called with;
    nothing else of the adapter changes.  For every other position it throws
    what [assertNever] throws, and no request is made. *)
Theorem addPanel_only_sibling ctx (position type : string) (update : bool)
    (getState : JsValue -> JsValue) s :
  (position = "sibling" →
     ∃ (s' : Adapter) (request : OpenSiblingPanelParams),
       addPanel position type update getState s = returned s' ∧
       siblingPanels s' = siblingPanels s ++ [request] ∧
       panelType request = type ∧
       updateIfExists request = update ∧
       (∀ existingConfig : JsValue,
           siblingConfigCreator request existingConfig = getState existingConfig) ∧
       contextCall ctx (call_addPanel position type update getState) s = s' ∧
       pipeline s' = pipeline s ∧
       hoverValue s' = hoverValue s ∧
       watchedFields s' = watchedFields s ∧
       subscribedTopics s' = subscribedTopics s ∧
       advertisementsRef s' = advertisementsRef s ∧
       renderFn s' = renderFn s ∧
       error s' = error s) ∧
  (position ≠ "sibling" →
     addPanel position type update getState s =
       threw ("Unsupported position for addPanel: " +:+ position) ∧
     siblingPanels (contextCall ctx (call_addPanel position type update getState) s) =
       siblingPanels s).
Proof.
  simpl. unfold addPanel, assertNever. split; intros Hpos.
  - rewrite (proj2 (String.eqb_eq _ _) Hpos). eexists _, _. split; [reflexivity|]. simpl.
    split_and!; reflexivity.
  - by rewrite (proj2 (String.eqb_neq _ _) Hpos).
Qed.

(** *** setPreviewTime *)


(** *** advertise and unadvertise *)

Lemma Map_set_fresh {V : Type} (key : string) (v : V) (m : list (string * V)) :
  key ∉ m.*1 → Map_set key v m = m ++ [(key, v)].
Proof.
  induction m as [|[k old] rest IH]; simpl; [done|].
  intros Hfresh. apply not_elem_of_cons in Hfresh as [Hne Hrest].
  rewrite (proj2 (String.eqb_neq k key)) by done. by rewrite IH.
Qed.

Lemma Map_delete_last {V : Type} (key : string) (v : V) (m : list (string * V)) :
  key ∉ m.*1 → Map_delete key (m ++ [(key, v)]) = m.
Proof.
  induction m as [|[k old] rest IH]; simpl.
  - by rewrite String.eqb_refl.
  - intros Hfresh. apply not_elem_of_cons in Hfresh as [Hne Hrest].
    rewrite (proj2 (String.eqb_neq k key)) by done. by rewrite IH.
Qed.

Lemma Map_set_delete_fresh {V : Type} (key : string) (v : V) (m : list (string * V)) :
  key ∉ m.*1 → Map_delete key (Map_set key v m) = m.
Proof. intros Hfresh. rewrite Map_set_fresh by done. by apply Map_delete_last. Qed.

Lemma advertise_fn_in_sync ctx (topic datatype : string) (options : option JsValue) s :
  publishers_in_sync ctx (advertise_fn ctx topic datatype options s).
Proof. unfold publishers_in_sync, publishersOf. simpl. by rewrite lookup_insert_eq. Qed.

Lemma unadvertise_fn_in_sync ctx (topic : string) s :
  publishers_in_sync ctx (unadvertise_fn ctx topic s).
Proof. unfold publishers_in_sync, publishersOf. simpl. by rewrite lookup_insert_eq. Qed.

(** C5, as amended: for a topic the adapter does not advertise yet, and a
    registration that lists the adapter's advertisements, [advertise]
    followed by [unadvertise] restores the advertisement map and leaves the
    registration of the panel id as it was; no other panel id is touched. *)
Theorem advertise_unadvertise_fresh_topic ctx (topic datatype : string)
    (options : option JsValue) s
    (adv : string -> string -> option JsValue -> Adapter -> Adapter)
    (unadv : string -> Adapter -> Adapter) :
  advertise ctx = Some adv →
  unadvertise ctx = Some unadv →
  Map_has topic (advertisementsRef s) = false →
  publishers_in_sync ctx s →
  let s' := unadv topic (adv topic datatype options s) in
  advertisementsRef s' = advertisementsRef s ∧
  publishersOf (pipeline s') (ctx_panelId ctx) = publishersOf (pipeline s) (ctx_panelId ctx) ∧
  ∀ other : PanelId, other ≠ ctx_panelId ctx →
    publishers (pipeline s') !! other = publishers (pipeline s) !! other.
Proof.
  unfold advertise, unadvertise.
  destruct (includes _ _); [|done]. intros [= <-] [= <-] Hhas Hsync.
  apply bool_decide_eq_false in Hhas.
  set (s' := unadvertise_fn ctx topic (advertise_fn ctx topic datatype options s)).
  assert (advertisementsRef s' = advertisementsRef s) as Hmap.
  { subst s'. simpl. by apply Map_set_delete_fresh. }
  split; [done|]. split.
  - rewrite Hsync, <- Hmap. apply unadvertise_fn_in_sync.
  - intros other Hother. subst s'. simpl. by rewrite !lookup_insert_ne.
Qed.

(** *** What the extension context leaves alone *)

Lemma contextCall_core ctx (c : ContextCall) s :
  render_core (contextCall ctx c s) = render_core s.
Proof.
  destruct c; simpl; try done.
  - unfold subscribe. by destruct (subscribe_map _ _).
  - unfold advertise. by destruct (includes _ _).
  - unfold unadvertise. by destruct (includes _ _).
  - destruct stamp; simpl; [|done]. by destruct (activeData _).
  - unfold addPanel. by destruct (String.eqb _ _).
Qed.

Lemma contextCall_error ctx (c : ContextCall) s :
  error (contextCall ctx c s) = error s.
Proof.
  destruct c; simpl; try done.
  - unfold subscribe. by destruct (subscribe_map _ _).
  - unfold advertise. by destruct (includes _ _).
  - unfold unadvertise. by destruct (includes _ _).
  - destruct stamp; simpl; [|done]. by destruct (activeData _).
  - unfold addPanel. by destruct (String.eqb _ _).
Qed.

Lemma contextCall_buildRenderState ctx (c : ContextCall) s :
  buildRenderState (contextCall ctx c s) = buildRenderState s.
Proof.
  destruct c; simpl; try done.
  - unfold subscribe. by destruct (subscribe_map _ _).
  - unfold advertise. by destruct (includes _ _).
  - unfold unadvertise. by destruct (includes _ _).
  - destruct stamp; simpl; [|done]. by destruct (activeData _).
  - unfold addPanel. by destruct (String.eqb _ _).
Qed.

Lemma contextCall_watchedFields ctx (c : ContextCall) s :
  watchedFields s ⊆ watchedFields (contextCall ctx c s).
Proof.
  destruct c; simpl; try done.
  - set_solver.
  - unfold subscribe. by destruct (subscribe_map _ _).
  - unfold advertise. by destruct (includes _ _).
  - unfold unadvertise. by destruct (includes _ _).
  - destruct stamp; simpl; [|done]. by destruct (activeData _).
  - unfold addPanel. by destruct (String.eqb _ _).
Qed.

(** A property every single call keeps is kept by a whole script. *)
Lemma contextCalls_preserve (P : Adapter -> Prop) ctx (cs : list ContextCall) s :
  (∀ (c : ContextCall) (s0 : Adapter), P s0 → P (contextCall ctx c s0)) →
  P s → P (contextCalls ctx cs s).
Proof.
  intros Hstep. unfold contextCalls. revert s.
  induction cs as [|c cs IH]; intros s Hs; simpl; [done|].
  apply IH. by apply Hstep.
Qed.

(** *** The render lock *)

Lemma in_flight_app (l1 l2 : list Invocation) :
  in_flight (l1 ++ l2) = in_flight l1 + in_flight l2.
Proof. induction l1 as [|inv l1 IH]; simpl; [done|]. rewrite IH. lia. Qed.

Lemma in_flight_complete (l : list Invocation) (k : nat) (inv inv' : Invocation) :
  l !! k = Some inv → doneCalled inv = false → doneCalled inv' = true →
  S (in_flight (<[k := inv']> l)) = in_flight l.
Proof.
  revert k. induction l as [|x l IH]; intros k Hk Hinv Hinv'; [done|].
  destruct k as [|k]; simpl in *.
  - injection Hk as ->. rewrite Hinv, Hinv'. lia.
  - rewrite <- (IH k Hk Hinv Hinv'). lia.
Qed.

Lemma adapter_inv_core s s' :
  render_core s' = render_core s → adapter_inv s → adapter_inv s'.
Proof.
  unfold render_core. intros [= Hinvs Href Htoks Hid Huuids Hmemo] [H1 H2 H3 H4 H5 H6].
  split; rewrite ?Hinvs, ?Href, ?Htoks, ?Hid, ?Huuids, ?Hmemo; done.
Qed.

Lemma adapter_inv_mount init config ps : adapter_inv (mount init config ps).
Proof. split; simpl; try done; lia. Qed.

Lemma done_inv (k : nat) s : adapter_inv s → adapter_inv (done k s).
Proof.
  intros Hinv. unfold done. destruct (invocations s !! k) as [inv|] eqn:Hk; [|done].
  destruct (doneCalled inv) eqn:Hdone; [by apply (adapter_inv_core s)|].
  destruct Hinv as [H1 H2 H3 H4 H5 H6].
  destruct (H4 k inv Hk) as [Hres [tok [Htok Hcount]]]. rewrite Hdone in Hcount.
  set (inv' := {| doneCalled := true; resumeFrame := resumeFrame inv;
                  inv_panelId := inv_panelId inv |}).
  assert (S (in_flight (<[k := inv']> (invocations s))) = in_flight (invocations s)) as Hfl
    by by apply (in_flight_complete _ _ inv).
  split; simpl.
  - intros _. lia.
  - lia.
  - by rewrite length_alter, length_insert.
  - intros j invj Hj. rewrite Hres. destruct (decide (j = k)) as [->|Hne].
    + rewrite list_lookup_insert_eq in Hj by (by eapply lookup_lt_Some).
      injection Hj as <-. simpl. split; [done|].
      exists (resume_token tok). split; [|by simpl; rewrite Hcount].
      by rewrite list_lookup_alter_eq, Htok.
    + rewrite list_lookup_insert_ne in Hj by done.
      rewrite list_lookup_alter_ne by done. by apply H4.
  - done.
  - done.
Qed.

Lemma done_iter_inv (n k : nat) s : adapter_inv s → adapter_inv (Nat.iter n (done k) s).
Proof. intros Hinv. induction n as [|n IH]; simpl; [done|]. by apply done_inv. Qed.

Lemma renderCycle_inv (env : Env) s : adapter_inv s → adapter_inv (renderCycle env s).
Proof.
  intros Hinv. unfold renderCycle. destruct (renderFn s) as [f|]; [|done].
  destruct (runBuilder _ _) as [builder [renderState|]]; simpl;
    [|by apply (adapter_inv_core s)].
  destruct (renderingRef s) eqn:Href; [by apply (adapter_inv_core s)|].
  match goal with
  | |- adapter_inv (match ?o with Some _ => set_error _ ?x | None => _ end) =>
      assert (adapter_inv x) as Hx; [|by destruct o; [apply (adapter_inv_core x)|]]
  end.
  apply done_iter_inv. destruct Hinv as [H1 H2 H3 H4 H5 H6]. specialize (H1 Href).
  split; simpl.
  - done.
  - rewrite in_flight_app, H1. simpl. lia.
  - rewrite !length_app, H3. done.
  - intros j invj Hj. destruct (decide (j < length (invocations s))) as [Hlt|Hge].
    + rewrite lookup_app_l in Hj by done. rewrite lookup_app_l by lia. by apply H4.
    + rewrite lookup_app_r in Hj by lia. rewrite lookup_app_r by lia.
      rewrite H3. destruct (j - length (invocations s)) as [|d] eqn:Hd; [|done].
      simpl in Hj. injection Hj as <-. simpl. split; [lia|]. by eexists.
  - done.
  - done.
Qed.

(** **** Properties of the lock that every event keeps

    A property that only looks at [render_core] and that the completion
    callback, the render cycle, the config update effect and the refreshing
    of the context memo keep is kept by every event. *)
Section Preservation.

Variable P : Adapter -> Prop.
Hypothesis P_core : ∀ s s', render_core s' = render_core s → P s → P s'.
Hypothesis P_done : ∀ (k : nat) s, P s → P (done k s).
Hypothesis P_renderCycle : ∀ (env : Env) s, P s → P (renderCycle env s).
Hypothesis P_config : ∀ (config : JsValue) s, P s → P (configUpdateEffect config s).
Hypothesis P_memo : ∀ (otherDepsChanged : bool) s,
  P s →
  P (set_partialExtensionContext
       (Some (useMemo_partialExtensionContext otherDepsChanged s).1) s).

Lemma contextCall_preserve ctx (c : ContextCall) s : P s → P (contextCall ctx c s).
Proof. apply P_core, contextCall_core. Qed.

Lemma panelInitEffect_preserve ctx s s' :
  panelInitEffect ctx s = returned s' → P s → P s'.
Proof.
  unfold panelInitEffect. destruct (panelContainerRef s) as [children|]; [|done].
  intros [= <-] Hs. apply contextCalls_preserve; [apply contextCall_preserve|].
  by apply (P_core s).
Qed.

Lemma with_initPanel_preserve (initPanelProp : option (JsValue → list ContextCall)) s :
  P s → P (with_initPanel initPanelProp s).
Proof. destruct initPanelProp as [init|]; [apply (P_core s)|]; done. Qed.

Lemma render_preserve (env : Env) (renderDepsChanged otherDepsChanged : bool)
    (initPanelProp : option (JsValue → list ContextCall)) s s' :
  render env renderDepsChanged otherDepsChanged initPanelProp s = returned s' → P s → P s'.
Proof.
  unfold render. destruct (componentBody s); [|done].
  intros Hrender Hs. apply (with_initPanel_preserve initPanelProp) in Hs.
  set (s0 := with_initPanel initPanelProp s) in *. clearbody s0.
  pose proof (P_memo otherDepsChanged s0 Hs) as Hmemo.
  destruct (useMemo_partialExtensionContext _ _) as [ctx contextChanged].
  simpl in Hmemo.
  set (changed := initDepsChanged initPanelProp contextChanged) in *. clearbody changed.
  match type of Hrender with
  | (if changed then panelInitEffect ctx ?x else returned ?x) = _ => assert (P x) as Hx
  end.
  { assert (∀ x, P x → P (if renderDepsChanged then renderCycle env x else x)) as Hcycle.
    { intros x H0. destruct renderDepsChanged; [by apply P_renderCycle|done]. }
    apply Hcycle. simpl.
    destruct (partialExtensionContext s0) as [previous|]; simpl;
      [destruct changed|]; by apply (P_core (set_partialExtensionContext (Some ctx) s0)). }
  destruct changed; [by eapply panelInitEffect_preserve|]. by injection Hrender as <-.
Qed.

Lemma step_preserve (ev : Event) s : P s → P (step ev s).
Proof.
  intros Hs. destruct ev as [env rd od ip|config|k|ctx c|ps]; simpl.
  - destruct (render env rd od ip s) as [s'|] eqn:Hrender; [|done]. by eapply render_preserve.
  - destruct (componentBody s); [|done]. by apply P_config.
  - by apply P_done.
  - by apply contextCall_preserve.
  - by apply (P_core s).
Qed.

Lemma run_preserve (evs : list Event) s : P s → P (run evs s).
Proof.
  unfold run. revert s. induction evs as [|ev evs IH]; intros s Hs; simpl; [done|].
  by apply IH, step_preserve.
Qed.

End Preservation.

Lemma configUpdateEffect_inv (config : JsValue) s :
  adapter_inv s → adapter_inv (configUpdateEffect config s).
Proof.
  intros Hinv. unfold configUpdateEffect.
  destruct (isEqual_empty_object config); [|by apply (adapter_inv_core s)].
  destruct Hinv as [H1 H2 H3 H4 H5 H6]. split; simpl; try done; [lia|].
  intros memo Hmemo. specialize (H6 memo Hmemo). lia.
Qed.

Lemma useMemo_inv (otherDepsChanged : bool) s :
  adapter_inv s →
  adapter_inv
    (set_partialExtensionContext
       (Some (useMemo_partialExtensionContext otherDepsChanged s).1) s).
Proof.
  intros [H1 H2 H3 H4 H5 H6]. split; simpl; try done.
  intros memo. unfold useMemo_partialExtensionContext.
  destruct (partialExtensionContext s) as [old|] eqn:Hold; simpl.
  - destruct otherDepsChanged; simpl; [by intros [= <-]|].
    destruct (_ && _); simpl; intros [= <-]; [by apply H6|done].
  - by intros [= <-].
Qed.

Lemma step_inv (ev : Event) s : adapter_inv s → adapter_inv (step ev s).
Proof.
  apply step_preserve;
    [apply adapter_inv_core | intros k; apply done_inv | intros env; apply renderCycle_inv
    | intros config; apply configUpdateEffect_inv | apply useMemo_inv].
Qed.

Lemma reachable_inv s : reachable s → adapter_inv s.
Proof.
  induction 1 as [init config ps|ev s _ IH]; [apply adapter_inv_mount|by apply step_inv].
Qed.

Lemma reachable_run (evs : list Event) s : reachable s → reachable (run evs s).
Proof.
  unfold run. revert s. induction evs as [|ev evs IH]; intros s Hs; simpl; [done|].
  apply IH. by constructor.
Qed.

(** What [done] does to an invocation that is still in flight. *)
Lemma done_in_flight (k : nat) (inv : Invocation) s :
  invocations s !! k = Some inv → doneCalled inv = false →
  done k s =
    set_renderingRef false
      (set_pipeline (pipeline_resumeFrame (resumeFrame inv) (pipeline s))
         (set_invocations
            (<[k := {| doneCalled := true;
                       resumeFrame := resumeFrame inv;
                       inv_panelId := inv_panelId inv |}]> (invocations s)) s)).
Proof. intros Hk Hdone. unfold done. by rewrite Hk, Hdone. Qed.

(** What [done] does to an invocation that completed before. *)
Lemma done_completed (k : nat) (inv : Invocation) s :
  invocations s !! k = Some inv → doneCalled inv = true →
  done k s = set_log (log s ++ [warn_done_twice (inv_panelId inv)]) s.
Proof. intros Hk Hdone. unfold done. by rewrite Hk, Hdone. Qed.

(** The render cycle when the lock is taken: only the builder and the
    slow-render flag change. *)
Lemma renderCycle_locked (env : Env) (f : RenderFn) (b : Builder) (rs : RenderState) s :
  renderFn s = Some f →
  runBuilder (buildRenderState s) (builderInput env s) = (b, Some rs) →
  renderingRef s = true →
  renderCycle env s = set_slowRender true (set_buildRenderState b s).
Proof. intros Hf Hb Href. unfold renderCycle. rewrite Hf, Hb. simpl. by rewrite Href. Qed.

(** The render cycle when the lock is free. *)
Lemma renderCycle_free (env : Env) (f : RenderFn) (b : Builder) (rs : RenderState) s :
  renderFn s = Some f →
  runBuilder (buildRenderState s) (builderInput env s) = (b, Some rs) →
  renderingRef s = false →
  renderCycle env s =
    let s1 :=
      Nat.iter (doneCallsDuringRender (f rs)) (done (length (invocations s)))
        (render_entered b s) in
    match thrown (f rs) with
    | Some err => set_error (Some err) s1
    | None => s1
    end.
Proof. intros Hf Hb Href. unfold renderCycle. rewrite Hf, Hb. simpl. by rewrite Href. Qed.

Lemma done_length (k : nat) s : length (invocations (done k s)) = length (invocations s).
Proof.
  unfold done. destruct (invocations s !! k) as [inv|]; [|done].
  destruct (doneCalled inv); simpl; [done|]. by rewrite length_insert.
Qed.

Lemma done_slowRender (k : nat) s : slowRender (done k s) = slowRender s.
Proof.
  unfold done. destruct (invocations s !! k) as [inv|]; [|done]. by destruct (doneCalled inv).
Qed.

Lemma done_error (k : nat) s : error (done k s) = error s.
Proof.
  unfold done. destruct (invocations s !! k) as [inv|]; [|done]. by destruct (doneCalled inv).
Qed.

Lemma done_iter_facts (n k : nat) s :
  let s' := Nat.iter n (done k) s in
  length (invocations s') = length (invocations s) ∧
  slowRender s' = slowRender s ∧
  error s' = error s.
Proof.
  induction n as [|n [IH1 [IH2 IH3]]]; simpl; [done|].
  by rewrite done_length, done_slowRender, done_error.
Qed.

(** What the render cycle leaves behind when the lock was free. *)
Lemma renderCycle_free_facts (env : Env) (f : RenderFn) (b : Builder) (rs : RenderState) s :
  renderFn s = Some f →
  runBuilder (buildRenderState s) (builderInput env s) = (b, Some rs) →
  renderingRef s = false →
  let s' := renderCycle env s in
  slowRender s' = false ∧
  length (invocations s') = S (length (invocations s)) ∧
  error s' = thrown (f rs).
Proof.
  intros Hf Hb Href. simpl. rewrite (renderCycle_free env f b rs) by done. simpl.
  destruct (done_iter_facts (doneCallsDuringRender (f rs))
              (length (invocations s)) (render_entered b s)) as [Hlen [Hslow Herr]].
  simpl in Hlen, Hslow, Herr. rewrite length_app, Nat.add_1_r in Hlen.
  by destruct (thrown (f rs)).
Qed.

(** C1: in every state a mounted adapter can reach, at most one render
    invocation is in flight; a render state produced while one is in flight
    raises the slow-render flag and invokes nothing; and once the completion
    callback of the invocation in flight has run, the next render state is
    rendered (one more invocation, one more pause token) with the flag
    lowered. *)
Theorem single_flight_render s :
  reachable s →
  in_flight (invocations s) ≤ 1 ∧
  (∀ (env : Env) (f : RenderFn) (b : Builder) (rs : RenderState),
      renderFn s = Some f →
      runBuilder (buildRenderState s) (builderInput env s) = (b, Some rs) →
      in_flight (invocations s) = 1 →
      let s' := renderCycle env s in
      slowRender s' = true ∧ invocations s' = invocations s ∧ pipeline s' = pipeline s) ∧
  (∀ (k : nat) (inv : Invocation) (env : Env) (f : RenderFn) (b : Builder) (rs : RenderState),
      invocations s !! k = Some inv → doneCalled inv = false →
      renderFn s = Some f →
      runBuilder (buildRenderState s) (builderInput env s) = (b, Some rs) →
      let s1 := done k s in
      let s' := renderCycle env s1 in
      in_flight (invocations s1) = 0 ∧
      slowRender s' = false ∧
      length (invocations s') = S (length (invocations s)) ∧
      length (frameTokens (pipeline s')) = S (length (frameTokens (pipeline s))) ∧
      in_flight (invocations s') ≤ 1).
Proof.
  intros Hreach. pose proof (reachable_inv s Hreach) as Hinv.
  split; [apply Hinv|]. split.
  - intros env f b rs Hf Hb Hfl.
    assert (renderingRef s = true) as Href.
    { destruct (renderingRef s) eqn:Href; [done|]. pose proof (inv_idle s Hinv Href). lia. }
    simpl. by rewrite (renderCycle_locked env f b rs).
  - intros k inv env f b rs Hk Hdone Hf Hb.
    pose proof (done_inv k s Hinv) as Hinv1.
    pose proof (renderCycle_inv env _ Hinv1) as Hinv'.
    assert (renderingRef (done k s) = false) as Href
      by by rewrite (done_in_flight k inv).
    assert (renderFn (done k s) = Some f) as Hf1
      by by rewrite (done_in_flight k inv).
    assert (runBuilder (buildRenderState (done k s)) (builderInput env (done k s)) =
            (b, Some rs)) as Hb1
      by by rewrite (done_in_flight k inv).
    destruct (renderCycle_free_facts env f b rs (done k s) Hf1 Hb1 Href)
      as [Hslow [Hlen _]].
    rewrite done_length in Hlen.
    simpl. split_and!.
    + by apply Hinv1.
    + done.
    + done.
    + by rewrite (inv_length _ Hinv'), (inv_length _ Hinv).
    + apply Hinv'.
Qed.

(** C9: when the render-state builder returns nothing the render cycle
    invokes no render function, takes no pause token and leaves the
    slow-render flag, the stored error and the rendering flag as they were;
    only the builder itself may have moved on. *)
Theorem renderCycle_skips_empty_frame (env : Env) s :
  (runBuilder (buildRenderState s) (builderInput env s)).2 = None →
  let s' := renderCycle env s in
  invocations s' = invocations s ∧
  pipeline s' = pipeline s ∧
  slowRender s' = slowRender s ∧
  error s' = error s ∧
  renderingRef s' = renderingRef s ∧
  ∃ b : Builder, s' = set_buildRenderState b s.
Proof.
  intros Hnone. simpl. unfold renderCycle. destruct (renderFn s) as [f|].
  - destruct (runBuilder _ _) as [b renderState]. simpl in Hnone. subst renderState.
    simpl. split_and!; try done. by exists b.
  - split_and!; try done. exists (buildRenderState s). by destruct s.
Qed.

(** *** The completion callback *)

Lemma completed_core (k : nat) (inv : Invocation) s s' :
  render_core s' = render_core s → completed k inv s → completed k inv s'.
Proof. unfold render_core, completed. intros [= -> _ _ _ _ _]. done. Qed.

Lemma completed_done (k : nat) (inv : Invocation) (j : nat) s :
  completed k inv s → completed k inv (done j s).
Proof.
  intros [Hk Hdone]. unfold done, completed.
  destruct (invocations s !! j) as [invj|] eqn:Hj; [|done].
  destruct (doneCalled invj) eqn:Hdonej; simpl; [done|].
  split; [|done]. rewrite list_lookup_insert_ne; [done|].
  intros ->. congruence.
Qed.

Lemma completed_done_iter (k : nat) (inv : Invocation) (n j : nat) s :
  completed k inv s → completed k inv (Nat.iter n (done j) s).
Proof. intros Hs. induction n as [|n IH]; simpl; [done|]. by apply completed_done. Qed.

Lemma completed_renderCycle (k : nat) (inv : Invocation) (env : Env) s :
  completed k inv s → completed k inv (renderCycle env s).
Proof.
  intros Hs. unfold renderCycle. destruct (renderFn s) as [f|]; [|done].
  destruct (runBuilder _ _) as [builder [renderState|]]; simpl; [|done].
  destruct (renderingRef s); [done|].
  match goal with
  | |- completed k inv (match ?o with Some _ => set_error _ ?x | None => _ end) =>
      assert (completed k inv x) as Hx; [|by destruct o]
  end.
  apply completed_done_iter. destruct Hs as [Hk Hdone]. split; [|done]. simpl.
  rewrite lookup_app_l; [done|]. by eapply lookup_lt_Some.
Qed.

Lemma completed_configUpdateEffect (k : nat) (inv : Invocation) (config : JsValue) s :
  completed k inv s → completed k inv (configUpdateEffect config s).
Proof. unfold configUpdateEffect. by destruct (isEqual_empty_object config). Qed.

Lemma completed_run (k : nat) (inv : Invocation) (evs : list Event) s :
  completed k inv s → completed k inv (run evs s).
Proof.
  apply run_preserve;
    [apply completed_core | intros j; apply completed_done
    | intros env; apply completed_renderCycle
    | intros config; apply completed_configUpdateEffect
    | done].
Qed.

(** C2: once the completion callback of an invocation has been called,
    calling it again, whatever happened in between, only writes the warning
    to the log; its pause token stays resumed exactly once, and the rendering
    flag, which the first call lowered, is not written again. *)
Theorem done_idempotent (k : nat) (inv : Invocation) (evs : list Event) s :
  reachable s →
  invocations s !! k = Some inv →
  let s1 := done k s in
  let s2 := run evs s1 in
  done k s2 = set_log (log s2 ++ [warn_done_twice (inv_panelId inv)]) s2 ∧
  (∃ tok : FrameToken,
      frameTokens (pipeline (done k s2)) !! resumeFrame inv = Some tok ∧
      tok_resumed tok = 1) ∧
  (doneCalled inv = false →
     renderingRef s1 = false ∧
     ∃ tok : FrameToken,
       frameTokens (pipeline s) !! resumeFrame inv = Some tok ∧ tok_resumed tok = 0).
Proof.
  intros Hreach Hk. simpl.
  set (inv' := {| doneCalled := true; resumeFrame := resumeFrame inv;
                  inv_panelId := inv_panelId inv |}).
  assert (completed k inv' (done k s)) as H1.
  { destruct (doneCalled inv) eqn:Hdone.
    - rewrite (done_completed k inv) by done. split; [|done]. simpl.
      rewrite Hk. f_equal. subst inv'. destruct inv; simpl in *. by subst.
    - rewrite (done_in_flight k inv) by done. split; [|done]. simpl.
      apply list_lookup_insert_eq. by eapply lookup_lt_Some. }
  pose proof (completed_run k inv' evs _ H1) as [H2 Hdone2].
  pose proof (reachable_inv _ Hreach) as Hinv.
  assert (adapter_inv (done k (run evs (done k s)))) as Hinv2.
  { apply reachable_inv. apply (reachable_step (ev_done k)), reachable_run.
    by apply (reachable_step (ev_done k)). }
  assert (done k (run evs (done k s)) =
          set_log (log (run evs (done k s)) ++ [warn_done_twice (inv_panelId inv)])
            (run evs (done k s))) as Hagain
    by by rewrite (done_completed k inv').
  split_and!.
  - done.
  - destruct (inv_tokens _ Hinv k inv Hk) as [Hres _].
    destruct (inv_tokens _ Hinv2 k inv') as [_ [tok [Htok Hcount]]].
    { by rewrite Hagain. }
    exists tok. by rewrite Hres.
  - intros Hdone. split; [by rewrite (done_in_flight k inv)|].
    destruct (inv_tokens _ Hinv k inv Hk) as [Hres [tok [Htok Hcount]]].
    exists tok. by rewrite Hres, Htok, Hcount, Hdone.
Qed.

(** *** A render function that throws *)

Lemma done_panelContainerRef (k : nat) s :
  panelContainerRef (done k s) = panelContainerRef s.
Proof.
  unfold done. destruct (invocations s !! k) as [inv|]; [|done]. by destruct (doneCalled inv).
Qed.

Lemma renderCycle_panelContainerRef (env : Env) s :
  panelContainerRef (renderCycle env s) = panelContainerRef s.
Proof.
  unfold renderCycle. destruct (renderFn s) as [f|]; [|done].
  destruct (runBuilder _ _) as [builder [renderState|]]; simpl; [|done].
  destruct (renderingRef s); [done|].
  match goal with
  | |- panelContainerRef (match ?o with Some _ => set_error _ ?x | None => _ end) = _ =>
      assert (panelContainerRef x = panelContainerRef s) as Hx; [|by destruct o]
  end.
  induction (doneCallsDuringRender _) as [|n IH]; simpl; [done|].
  by rewrite done_panelContainerRef.
Qed.

(** An adapter that stored an error throws it from every render, and such
    a render commits nothing. *)
Lemma render_rethrows (e : Error) (env : Env) (renderDepsChanged otherDepsChanged : bool)
    (initPanelProp : option (JsValue → list ContextCall)) s :
  error s = Some e →
  render env renderDepsChanged otherDepsChanged initPanelProp s = threw e ∧
  step (ev_render env renderDepsChanged otherDepsChanged initPanelProp) s = s.
Proof. intros He. unfold step, render, componentBody. by rewrite He. Qed.

Lemma render_unfold (env : Env) (renderDepsChanged otherDepsChanged : bool)
    (initPanelProp : option (JsValue → list ContextCall)) s :
  error s = None →
  render env renderDepsChanged otherDepsChanged initPanelProp s =
    let s0 := with_initPanel initPanelProp s in
    let ctx := (useMemo_partialExtensionContext otherDepsChanged s0).1 in
    let changed :=
      initDepsChanged initPanelProp (useMemo_partialExtensionContext otherDepsChanged s0).2 in
    let s1 := commit_prepared ctx changed s0 in
    let s2 := if renderDepsChanged then renderCycle env s1 else s1 in
    if changed then panelInitEffect ctx s2 else returned s2.
Proof.
  intros Herr. unfold render, componentBody. rewrite Herr.
  by destruct (useMemo_partialExtensionContext _ _) as [ctx changed].
Qed.

(** The extension context does not depend on the [initPanel] prop. *)
Lemma with_initPanel_memo (initPanelProp : option (JsValue → list ContextCall))
    (otherDepsChanged : bool) s :
  useMemo_partialExtensionContext otherDepsChanged (with_initPanel initPanelProp s) =
    useMemo_partialExtensionContext otherDepsChanged s.
Proof. by destruct initPanelProp. Qed.

(** Another [initPanel] prop changes no cell of the adapter. *)
Lemma with_initPanel_cells (initPanelProp : option (JsValue → list ContextCall)) s :
  let s0 := with_initPanel initPanelProp s in
  initPanel s0 = default (initPanel s) initPanelProp ∧
  render_core s0 = render_core s ∧
  error s0 = error s ∧
  renderFn s0 = renderFn s ∧
  buildRenderState s0 = buildRenderState s ∧
  subscribedTopics s0 = subscribedTopics s ∧
  watchedFields s0 = watchedFields s ∧
  panelContainerRef s0 = panelContainerRef s ∧
  initialState s0 = initialState s ∧
  uuids s0 = uuids s ∧
  advertisementsRef s0 = advertisementsRef s ∧
  pipeline s0 = pipeline s ∧
  log s0 = log s ∧
  (∀ env : Env, builderInput env s0 = builderInput env s).
Proof. destruct initPanelProp as [init|]; simpl; split_and!; done. Qed.

Lemma commit_prepared_facts ctx (changed : bool) s :
  let s1 := commit_prepared ctx changed s in
  invocations s1 = invocations s ∧
  renderingRef s1 = renderingRef s ∧
  panelId s1 = panelId s ∧
  partialExtensionContext s1 = Some ctx ∧
  renderFn s1 = renderFn s ∧
  buildRenderState s1 = buildRenderState s ∧
  watchedFields s1 = watchedFields s ∧
  subscribedTopics s1 = subscribedTopics s ∧
  error s1 = error s ∧
  initialState s1 = initialState s ∧
  initPanel s1 = initPanel s ∧
  is_Some (panelContainerRef s1).
Proof.
  unfold commit_prepared. simpl.
  destruct (partialExtensionContext s) as [previous|]; [destruct changed|];
    simpl; split_and!; done.
Qed.

(** C7: a render function that throws has its error stored by the render
    cycle, which invoked it once; the commit in which this happens goes
    through, and from then on every render of the adapter throws that error
    and commits nothing, so the render function is not invoked again. *)
Theorem render_error_captured_and_rethrown (env : Env) (otherDepsChanged : bool)
    (initPanelProp : option (JsValue → list ContextCall)) (f : RenderFn) (b : Builder) (rs : RenderState) (e : Error) s :
  error s = None →
  renderFn s = Some f →
  runBuilder (buildRenderState s) (builderInput env s) = (b, Some rs) →
  renderingRef s = false →
  thrown (f rs) = Some e →
  (error (renderCycle env s) = Some e ∧
   length (invocations (renderCycle env s)) = S (length (invocations s))) ∧
  ∃ s' : Adapter,
    render env true otherDepsChanged initPanelProp s = returned s' ∧
    error s' = Some e ∧
    length (invocations s') = S (length (invocations s)) ∧
    ∀ (env' : Env) (renderDepsChanged' otherDepsChanged' : bool)
      (initPanelProp' : option (JsValue → list ContextCall)),
      render env' renderDepsChanged' otherDepsChanged' initPanelProp' s' = threw e ∧
      step (ev_render env' renderDepsChanged' otherDepsChanged' initPanelProp') s' = s'.
Proof.
  intros Herr Hf Hb Href Hthrown. split.
  { destruct (renderCycle_free_facts env f b rs s Hf Hb Href) as [_ [Hlen He]].
    by rewrite He, Hthrown. }
  rewrite render_unfold by done. cbv zeta.
  destruct (with_initPanel_cells initPanelProp s)
    as (_ & Hcore0 & _ & Hf0 & Hb0 & _ & _ & _ & _ & _ & _ & _ & _ & Hinput0).
  unfold render_core in Hcore0. injection Hcore0 as Hinvs0 Href0 _ _ _ _.
  set (s0 := with_initPanel initPanelProp s) in *.
  set (ctx := (useMemo_partialExtensionContext otherDepsChanged s0).1).
  set (changed := initDepsChanged initPanelProp _).
  destruct (commit_prepared_facts ctx changed s0)
    as (Hinvs1 & Href1 & _ & _ & Hf1 & Hb1 & Hw1 & Ht1 & _ & _ & _ & Hcontainer).
  set (s1 := commit_prepared ctx changed s0) in *. clearbody s1 changed ctx.
  rewrite Href0, Href in Href1.
  assert (runBuilder (buildRenderState s1) (builderInput env s1) = (b, Some rs)) as Hb1'.
  { rewrite <- Hb, <- Hb0, <- Hinput0. unfold builderInput. by rewrite Hb1, Hw1, Ht1. }
  rewrite Hf0, Hf in Hf1.
  destruct (renderCycle_free_facts env f b rs s1 Hf1 Hb1' Href1) as [_ [Hlen He]].
  rewrite Hthrown in He. rewrite Hinvs1, Hinvs0 in Hlen.
  destruct changed.
  - unfold panelInitEffect. rewrite renderCycle_panelContainerRef.
    destruct Hcontainer as [children ->].
    eexists. split; [done|].
    split_and!.
    + apply (contextCalls_preserve (fun x => error x = Some e)); [|done].
      intros c x. by rewrite contextCall_error.
    + apply (contextCalls_preserve
               (fun x => length (invocations x) = S (length (invocations s)))); [|done].
      intros c x H0. pose proof (contextCall_core ctx c x) as Hc.
      unfold render_core in Hc. injection Hc as Hi _ _ _ _ _. by rewrite Hi.
    + intros env' rd' od' ip'. apply render_rethrows.
      apply (contextCalls_preserve (fun x => error x = Some e)); [|done].
      intros c x. by rewrite contextCall_error.
  - eexists. split; [done|]. split_and!; [done..|].
    intros env' rd' od' ip'. by apply render_rethrows.
Qed.

(** *** Clearing the configuration *)

Lemma done_lifecycle (k : nat) s : lifecycle_core (done k s) = lifecycle_core s.
Proof.
  unfold done. destruct (invocations s !! k) as [inv|]; [|done]. by destruct (doneCalled inv).
Qed.

Lemma renderCycle_lifecycle (env : Env) s :
  lifecycle_core (renderCycle env s) = lifecycle_core s.
Proof.
  unfold renderCycle. destruct (renderFn s) as [f|]; [|done].
  destruct (runBuilder _ _) as [builder [renderState|]]; simpl; [|done].
  destruct (renderingRef s); [done|].
  match goal with
  | |- lifecycle_core (match ?o with Some _ => set_error _ ?x | None => _ end) = _ =>
      assert (lifecycle_core x = lifecycle_core s) as Hx; [|by destruct o]
  end.
  induction (doneCallsDuringRender _) as [|n IH]; simpl; [done|].
  by rewrite done_lifecycle.
Qed.

(** After the update effect drew a new panel id, the context memo is stale
    whatever else changed. *)
Lemma useMemo_after_new_panelId (otherDepsChanged : bool) s :
  (∀ memo : ExtensionContext,
      partialExtensionContext s = Some memo → ctx_panelId memo ≠ panelId s) →
  useMemo_partialExtensionContext otherDepsChanged s =
    ({| ctx_panelId := panelId s;
        ctx_initialState := initialState s;
        ctx_capabilities := capabilities (playerState (pipeline s)) |}, true).
Proof.
  intros Hstale. unfold useMemo_partialExtensionContext.
  destruct (partialExtensionContext s) as [memo|]; [|done].
  destruct otherDepsChanged; [done|].
  by rewrite (bool_decide_eq_false_2 _ (Hstale memo eq_refl)).
Qed.

(** X23: when the configuration becomes the empty object, the update
    effect draws a panel id that was never used, and the next commit
    re-initialises the panel for it: the render function is dropped, the
    render-state builder is a new one, and [initPanel] (the prop of that
    commit) runs on a context made for the new id and the empty
    configuration.  The initialisation effect starts [initPanel] from the
    watched fields as they were, and what was watched stays watched. *)
Theorem config_clear_reinitialises (config : JsValue) (env : Env)
    (renderDepsChanged otherDepsChanged : bool)
    (initPanelProp : option (JsValue → list ContextCall)) s :
  reachable s →
  error s = None →
  isEqual_empty_object config = true →
  let s1 := configUpdateEffect config s in
  let ctx :=
    {| ctx_panelId := uuids s;
       ctx_initialState := config;
       ctx_capabilities := capabilities (playerState (pipeline s)) |} in
  panelId s1 = uuids s ∧
  panelId s1 ≠ panelId s ∧
  ∃ s0 s2 : Adapter,
    render env renderDepsChanged otherDepsChanged initPanelProp s1 = returned s2 ∧
    s2 = contextCalls ctx (default (initPanel s) initPanelProp config) s0 ∧
    renderFn s0 = None ∧
    buildRenderState s0 = initRenderStateBuilder ∧
    watchedFields s0 = watchedFields s ∧
    panelId s2 = uuids s ∧
    partialExtensionContext s2 = Some ctx ∧
    buildRenderState s2 = initRenderStateBuilder ∧
    watchedFields s ⊆ watchedFields s2.
Proof.
  intros Hreach Herr Hempty. pose proof (reachable_inv s Hreach) as Hinv.
  pose proof (inv_panelId_drawn s Hinv) as Hid.
  pose proof (inv_memo_drawn s Hinv) as Hmemo.
  simpl. unfold configUpdateEffect. rewrite Hempty.
  set (s1 := set_panelId _ _).
  split; [done|]. split; [simpl; lia|].
  rewrite render_unfold by done. cbv zeta.
  destruct (with_initPanel_cells initPanelProp s1)
    as (Hprop & Hcore0 & _ & _ & _ & _ & Hw0 & _ & Hstate0 & _ & _ & Hpipe0 & _ & _).
  unfold render_core in Hcore0. injection Hcore0 as _ _ _ Hid0 _ Hmemo0.
  set (s1' := with_initPanel initPanelProp s1) in *. clearbody s1'.
  rewrite (useMemo_after_new_panelId otherDepsChanged s1'); cycle 1.
  { intros memo Hm. rewrite Hmemo0 in Hm. rewrite Hid0.
    specialize (Hmemo memo Hm). simpl. lia. }
  cbn [fst snd initDepsChanged orb]. rewrite Hid0, Hstate0, Hpipe0.
  set (ctx := Build_ExtensionContext _ _ _).
  destruct (commit_prepared_facts ctx true s1')
    as (_ & _ & Hid1 & Hmemo1 & _ & _ & Hw1 & _ & _ & Hinit1 & Hpanel1 & [children Hc1]).
  set (x1 := commit_prepared ctx true s1') in *. clearbody x1.
  set (x2 := if renderDepsChanged then renderCycle env x1 else x1).
  assert (lifecycle_core x2 = lifecycle_core x1) as Hlife.
  { subst x2. destruct renderDepsChanged; [apply renderCycle_lifecycle|done]. }
  clearbody x2. unfold lifecycle_core in Hlife.
  injection Hlife as Hw2 Hpanel2 Hid2 Hmemo2 Hc2 Hinit2 _.
  unfold panelInitEffect. rewrite Hc2, Hc1.
  eexists _, _. split; [reflexivity|]. simpl.
  rewrite Hpanel2, Hpanel1, Hprop. simpl. split; [done|].
  split_and!; try done.
  - simpl. by rewrite Hw2, Hw1, Hw0.
  - apply (contextCalls_preserve (fun s0 => panelId s0 = uuids s)).
    + intros c s0 H0. pose proof (contextCall_core ctx c s0) as Hc.
      unfold render_core in Hc. injection Hc as _ _ _ Hi _ _. by rewrite Hi.
    + simpl. by rewrite Hid2, Hid1, Hid0.
  - apply (contextCalls_preserve (fun s0 => partialExtensionContext s0 = Some ctx)).
    + intros c s0 H0. pose proof (contextCall_core ctx c s0) as Hc.
      unfold render_core in Hc. injection Hc as _ _ _ _ _ Hi. by rewrite Hi.
    + simpl. by rewrite Hmemo2, Hmemo1.
  - apply (contextCalls_preserve (fun s0 => buildRenderState s0 = initRenderStateBuilder));
      [|done].
    intros c s0. by rewrite contextCall_buildRenderState.
  - apply (contextCalls_preserve (fun s0 => watchedFields s ⊆ watchedFields s0)).
    + intros c s0 H0. etrans; [exact H0|apply contextCall_watchedFields].
    + simpl. by rewrite Hw2, Hw1, Hw0.
Qed.

End Properties.

(** ** The theorems at work on the scenarios *)
Section Witnesses.

#[local] Existing Instance frameCounterBuilder.

Lemma demo_initialised_reachable (f : RenderFn) : reachable (demo_initialised f).
Proof. apply reachable_step, reachable_mount. Qed.

Lemma demo_rendering_reachable : reachable demo_rendering.
Proof. apply reachable_step, demo_initialised_reachable. Qed.

(** C1 on [demo_rendering]: one invocation is in flight, frame 3 only raises
    the slow-render flag, and after the callback frame 3 is rendered. *)
Lemma single_flight_render_witness :
  in_flight (invocations demo_rendering) ≤ 1 ∧
  slowRender (renderCycle (frame 3) demo_rendering) = true ∧
  invocations (renderCycle (frame 3) demo_rendering) = invocations demo_rendering ∧
  slowRender (renderCycle (frame 3) (done 0 demo_rendering)) = false ∧
  length (invocations (renderCycle (frame 3) (done 0 demo_rendering))) = 2.
Proof.
  destruct (single_flight_render demo_rendering demo_rendering_reachable) as (H1 & H2 & H3).
  split; [exact H1|].
  destruct (H2 (frame 3) demo_render_pending (Some 3) 3) as (Ha & Hb & _);
    [vm_compute; reflexivity..|].
  destruct (H3 0 {| doneCalled := false; resumeFrame := 0; inv_panelId := 0 |}
              (frame 3) demo_render_pending (Some 3) 3) as (_ & Hc & Hd & _);
    [vm_compute; reflexivity..|].
  split; [exact Ha|]. split; [exact Hb|]. split; [exact Hc|exact Hd].
Defined.

(** C2 on [demo_rendering]: the callback of invocation 0 is called, frame 3
    starts invocation 1, and the callback of invocation 0 is called again. *)
Lemma done_idempotent_witness :
  done 0 (run [ev_render (frame 3) true false None] (done 0 demo_rendering)) =
    set_log
      (log (run [ev_render (frame 3) true false None] (done 0 demo_rendering)) ++
         [warn_done_twice 0])
      (run [ev_render (frame 3) true false None] (done 0 demo_rendering)) ∧
  renderingRef (done 0 demo_rendering) = false.
Proof.
  destruct (done_idempotent 0 {| doneCalled := false; resumeFrame := 0; inv_panelId := 0 |}
              [ev_render (frame 3) true false None] demo_rendering demo_rendering_reachable)
    as (Hagain & _ & Hfirst); [vm_compute; reflexivity|].
  split; [exact Hagain|]. apply Hfirst. reflexivity.
Defined.

(** X23 on [demo_rendering]: the configuration is cleared. *)
Lemma config_clear_reinitialises_witness :
  ∃ s2 : Adapter,
    render (frame 3) true false None (configUpdateEffect (JObject []) demo_rendering) =
      returned s2 ∧
    panelId s2 = 1 ∧
    buildRenderState s2 = None.
Proof.
  destruct (config_clear_reinitialises (JObject []) (frame 3) true false None demo_rendering
              demo_rendering_reachable)
    as (_ & _ & s0 & s2 & Hrender & _ & _ & _ & _ & Hid & _ & Hbuilder & _);
    [vm_compute; reflexivity..|].
  exists s2. split; [exact Hrender|]. split; [exact Hid|exact Hbuilder].
Defined.

(** C4: [demo_rendering] was mounted with a configuration and watches
    "topics".  Its configuration is cleared, and the next commit initialises
    the panel again under the new id 1, from a new render-state builder, by
    an [initPanel] run that watches nothing.  "topics" is still watched
    then, where the same panel mounted with the empty configuration watches
    nothing: the re-initialisation does not reset the watched fields. *)
Lemma config_clear_keeps_watchedFields :
  isEqual_empty_object (initialState demo_rendering) = false ∧
  panelId demo_rendering = 0 ∧
  elements (watchedFields demo_rendering) = ["topics"] ∧
  panelId
    (step (ev_render (frame 3) true false None)
       (step (ev_config (JObject [])) demo_rendering)) = 1 ∧
  buildRenderState
    (step (ev_render (frame 3) true false None)
       (step (ev_config (JObject [])) demo_rendering)) = initRenderStateBuilder ∧
  log (step (ev_render (frame 3) true false None)
         (step (ev_config (JObject [])) demo_rendering)) =
    [info_init_panel 0; info_init_panel 1] ∧
  initPanel demo_rendering (JObject []) = [call_set_onRender (Some demo_render_pending)] ∧
  elements
    (watchedFields
       (step (ev_render (frame 3) true false None)
          (step (ev_config (JObject [])) demo_rendering))) = ["topics"] ∧
  elements
    (watchedFields
       (step (ev_render (frame 3) true false None)
          (mount (initPanel demo_rendering) (JObject []) demo_player))) = [].
Proof. vm_compute. repeat split. Qed.

(** C5 on [demo_advertising], for a topic not advertised so far. *)
Lemma advertise_unadvertise_fresh_topic_witness :
  publishersOf
    (pipeline
       (unadvertise_fn demo_context "/goal"
          (advertise_fn demo_context "/goal" "geometry_msgs/Pose" None demo_advertising)))
    0 =
  publishersOf (pipeline demo_advertising) 0.
Proof.
  destruct (advertise_unadvertise_fresh_topic demo_context "/goal" "geometry_msgs/Pose" None
              demo_advertising (advertise_fn demo_context) (unadvertise_fn demo_context))
    as (_ & Hsame & _); [vm_compute; reflexivity..|].
  exact Hsame.
Defined.

(** C5, counterexample: "/cmd" is advertised already; advertising it again
    and unadvertising it leaves the panel without publishers, where it had
    one before. *)
Lemma advertise_unadvertise_drops_advertised_topic :
  publishersOf (pipeline demo_advertising) 0 =
    [{| adv_topic := "/cmd"; adv_datatype := "geometry_msgs/Twist"; adv_options := None |}] ∧
  publishersOf
    (pipeline
       (step (ev_call demo_context (call_unadvertise "/cmd"))
          (step (ev_call demo_context (call_advertise "/cmd" "std_msgs/String" None))
             demo_advertising)))
    0 = [].
Proof. vm_compute. split; reflexivity. Qed.


(** C7 on a panel whose render function throws at frame 2. *)
Lemma render_error_captured_and_rethrown_witness :
  ∃ s' : Adapter,
    render (frame 2) true false None (demo_initialised demo_render_throwing) = returned s' ∧
    error s' = Some "render failed" ∧
    render (frame 3) true false None s' = threw "render failed".
Proof.
  destruct (render_error_captured_and_rethrown (frame 2) false None demo_render_throwing
              (Some 2) 2
              "render failed" (demo_initialised demo_render_throwing))
    as (_ & s' & Hrender & Herror & _ & Hnext); [vm_compute; reflexivity..|].
  exists s'. split; [exact Hrender|]. split; [exact Herror|].
  exact (proj1 (Hnext (frame 3) true false None)).
Defined.

(** C8 on the positions "sibling" and "tab". *)
Lemma addPanel_only_sibling_witness :
  (∃ s' : Adapter,
     addPanel "sibling" "Plot" true (fun c => c) demo_rendering = returned s' ∧
     length (siblingPanels s') = 1) ∧
  addPanel "tab" "Plot" true (fun c => c) demo_rendering =
    threw "Unsupported position for addPanel: tab".
Proof.
  split.
  - destruct (proj1 (addPanel_only_sibling demo_context "sibling" "Plot" true (fun c => c)
                       demo_rendering) eq_refl)
      as (s' & request & Hreturned & Hrequests & _).
    exists s'. split; [exact Hreturned|]. rewrite Hrequests. reflexivity.
  - apply (proj2 (addPanel_only_sibling demo_context "tab" "Plot" true (fun c => c)
                    demo_rendering)).
    discriminate.
Defined.

(** C9 on [demo_rendering]: frame 2 again gives no render state. *)
Lemma renderCycle_skips_empty_frame_witness :
  invocations (renderCycle (frame 2) demo_rendering) = invocations demo_rendering ∧
  pipeline (renderCycle (frame 2) demo_rendering) = pipeline demo_rendering ∧
  slowRender (renderCycle (frame 2) demo_rendering) = slowRender demo_rendering.
Proof.
  destruct (renderCycle_skips_empty_frame (frame 2) demo_rendering)
    as (Hinvs & Hpipe & Hslow & _);
    [vm_compute; reflexivity|].
  split; [exact Hinvs|]. split; [exact Hpipe|exact Hslow].
Defined.

(** C10 on a call with one entry of each kind. *)
Lemma subscribe_entry_payload_witness :
  ∃ payloads : list SubscribePayload,
    subscriptions
      (pipeline
         (subscribe demo_context
            [TopicString "/tf";
             TopicSubscription {| sub_topic := "/map"; sub_preload := Some true |};
             TopicSubscription {| sub_topic := "/scan"; sub_preload := Some false |}]
            demo_rendering)) !! 0 = Some payloads ∧
    payloads !! 0 = Some {| payload_topic := "/tf"; preloadType := full |} ∧
    payloads !! 1 = Some {| payload_topic := "/map"; preloadType := full |} ∧
    payloads !! 2 = Some {| payload_topic := "/scan"; preloadType := partial |}.
Proof.
  destruct (subscribe_entry_payload demo_context
              [TopicString "/tf";
               TopicSubscription {| sub_topic := "/map"; sub_preload := Some true |};
               TopicSubscription {| sub_topic := "/scan"; sub_preload := Some false |}]
              demo_rendering) as (payloads & Hreg & _ & _ & Hentries).
  exists payloads. split; [exact Hreg|].
  split; [exact (proj2 (Hentries 0 _ eq_refl))|].
  split; [exact (proj2 (Hentries 1 _ eq_refl))|exact (proj2 (Hentries 2 _ eq_refl))].
Defined.

End Witnesses.

(** ** Further properties of the adapter *)
Section AdapterLifecycle.

Context `{RSB : RenderStateBuilder}.

Implicit Types (s : Adapter) (ctx : ExtensionContext).

(** The local state as the initialisation effect leaves it just before it
    calls [initPanel]. *)
Definition panel_reset ctx s : Adapter :=
  set_log (log s ++ [info_init_panel (ctx_panelId ctx)])
    (set_panelContainerRef
       (Some (default [] (panelContainerRef s) ++ [ctx_panelId ctx]))
       (set_buildRenderState initRenderStateBuilder (set_renderFn None s))).

(** What the render lock, the render cycle and the completion callback do
    not touch of the adapter's bookkeeping with the pipeline. *)
Definition registry_core s :=
  (advertisementsRef s, subscribedTopics s, renderFn s,
   subscriptions (pipeline s), publishers (pipeline s), playerState (pipeline s),
   hoverValue s, siblingPanels s).

(** Every key of the advertisement map occurs once and is the topic of its
    payload. *)
Definition advertisements_wf (m : list (string * AdvertiseOptions)) : Prop :=
  NoDup m.*1 ∧ Forall (fun entry => adv_topic entry.2 = entry.1) m.

(** The payloads of a registration that are for [topic]. *)
Definition payloads_for (topic : string) (payloads : list AdvertiseOptions)
    : list AdvertiseOptions :=
  filter (fun payload => adv_topic payload = topic) payloads.

(** The payloads of a registration that are for another topic. *)
Definition payloads_besides (topic : string) (payloads : list AdvertiseOptions)
    : list AdvertiseOptions :=
  filter (fun payload => adv_topic payload ≠ topic) payloads.

(** The pause tokens whose resume function has not run. *)
Definition unresumed (tokens : list FrameToken) : list FrameToken :=
  filter (fun tok => tok_resumed tok = 0) tokens.

(** The panel ids [initPanel] was run for, oldest first, as the log has
    them. *)
Definition initialised (entries : list LogEntry) : list PanelId :=
  omap (fun entry => match entry with
                     | info_init_panel id => Some id
                     | warn_done_twice _ => None
                     end) entries.

(** Whether a commit finds the memoised extension context out of date:
    there is none yet, another dependency changed, or the panel id or the
    capabilities are not the ones it was made for. *)
Definition context_stale (otherDepsChanged : bool) s : bool :=
  match partialExtensionContext s with
  | None => true
  | Some memo =>
      otherDepsChanged ||
      negb (bool_decide (ctx_panelId memo = panelId s)) ||
      negb (bool_decide (ctx_capabilities memo = capabilities (playerState (pipeline s))))
  end.

(** The extension context a commit makes when the memoised one is out of
    date. *)
Definition context_now s : ExtensionContext :=
  {| ctx_panelId := panelId s;
     ctx_initialState := initialState s;
     ctx_capabilities := capabilities (playerState (pipeline s)) |}.

(** What no call on the extension context touches. *)
Definition quiet_core s :=
  (log s, panelContainerRef s, slowRender s, initialState s, initPanel s).

Lemma render_returned (env : Env) (renderDepsChanged otherDepsChanged : bool)
    (initPanelProp : option (JsValue → list ContextCall)) s s2 :
  render env renderDepsChanged otherDepsChanged initPanelProp s = returned s2 →
  let ctx := (useMemo_partialExtensionContext otherDepsChanged s).1 in
  let changed :=
    initDepsChanged initPanelProp (useMemo_partialExtensionContext otherDepsChanged s).2 in
  let x1 := commit_prepared ctx changed (with_initPanel initPanelProp s) in
  let x2 := if renderDepsChanged then renderCycle env x1 else x1 in
  error s = None ∧
  s2 = if changed
       then contextCalls ctx (initPanel x2 (ctx_initialState ctx)) (panel_reset ctx x2)
       else x2.
Proof.
  intros Hrender.
  assert (error s = None) as Herr.
  { unfold render, componentBody in Hrender. by destruct (error s). }
  split; [done|]. rewrite render_unfold in Hrender by done. cbv zeta in Hrender.
  rewrite with_initPanel_memo in Hrender.
  destruct (initDepsChanged _ _); [|by injection Hrender].
  unfold panelInitEffect in Hrender.
  match type of Hrender with
  | match panelContainerRef ?x with _ => _ end = _ =>
      assert (is_Some (panelContainerRef x)) as [children Hc]
  end.
  { destruct renderDepsChanged; [rewrite renderCycle_panelContainerRef|];
      apply commit_prepared_facts. }
  rewrite Hc in Hrender. injection Hrender as <-.
  unfold panel_reset. by rewrite Hc.
Qed.

Lemma done_registry (k : nat) s : registry_core (done k s) = registry_core s.
Proof.
  unfold done. destruct (invocations s !! k) as [inv|]; [|done]. by destruct (doneCalled inv).
Qed.

Lemma renderCycle_registry (env : Env) s :
  registry_core (renderCycle env s) = registry_core s.
Proof.
  unfold renderCycle. destruct (renderFn s) as [f|] eqn:Hf; [|done].
  destruct (runBuilder _ _) as [builder [renderState|]]; simpl;
    [|by unfold registry_core; simpl; rewrite Hf].
  destruct (renderingRef s); [by unfold registry_core; simpl; rewrite Hf|].
  match goal with
  | |- registry_core (match ?o with Some _ => set_error _ ?x | None => _ end) = _ =>
      assert (registry_core x = registry_core s) as Hx; [|by destruct o]
  end.
  induction (doneCallsDuringRender _) as [|n IH]; simpl;
    [by unfold registry_core; simpl; rewrite Hf|].
  by rewrite done_registry.
Qed.

(** *** Watched fields *)

Lemma step_watchedFields (ev : Event) s : watchedFields s ⊆ watchedFields (step ev s).
Proof.
  destruct ev as [env rd od ip|config|k|ctx c|ps]; simpl.
  - destruct (render env rd od ip s) as [s2|] eqn:Hrender; [|done].
    apply render_returned in Hrender as [_ ->].
    destruct (with_initPanel_cells ip s) as (_ & _ & _ & _ & _ & _ & Hw0 & _).
    set (s0 := with_initPanel ip s) in *.
    set (ctx := (useMemo_partialExtensionContext od s).1).
    set (changed := initDepsChanged ip _).
    destruct (commit_prepared_facts ctx changed s0) as (_ & _ & _ & _ & _ & _ & Hw & _).
    set (x1 := commit_prepared ctx changed s0) in *. clearbody x1.
    set (x2 := if rd then renderCycle env x1 else x1).
    assert (watchedFields x2 = watchedFields s) as Hx2.
    { rewrite <- Hw0, <- Hw. subst x2. destruct rd; [|done].
      pose proof (renderCycle_lifecycle env x1) as Hl. unfold lifecycle_core in Hl.
      by injection Hl. }
    clearbody x2. destruct changed; [|by rewrite Hx2].
    apply (contextCalls_preserve (fun x => watchedFields s ⊆ watchedFields x)).
    + intros c x H0. etrans; [exact H0|apply contextCall_watchedFields].
    + simpl. by rewrite Hx2.
  - destruct (componentBody s); [|done]. unfold configUpdateEffect.
    by destruct (isEqual_empty_object config).
  - pose proof (done_lifecycle k s) as Hl. unfold lifecycle_core in Hl.
    injection Hl as -> _ _ _ _ _ _. done.
  - apply contextCall_watchedFields.
  - done.
Qed.

Lemma run_watchedFields (evs : list Event) s : watchedFields s ⊆ watchedFields (run evs s).
Proof.
  unfold run. revert s. induction evs as [|ev evs IH]; intros s; simpl; [done|].
  etrans; [apply step_watchedFields|apply IH].
Qed.

(** X1: a field the extension watched stays watched whatever happens next:
    no render, completion callback, context call, change of player state,
    configuration change or re-initialisation removes it. *)
Theorem watched_field_stays_watched ctx (field : string) (later : list Event) s :
  field ∈ watchedFields (run later (contextCall ctx (call_watch field) s)) ∧
  watchedFields s ⊆ watchedFields (run later s).
Proof.
  split; [|apply run_watchedFields].
  apply (run_watchedFields later). simpl. set_solver.
Qed.

(** *** The registries of other panels *)

Lemma contextCall_other_panels ctx (c : ContextCall) (other : PanelId) s :
  other ≠ ctx_panelId ctx →
  subscriptions (pipeline (contextCall ctx c s)) !! other = subscriptions (pipeline s) !! other ∧
  publishers (pipeline (contextCall ctx c s)) !! other = publishers (pipeline s) !! other.
Proof.
  intros Hother. destruct c; simpl; try done.
  - unfold subscribe. destruct (subscribe_map _ _). simpl. by rewrite lookup_insert_ne.
  - by rewrite lookup_insert_ne.
  - unfold advertise. destruct (includes _ _); simpl; [|done]. by rewrite lookup_insert_ne.
  - unfold unadvertise. destruct (includes _ _); simpl; [|done]. by rewrite lookup_insert_ne.
  - destruct stamp; simpl; [|done]. by destruct (activeData _).
  - unfold addPanel. by destruct (String.eqb _ _).
Qed.

(** X2: whatever an extension calls on its context, the subscriptions and
    publishers the pipeline holds for other panel ids stay as they are. *)
Theorem contextCalls_leave_other_panels ctx (cs : list ContextCall) (other : PanelId) s :
  other ≠ ctx_panelId ctx →
  subscriptions (pipeline (contextCalls ctx cs s)) !! other = subscriptions (pipeline s) !! other ∧
  publishers (pipeline (contextCalls ctx cs s)) !! other = publishers (pipeline s) !! other.
Proof.
  intros Hother.
  apply (contextCalls_preserve
           (fun s0 =>
              subscriptions (pipeline s0) !! other = subscriptions (pipeline s) !! other ∧
              publishers (pipeline s0) !! other = publishers (pipeline s) !! other));
    [|done].
  intros c s0 [Hs Hp].
  destruct (contextCall_other_panels ctx c other s0 Hother) as [Hs' Hp'].
  by rewrite Hs', Hp'.
Qed.

(** *** Subscribed topics and the subscription registry *)

(** The topics of the registry entry of the context's panel id are the
    subscribed topics. *)
Definition subscriptions_in_sync ctx s : Prop :=
  payload_topic <$> default [] (subscriptions (pipeline s) !! ctx_panelId ctx) =
  subscribedTopics s.

Lemma item_payload_topic (topics : list SubscribeItem) :
  payload_topic <$> (item_payload <$> topics) = item_topic <$> topics.
Proof. rewrite <- list_fmap_compose. by apply list_fmap_ext. Qed.

Lemma contextCall_subscriptions_in_sync ctx (c : ContextCall) s :
  subscriptions_in_sync ctx s → subscriptions_in_sync ctx (contextCall ctx c s).
Proof.
  unfold subscriptions_in_sync. intros Hsync. destruct c; simpl; try done.
  - rewrite subscribe_subscribedTopics, subscribe_subscriptions, lookup_insert_eq. simpl.
    apply item_payload_topic.
  - by rewrite lookup_insert_eq.
  - unfold advertise. by destruct (includes _ _).
  - unfold unadvertise. by destruct (includes _ _).
  - destruct stamp; simpl; [|done]. by destruct (activeData _).
  - unfold addPanel. by destruct (String.eqb _ _).
Qed.

(** X3: the list the adapter filters preloaded blocks with names exactly
    the topics registered with the pipeline for the panel id, in the same
    order and with the same repetitions: this holds after [subscribe] and
    after [unsubscribeAll], whatever held before, and every further call on
    the context keeps it. *)
Theorem subscribedTopics_match_registry ctx (topics : list SubscribeItem)
    (cs : list ContextCall) s :
  subscriptions_in_sync ctx (contextCalls ctx cs (subscribe ctx topics s)) ∧
  subscriptions_in_sync ctx (contextCalls ctx cs (unsubscribeAll ctx s)).
Proof.
  split; apply contextCalls_preserve;
    try (intros c s0; apply contextCall_subscriptions_in_sync).
  - unfold subscriptions_in_sync.
    rewrite subscribe_subscribedTopics, subscribe_subscriptions, lookup_insert_eq. simpl.
    apply item_payload_topic.
  - unfold subscriptions_in_sync. simpl. by rewrite lookup_insert_eq.
Qed.

(** *** The advertisement map *)

Lemma payloads_absent (topic : string) (m : list (string * AdvertiseOptions)) :
  topic ∉ m.*1 → Forall (fun entry => adv_topic entry.2 = entry.1) m →
  payloads_for topic (Map_values m) = [] ∧
  payloads_besides topic (Map_values m) = Map_values m.
Proof.
  unfold payloads_for, payloads_besides, Map_values.
  induction m as [|[k p] rest IH]; csimpl; [done|].
  intros Hfresh Hkeys. apply not_elem_of_cons in Hfresh as [Hne Hrest].
  apply Forall_cons in Hkeys as [Hk Hkeys]. csimpl in Hk.
  destruct (IH Hrest Hkeys) as [IH1 IH2]. split.
  - rewrite filter_cons_False by (csimpl; congruence). exact IH1.
  - rewrite filter_cons_True by (csimpl; congruence). f_equal. exact IH2.
Qed.

Lemma Map_set_keys {V : Type} (key : string) (v : V) (m : list (string * V)) :
  (Map_set key v m).*1 = if bool_decide (key ∈ m.*1) then m.*1 else m.*1 ++ [key].
Proof.
  induction m as [|[k old] rest IH]; csimpl; [done|].
  destruct (String.eqb k key) eqn:Hk.
  - apply String.eqb_eq in Hk as ->. csimpl. rewrite bool_decide_eq_true_2; [done|].
    apply list_elem_of_here.
  - apply String.eqb_neq in Hk. csimpl. rewrite IH.
    destruct (bool_decide (key ∈ rest.*1)) eqn:Hin.
    + apply bool_decide_eq_true in Hin. rewrite bool_decide_eq_true_2; [done|].
      by apply list_elem_of_further.
    + apply bool_decide_eq_false in Hin. rewrite bool_decide_eq_false_2; [done|].
      apply not_elem_of_cons. split; [congruence|done].
Qed.

Lemma Map_delete_subseteq {V : Type} (key k : string) (m : list (string * V)) :
  k ∈ (Map_delete key m).*1 → k ∈ m.*1.
Proof.
  induction m as [|[k0 old] rest IH]; csimpl; [done|].
  destruct (String.eqb k0 key); csimpl.
  - apply list_elem_of_further.
  - intros [->|Hin]%elem_of_cons; [apply list_elem_of_here|].
    by apply list_elem_of_further, IH.
Qed.

Lemma Map_set_wf (key : string) (payload : AdvertiseOptions)
    (m : list (string * AdvertiseOptions)) :
  adv_topic payload = key → advertisements_wf m → advertisements_wf (Map_set key payload m).
Proof.
  intros Htopic [Hnodup Hkeys]. split.
  - rewrite Map_set_keys. case_bool_decide as Hin; [done|].
    apply NoDup_app. split_and!; [done| |apply NoDup_singleton].
    intros k Hk ->%list_elem_of_singleton. done.
  - clear Hnodup. induction m as [|[k old] rest IH]; csimpl.
    + by apply Forall_singleton.
    + apply Forall_cons in Hkeys as [Hk Hkeys].
      destruct (String.eqb k key); apply Forall_cons; split; auto.
Qed.

Lemma Map_delete_wf (key : string) (m : list (string * AdvertiseOptions)) :
  advertisements_wf m → advertisements_wf (Map_delete key m).
Proof.
  intros [Hnodup Hkeys]. split.
  - induction m as [|[k old] rest IH]; csimpl; [done|].
    csimpl in Hnodup. apply NoDup_cons in Hnodup as [Hk Hrest].
    apply Forall_cons in Hkeys as [_ Hkeys].
    destruct (String.eqb k key); csimpl; [done|].
    apply NoDup_cons. split; [|by apply IH].
    intros Hin. by apply Hk, (Map_delete_subseteq key).
  - clear Hnodup. induction m as [|[k old] rest IH]; csimpl; [done|].
    apply Forall_cons in Hkeys as [Hk Hkeys].
    destruct (String.eqb k key); [done|]. apply Forall_cons. split; auto.
Qed.

Lemma Map_set_payloads (key : string) (payload : AdvertiseOptions)
    (m : list (string * AdvertiseOptions)) :
  adv_topic payload = key → advertisements_wf m →
  payloads_for key (Map_values (Map_set key payload m)) = [payload] ∧
  payloads_besides key (Map_values (Map_set key payload m)) =
    payloads_besides key (Map_values m).
Proof.
  intros Htopic [Hnodup Hkeys]. unfold payloads_for, payloads_besides, Map_values.
  induction m as [|[k old] rest IH]; csimpl.
  - rewrite filter_cons_True by done. rewrite filter_cons_False by (csimpl; tauto). done.
  - csimpl in Hnodup. apply NoDup_cons in Hnodup as [Hk Hrest].
    apply Forall_cons in Hkeys as [Hold Hkeys]. csimpl in Hold.
    destruct (String.eqb k key) eqn:Heq; csimpl.
    + apply String.eqb_eq in Heq as ->.
      destruct (payloads_absent key rest Hk Hkeys) as [Hnone Hall].
      unfold payloads_for, payloads_besides, Map_values in Hnone, Hall.
      rewrite filter_cons_True by done. rewrite Hnone.
      rewrite !filter_cons_False by (csimpl; tauto). done.
    + apply String.eqb_neq in Heq. destruct (IH Hrest Hkeys) as [IH1 IH2].
      rewrite filter_cons_False by (csimpl; congruence).
      rewrite !filter_cons_True by (csimpl; congruence).
      by rewrite IH1, IH2.
Qed.

Lemma Map_delete_payloads (key : string) (m : list (string * AdvertiseOptions)) :
  advertisements_wf m →
  payloads_for key (Map_values (Map_delete key m)) = [] ∧
  payloads_besides key (Map_values (Map_delete key m)) =
    payloads_besides key (Map_values m).
Proof.
  intros [Hnodup Hkeys]. unfold payloads_for, payloads_besides, Map_values.
  induction m as [|[k old] rest IH]; csimpl; [done|].
  csimpl in Hnodup. apply NoDup_cons in Hnodup as [Hk Hrest].
  apply Forall_cons in Hkeys as [Hold Hkeys]. csimpl in Hold.
  destruct (String.eqb k key) eqn:Heq; csimpl.
  - apply String.eqb_eq in Heq as ->.
    destruct (payloads_absent key rest Hk Hkeys) as [Hnone Hall].
    unfold payloads_for, payloads_besides, Map_values in Hnone, Hall.
    rewrite Hnone. rewrite filter_cons_False by (csimpl; tauto). done.
  - apply String.eqb_neq in Heq. destruct (IH Hrest Hkeys) as [IH1 IH2].
    rewrite filter_cons_False by (csimpl; congruence).
    rewrite !filter_cons_True by (csimpl; congruence).
    by rewrite IH1, IH2.
Qed.

Lemma Map_delete_absent {V : Type} (key : string) (m : list (string * V)) :
  key ∉ m.*1 → Map_delete key m = m.
Proof.
  induction m as [|[k old] rest IH]; csimpl; [done|].
  intros Hfresh. apply not_elem_of_cons in Hfresh as [Hne Hrest].
  rewrite (proj2 (String.eqb_neq k key)) by done. by rewrite IH.
Qed.

Lemma contextCall_advertisements_wf ctx (c : ContextCall) s :
  advertisements_wf (advertisementsRef s) →
  advertisements_wf (advertisementsRef (contextCall ctx c s)).
Proof.
  intros Hwf. destruct c; simpl; try done.
  - unfold subscribe. by destruct (subscribe_map _ _).
  - unfold advertise. destruct (includes _ _); simpl; [|done]. by apply Map_set_wf.
  - unfold unadvertise. destruct (includes _ _); simpl; [|done]. by apply Map_delete_wf.
  - destruct stamp; simpl; [|done]. by destruct (activeData _).
  - unfold addPanel. by destruct (String.eqb _ _).
Qed.

Lemma commit_prepared_registry ctx (changed : bool) s :
  advertisementsRef (commit_prepared ctx changed s) = advertisementsRef s ∧
  log (commit_prepared ctx changed s) = log s.
Proof.
  unfold commit_prepared. simpl.
  by destruct (partialExtensionContext s) as [previous|]; [destruct changed|].
Qed.

Lemma step_advertisements_wf (ev : Event) s :
  advertisements_wf (advertisementsRef s) →
  advertisements_wf (advertisementsRef (step ev s)).
Proof.
  intros Hwf. destruct ev as [env rd od ip|config|k|ctx c|ps]; simpl.
  - destruct (render env rd od ip s) as [s2|] eqn:Hrender; [|done].
    apply render_returned in Hrender as [_ ->].
    destruct (with_initPanel_cells ip s)
      as (_ & _ & _ & _ & _ & _ & _ & _ & _ & _ & Hadv0 & _).
    set (s0 := with_initPanel ip s) in *.
    set (ctx := (useMemo_partialExtensionContext od s).1).
    set (changed := initDepsChanged ip _).
    destruct (commit_prepared_registry ctx changed s0) as [Hadv _].
    set (x1 := commit_prepared ctx changed s0) in *. clearbody x1.
    set (x2 := if rd then renderCycle env x1 else x1).
    assert (advertisementsRef x2 = advertisementsRef s) as Hx2.
    { rewrite <- Hadv0, <- Hadv. subst x2. destruct rd; [|done].
      pose proof (renderCycle_registry env x1) as Hr. unfold registry_core in Hr.
      by injection Hr. }
    clearbody x2. destruct changed; [|by rewrite Hx2].
    apply contextCalls_preserve; [intros c x; apply contextCall_advertisements_wf|].
    simpl. by rewrite Hx2.
  - destruct (componentBody s); [|done]. unfold configUpdateEffect.
    by destruct (isEqual_empty_object config).
  - pose proof (done_registry k s) as Hr. unfold registry_core in Hr.
    injection Hr as -> _ _ _ _ _ _ _. done.
  - by apply contextCall_advertisements_wf.
  - done.
Qed.

Lemma reachable_advertisements_wf s : reachable s → advertisements_wf (advertisementsRef s).
Proof.
  induction 1 as [init config ps|ev s _ IH]; [|by apply step_advertisements_wf].
  split; simpl; [apply NoDup_nil_2|apply Forall_nil_2].
Qed.

(** X4: in every state a mounted adapter can reach, [advertise] leaves the
    pipeline's registration for the panel id with exactly one payload for
    the topic, the one just given, and with the payloads the adapter's
    advertisement map holds for the other topics, in the map's order.  When
    the registration listed the map before the call, these are the payloads
    that were registered for the other topics; after the call it lists the
    map. *)
Theorem advertise_registers_one_payload ctx (topic datatype : string)
    (options : option JsValue)
    (adv : string -> string -> option JsValue -> Adapter -> Adapter) s :
  reachable s →
  advertise ctx = Some adv →
  let registered := publishersOf (pipeline (adv topic datatype options s)) (ctx_panelId ctx) in
  payloads_for topic registered =
    [{| adv_topic := topic; adv_datatype := datatype; adv_options := options |}] ∧
  payloads_besides topic registered =
    payloads_besides topic (Map_values (advertisementsRef s)) ∧
  (publishers_in_sync ctx s →
     payloads_besides topic registered =
       payloads_besides topic (publishersOf (pipeline s) (ctx_panelId ctx))) ∧
  publishers_in_sync ctx (adv topic datatype options s).
Proof.
  intros Hreach Hadv. unfold advertise in Hadv.
  destruct (includes _ _); [|done]. injection Hadv as <-.
  pose proof (reachable_advertisements_wf s Hreach) as Hwf.
  cbv zeta.
  destruct (Map_set_payloads topic
              {| adv_topic := topic; adv_datatype := datatype; adv_options := options |}
              (advertisementsRef s) eq_refl Hwf) as [Hone Hrest].
  assert (publishersOf (pipeline (advertise_fn ctx topic datatype options s))
            (ctx_panelId ctx) =
          Map_values
            (Map_set topic
               {| adv_topic := topic; adv_datatype := datatype; adv_options := options |}
               (advertisementsRef s))) as ->.
  { unfold publishersOf. simpl. by rewrite lookup_insert_eq. }
  split_and!; [done..| |apply advertise_fn_in_sync].
  intros Hsync. by rewrite Hsync.
Qed.

(** X5: in every state a mounted adapter can reach, [unadvertise] leaves no
    payload for the topic in the pipeline's registration for the panel id,
    and for the other topics the payloads the adapter's advertisement map
    holds; for a topic the map does not hold, the map stays as it is and its
    payloads are registered.  When the registration listed the map before
    the call, the other topics' payloads, and for a topic the map does not
    hold the whole registration, are as they were registered; after the call
    the registration lists the map. *)
Theorem unadvertise_removes_topic ctx (topic : string)
    (unadv : string -> Adapter -> Adapter) s :
  reachable s →
  unadvertise ctx = Some unadv →
  let registered := publishersOf (pipeline (unadv topic s)) (ctx_panelId ctx) in
  payloads_for topic registered = [] ∧
  payloads_besides topic registered =
    payloads_besides topic (Map_values (advertisementsRef s)) ∧
  (Map_has topic (advertisementsRef s) = false →
     advertisementsRef (unadv topic s) = advertisementsRef s ∧
     registered = Map_values (advertisementsRef s)) ∧
  (publishers_in_sync ctx s →
     payloads_besides topic registered =
       payloads_besides topic (publishersOf (pipeline s) (ctx_panelId ctx)) ∧
     (Map_has topic (advertisementsRef s) = false →
        registered = publishersOf (pipeline s) (ctx_panelId ctx))) ∧
  publishers_in_sync ctx (unadv topic s).
Proof.
  intros Hreach Hunadv. unfold unadvertise in Hunadv.
  destruct (includes _ _); [|done]. injection Hunadv as <-.
  pose proof (reachable_advertisements_wf s Hreach) as Hwf.
  cbv zeta.
  destruct (Map_delete_payloads topic (advertisementsRef s) Hwf) as [Hnone Hrest].
  assert (publishersOf (pipeline (unadvertise_fn ctx topic s)) (ctx_panelId ctx) =
          Map_values (Map_delete topic (advertisementsRef s))) as ->.
  { unfold publishersOf. simpl. by rewrite lookup_insert_eq. }
  assert (Map_has topic (advertisementsRef s) = false →
          Map_delete topic (advertisementsRef s) = advertisementsRef s) as Habsent.
  { intros Hhas. apply bool_decide_eq_false in Hhas. by apply Map_delete_absent. }
  split_and!; [done..| | |apply unadvertise_fn_in_sync].
  - intros Hhas. simpl. by rewrite Habsent.
  - intros Hsync. rewrite Hsync. split; [done|]. intros Hhas. by rewrite Habsent.
Qed.

Lemma contextCall_without_advertise ctx (c : ContextCall) s :
  includes (ctx_capabilities ctx) cap_advertise = false →
  publishers (pipeline (contextCall ctx c s)) = publishers (pipeline s) ∧
  advertisementsRef (contextCall ctx c s) = advertisementsRef s.
Proof.
  intros Hcap. destruct c; simpl; try done.
  - unfold subscribe. by destruct (subscribe_map _ _).
  - unfold advertise. by rewrite Hcap.
  - unfold unadvertise. by rewrite Hcap.
  - destruct stamp; simpl; [|done]. by destruct (activeData _).
  - unfold addPanel. by destruct (String.eqb _ _).
Qed.

(** X6: a context memoised while the player could not advertise has no
    [advertise] and no [unadvertise], and nothing an extension calls on it
    changes the adapter's advertisements or any publisher registration. *)
Theorem context_without_advertise ctx (cs : list ContextCall) s :
  cap_advertise ∉ ctx_capabilities ctx →
  advertise ctx = None ∧
  unadvertise ctx = None ∧
  publishers (pipeline (contextCalls ctx cs s)) = publishers (pipeline s) ∧
  advertisementsRef (contextCalls ctx cs s) = advertisementsRef s.
Proof.
  intros Hcap.
  assert (includes (ctx_capabilities ctx) cap_advertise = false) as Hinc
    by by apply bool_decide_eq_false.
  unfold advertise, unadvertise. rewrite Hinc. split_and!; [done..| |].
  - apply (contextCalls_preserve
             (fun s0 => publishers (pipeline s0) = publishers (pipeline s))); [|done].
    intros c s0 H0. by rewrite (proj1 (contextCall_without_advertise ctx c s0 Hinc)).
  - apply (contextCalls_preserve (fun s0 => advertisementsRef s0 = advertisementsRef s));
      [|done].
    intros c s0 H0. by rewrite (proj2 (contextCall_without_advertise ctx c s0 Hinc)).
Qed.

(** *** Commits and (re-)initialisation *)

Lemma contextCall_quiet ctx (c : ContextCall) s :
  quiet_core (contextCall ctx c s) = quiet_core s.
Proof.
  destruct c; simpl; try done.
  - unfold subscribe. by destruct (subscribe_map _ _).
  - unfold advertise. by destruct (includes _ _).
  - unfold unadvertise. by destruct (includes _ _).
  - destruct stamp; simpl; [|done]. by destruct (activeData _).
  - unfold addPanel. by destruct (String.eqb _ _).
Qed.

Lemma contextCalls_quiet ctx (cs : list ContextCall) s :
  quiet_core (contextCalls ctx cs s) = quiet_core s.
Proof.
  apply (contextCalls_preserve (fun s0 => quiet_core s0 = quiet_core s)); [|done].
  intros c s0 H0. by rewrite contextCall_quiet.
Qed.

Lemma contextCalls_core ctx (cs : list ContextCall) s :
  render_core (contextCalls ctx cs s) = render_core s.
Proof.
  apply (contextCalls_preserve (fun s0 => render_core s0 = render_core s)); [|done].
  intros c s0 H0. by rewrite contextCall_core.
Qed.

Lemma useMemo_stale (otherDepsChanged : bool) s :
  useMemo_partialExtensionContext otherDepsChanged s =
    if context_stale otherDepsChanged s then (context_now s, true)
    else (default (context_now s) (partialExtensionContext s), false).
Proof.
  unfold useMemo_partialExtensionContext, context_stale, context_now.
  destruct (partialExtensionContext s) as [memo|]; [|done].
  destruct otherDepsChanged; [done|]. simpl.
  by destruct (bool_decide (ctx_panelId memo = panelId s)),
       (bool_decide (ctx_capabilities memo = capabilities (playerState (pipeline s)))).
Qed.

Lemma done_initialised (k : nat) s : initialised (log (done k s)) = initialised (log s).
Proof.
  unfold done. destruct (invocations s !! k) as [inv|]; [|done].
  destruct (doneCalled inv); simpl; [|done].
  unfold initialised. rewrite omap_app. simpl. by rewrite app_nil_r.
Qed.

Lemma renderCycle_initialised (env : Env) s :
  initialised (log (renderCycle env s)) = initialised (log s).
Proof.
  unfold renderCycle. destruct (renderFn s) as [f|]; [|done].
  destruct (runBuilder _ _) as [builder [renderState|]]; simpl; [|done].
  destruct (renderingRef s); [done|].
  match goal with
  | |- initialised (log (match ?o with Some _ => set_error _ ?x | None => _ end)) = _ =>
      assert (initialised (log x) = initialised (log s)) as Hx; [|by destruct o]
  end.
  induction (doneCallsDuringRender _) as [|n IH]; simpl; [done|].
  by rewrite done_initialised.
Qed.

Lemma commit_until_init (env : Env) (renderDepsChanged changed : bool) ctx s :
  let x1 := commit_prepared ctx changed s in
  let x2 := if renderDepsChanged then renderCycle env x1 else x1 in
  initialised (log x2) = initialised (log s) ∧
  partialExtensionContext x2 = Some ctx ∧
  renderFn x2 = renderFn s.
Proof.
  cbv zeta.
  destruct (commit_prepared_registry ctx changed s) as [_ Hlog].
  destruct (commit_prepared_facts ctx changed s) as (_ & _ & _ & Hmemo & Hf & _).
  set (x1 := commit_prepared ctx changed s) in *. clearbody x1.
  destruct renderDepsChanged; [|by rewrite Hlog, Hmemo, Hf].
  pose proof (renderCycle_lifecycle env x1) as Hl. unfold lifecycle_core in Hl.
  injection Hl as _ _ _ Hm _ _ _.
  pose proof (renderCycle_registry env x1) as Hr. unfold registry_core in Hr.
  injection Hr as _ _ Hr _ _ _ _ _.
  by rewrite renderCycle_initialised, Hlog, Hm, Hr, Hmemo, Hf.
Qed.

Lemma panelInit_facts ctx (script : list ContextCall) s :
  let s2 := contextCalls ctx script (panel_reset ctx s) in
  initialised (log s2) = initialised (log s) ++ [ctx_panelId ctx] ∧
  partialExtensionContext s2 = partialExtensionContext s ∧
  buildRenderState s2 = initRenderStateBuilder.
Proof.
  cbv zeta.
  pose proof (contextCalls_quiet ctx script (panel_reset ctx s)) as Hq.
  pose proof (contextCalls_core ctx script (panel_reset ctx s)) as Hc.
  assert (buildRenderState (contextCalls ctx script (panel_reset ctx s)) =
            initRenderStateBuilder) as Hbuilder.
  { apply (contextCalls_preserve (fun x => buildRenderState x = initRenderStateBuilder));
      [|done].
    intros c x. by rewrite contextCall_buildRenderState. }
  set (s2 := contextCalls ctx script (panel_reset ctx s)) in *. clearbody s2.
  unfold quiet_core in Hq. injection Hq as Hq _ _ _ _.
  unfold render_core in Hc. injection Hc as _ _ _ _ _ Hc.
  rewrite Hq, Hc. simpl. split_and!; [|done..].
  unfold initialised. by rewrite omap_app.
Qed.

(** X7: a commit runs [initPanel] exactly when a dependency of the
    initialisation effect changed: the memoised extension context is out of
    date (none yet, another panel id, other capabilities, or another
    dependency of the memo changed), or the [initPanel] prop is another
    function.  It then runs once, for the current panel id, and starts from
    a new render-state builder; otherwise the render function the extension
    installed is kept.  The memo cell holds the context of the moment when
    the memoised one was out of date, and keeps its context when it was
    not. *)
Theorem commit_initialises_iff_init_deps_changed (env : Env)
    (renderDepsChanged otherDepsChanged : bool)
    (initPanelProp : option (JsValue → list ContextCall)) s s2 :
  render env renderDepsChanged otherDepsChanged initPanelProp s = returned s2 →
  (if initDepsChanged initPanelProp (context_stale otherDepsChanged s) then
     initialised (log s2) = initialised (log s) ++ [panelId s] ∧
     buildRenderState s2 = initRenderStateBuilder
   else
     initialised (log s2) = initialised (log s) ∧
     renderFn s2 = renderFn s) ∧
  partialExtensionContext s2 =
    (if context_stale otherDepsChanged s then Some (context_now s)
     else partialExtensionContext s).
Proof.
  intros Hrender. apply render_returned in Hrender as [_ ->].
  assert ((useMemo_partialExtensionContext otherDepsChanged s).2 =
            context_stale otherDepsChanged s ∧
          ctx_panelId (useMemo_partialExtensionContext otherDepsChanged s).1 = panelId s ∧
          Some (useMemo_partialExtensionContext otherDepsChanged s).1 =
            (if context_stale otherDepsChanged s then Some (context_now s)
             else partialExtensionContext s)) as (-> & Hid & <-).
  { rewrite useMemo_stale. unfold context_stale.
    destruct (partialExtensionContext s) as [memo|]; [|done].
    destruct otherDepsChanged; [done|]. simpl.
    destruct (bool_decide_reflect (ctx_panelId memo = panelId s)); [|done].
    by destruct (bool_decide (ctx_capabilities memo = _)). }
  set (ctx := (useMemo_partialExtensionContext otherDepsChanged s).1) in *. clearbody ctx.
  set (changed := initDepsChanged initPanelProp _). clearbody changed.
  destruct (with_initPanel_cells initPanelProp s)
    as (_ & _ & _ & Hf0 & _ & _ & _ & _ & _ & _ & _ & _ & Hlog0 & _).
  set (s0 := with_initPanel initPanelProp s) in *. clearbody s0.
  destruct (commit_until_init env renderDepsChanged changed ctx s0) as (Hlog & Hmemo & Hf).
  set (x2 := if renderDepsChanged then _ else _) in *. clearbody x2.
  destruct changed; [|by rewrite Hlog, Hlog0, Hf, Hf0].
  destruct (panelInit_facts ctx (initPanel x2 (ctx_initialState ctx)) x2) as (Hl & Hm & Hb).
  by rewrite Hl, Hm, Hb, Hlog, Hlog0, Hid.
Qed.

Lemma context_stale_other_panelId (otherDepsChanged : bool) (previous : ExtensionContext) s :
  partialExtensionContext s = Some previous →
  ctx_panelId previous ≠ panelId s →
  context_stale otherDepsChanged s = true.
Proof.
  intros Hprev Hid. unfold context_stale. rewrite Hprev.
  rewrite (bool_decide_eq_false_2 _ Hid). simpl. by rewrite orb_true_r.
Qed.

(** X8: the commit that follows a change of panel id leaves nothing
    registered with the pipeline under the previous id, neither
    subscriptions nor publishers, whatever [initPanel] does on the new
    context; the panel element of the previous id is gone from the container
    and the one of the new id is its last child. *)
Theorem panel_id_change_clears_previous_id (env : Env)
    (renderDepsChanged otherDepsChanged : bool)
    (initPanelProp : option (JsValue → list ContextCall))
    (previous : ExtensionContext) s s2 :
  render env renderDepsChanged otherDepsChanged initPanelProp s = returned s2 →
  partialExtensionContext s = Some previous →
  ctx_panelId previous ≠ panelId s →
  subscriptions (pipeline s2) !! ctx_panelId previous = Some [] ∧
  publishers (pipeline s2) !! ctx_panelId previous = Some [] ∧
  ∃ children : list PanelId,
    panelContainerRef s2 = Some (children ++ [panelId s]) ∧
    ctx_panelId previous ∉ children.
Proof.
  intros Hrender Hprev Hid. apply render_returned in Hrender as [_ ->].
  rewrite useMemo_stale, (context_stale_other_panelId _ previous) by done.
  cbn [fst snd initDepsChanged orb].
  set (ctx := context_now s).
  set (kept := filter (fun id => id ≠ ctx_panelId previous) (default [] (panelContainerRef s))).
  set (s0 := with_initPanel initPanelProp s).
  assert (subscriptions (pipeline (commit_prepared ctx true s0)) !! ctx_panelId previous =
            Some [] ∧
          publishers (pipeline (commit_prepared ctx true s0)) !! ctx_panelId previous =
            Some [] ∧
          panelContainerRef (commit_prepared ctx true s0) = Some kept) as (Hs1 & Hp1 & Hc1).
  { unfold commit_prepared, s0.
    destruct initPanelProp as [init|]; simpl; rewrite Hprev; simpl;
      by rewrite !lookup_insert_eq. }
  set (x1 := commit_prepared ctx true s0) in *. clearbody x1.
  set (x2 := if renderDepsChanged then renderCycle env x1 else x1).
  assert (subscriptions (pipeline x2) !! ctx_panelId previous = Some [] ∧
          publishers (pipeline x2) !! ctx_panelId previous = Some [] ∧
          panelContainerRef x2 = Some kept) as (Hs2 & Hp2 & Hc2).
  { subst x2. destruct renderDepsChanged; [|done].
    pose proof (renderCycle_registry env x1) as Hr. unfold registry_core in Hr.
    injection Hr as _ _ _ Hrs Hrp _ _ _.
    by rewrite Hrs, Hrp, renderCycle_panelContainerRef. }
  clearbody x2.
  set (script := initPanel x2 (ctx_initialState ctx)).
  pose proof (contextCalls_quiet ctx script (panel_reset ctx x2)) as Hq.
  assert (subscriptions (pipeline (contextCalls ctx script (panel_reset ctx x2)))
            !! ctx_panelId previous = Some [] ∧
          publishers (pipeline (contextCalls ctx script (panel_reset ctx x2)))
            !! ctx_panelId previous = Some []) as [Hs3 Hp3].
  { apply (contextCalls_preserve
             (fun x =>
                subscriptions (pipeline x) !! ctx_panelId previous = Some [] ∧
                publishers (pipeline x) !! ctx_panelId previous = Some [])); [|done].
    intros c x [H1 H2].
    destruct (contextCall_other_panels ctx c (ctx_panelId previous) x) as [H1' H2']; [done|].
    by rewrite H1', H2'. }
  split; [done|]. split; [done|].
  exists kept. split.
  - unfold quiet_core in Hq. injection Hq as _ Hq _ _ _. rewrite Hq. simpl.
    rewrite Hc2. reflexivity.
  - unfold kept. rewrite list_elem_of_filter. intros [Hne _]. done.
Qed.

Lemma contextCall_advertisementsRef_ext ctx (c : ContextCall) (a b : Adapter) :
  advertisementsRef a = advertisementsRef b →
  advertisementsRef (contextCall ctx c a) = advertisementsRef (contextCall ctx c b).
Proof.
  intros Hab. destruct c; simpl; try done.
  - unfold subscribe. by destruct (subscribe_map _ _).
  - unfold advertise. destruct (includes _ _); simpl; [|done]. by rewrite Hab.
  - unfold unadvertise. destruct (includes _ _); simpl; [|done]. by rewrite Hab.
  - destruct stamp; simpl; [|done].
    by destruct (activeData (playerState (pipeline a))),
         (activeData (playerState (pipeline b))).
  - unfold addPanel. by destruct (String.eqb _ _).
Qed.

Lemma contextCalls_advertisementsRef_ext ctx (cs : list ContextCall) (a b : Adapter) :
  advertisementsRef a = advertisementsRef b →
  advertisementsRef (contextCalls ctx cs a) = advertisementsRef (contextCalls ctx cs b).
Proof.
  unfold contextCalls. revert a b. induction cs as [|c cs IH]; intros a b Hab; simpl; [done|].
  by apply IH, contextCall_advertisementsRef_ext.
Qed.

(** X9: a commit changes the adapter's advertisement map only through the
    [advertise] and [unadvertise] calls [initPanel] makes, when it runs: the
    clean-up that empties the previous panel id's registration and the reset
    of the local state keep the map, so that advertisements made under a
    previous panel id are still in it. *)
Theorem commit_keeps_advertisements (env : Env)
    (renderDepsChanged otherDepsChanged : bool)
    (initPanelProp : option (JsValue → list ContextCall)) s s2 :
  render env renderDepsChanged otherDepsChanged initPanelProp s = returned s2 →
  let ctx :=
    if context_stale otherDepsChanged s then context_now s
    else default (context_now s) (partialExtensionContext s) in
  advertisementsRef s2 =
    (if initDepsChanged initPanelProp (context_stale otherDepsChanged s)
     then advertisementsRef
            (contextCalls ctx (default (initPanel s) initPanelProp (ctx_initialState ctx)) s)
     else advertisementsRef s) ∧
  (initPanelProp = None →
     advertisementsRef s2 =
       if context_stale otherDepsChanged s
       then advertisementsRef (contextCalls (context_now s) (initPanel s (initialState s)) s)
       else advertisementsRef s).
Proof.
  intros Hrender. cbv zeta.
  match goal with |- ?general ∧ _ => assert general as Hgeneral end; cycle 1.
  { split; [done|]. intros ->. rewrite Hgeneral. simpl.
    by destruct (context_stale otherDepsChanged s). }
  apply render_returned in Hrender as [_ ->].
  rewrite useMemo_stale. cbv zeta.
  set (ctx := if context_stale otherDepsChanged s then context_now s else _).
  assert ((if context_stale otherDepsChanged s then (context_now s, true)
           else (default (context_now s) (partialExtensionContext s), false)) =
          (ctx, context_stale otherDepsChanged s)) as ->
    by (subst ctx; by destruct (context_stale _ _)).
  cbn [fst snd]. clearbody ctx.
  set (changed := initDepsChanged initPanelProp _). clearbody changed.
  destruct (with_initPanel_cells initPanelProp s)
    as (Hprop & _ & _ & _ & _ & _ & _ & _ & _ & _ & Hadv0 & _).
  set (s0 := with_initPanel initPanelProp s) in *. clearbody s0.
  destruct (commit_prepared_registry ctx changed s0) as [Hadv _].
  destruct (commit_prepared_facts ctx changed s0)
    as (_ & _ & _ & _ & _ & _ & _ & _ & _ & _ & Hinit & _).
  set (x1 := commit_prepared ctx changed s0) in *. clearbody x1.
  set (x2 := if renderDepsChanged then renderCycle env x1 else x1).
  assert (advertisementsRef x2 = advertisementsRef s ∧
          initPanel x2 = default (initPanel s) initPanelProp) as [Hadv2 Hinit2].
  { rewrite <- Hadv0, <- Hadv, <- Hprop, <- Hinit.
    subst x2. destruct renderDepsChanged; [|done].
    pose proof (renderCycle_registry env x1) as Hr. unfold registry_core in Hr.
    injection Hr as Hr _ _ _ _ _ _ _.
    pose proof (renderCycle_lifecycle env x1) as Hl. unfold lifecycle_core in Hl.
    injection Hl as _ Hl _ _ _ _ _.
    by rewrite Hr, Hl. }
  clearbody x2. destruct changed; [|done].
  rewrite Hinit2. by apply contextCalls_advertisementsRef_ext.
Qed.

Lemma commit_prepared_lock ctx (changed : bool) s :
  invocations (commit_prepared ctx changed s) = invocations s ∧
  renderingRef (commit_prepared ctx changed s) = renderingRef s ∧
  frameTokens (pipeline (commit_prepared ctx changed s)) = frameTokens (pipeline s).
Proof.
  unfold commit_prepared. simpl.
  by destruct (partialExtensionContext s) as [previous|]; [destruct changed|].
Qed.

(** X10: a commit in which the render effect does not run, be it one that
    (re-)initialises the panel, neither releases the render lock nor takes
    or resumes a pause token: the invocations in flight stay in flight. *)
Theorem initialisation_keeps_render_lock (env : Env) (otherDepsChanged : bool)
    (initPanelProp : option (JsValue → list ContextCall)) s s2 :
  render env false otherDepsChanged initPanelProp s = returned s2 →
  invocations s2 = invocations s ∧
  renderingRef s2 = renderingRef s ∧
  frameTokens (pipeline s2) = frameTokens (pipeline s).
Proof.
  intros Hrender. apply render_returned in Hrender as [_ ->]. cbn zeta.
  set (ctx := (useMemo_partialExtensionContext otherDepsChanged s).1).
  set (changed := initDepsChanged initPanelProp _).
  destruct (with_initPanel_cells initPanelProp s)
    as (_ & Hcore0 & _ & _ & _ & _ & _ & _ & _ & _ & _ & Hpipe0 & _).
  unfold render_core in Hcore0. injection Hcore0 as Hi0 Hr0 _ _ _ _.
  set (s0 := with_initPanel initPanelProp s) in *. clearbody s0.
  destruct (commit_prepared_lock ctx changed s0) as (Hi & Hr & Ht).
  rewrite Hi0 in Hi. rewrite Hr0 in Hr. rewrite Hpipe0 in Ht.
  set (x1 := commit_prepared ctx changed s0) in *. clearbody x1.
  destruct changed; [|done].
  pose proof (contextCalls_core ctx (initPanel x1 (ctx_initialState ctx))
                (panel_reset ctx x1)) as Hc.
  set (s2 := contextCalls ctx _ _) in *. clearbody s2.
  unfold render_core in Hc. injection Hc as Hci Hcr Hct _ _ _.
  by rewrite Hci, Hcr, Hct.
Qed.

(** *** Pause tokens and the render lock *)

Lemma tokens_aligned (invs : list Invocation) (tokens : list FrameToken) :
  length tokens = length invs →
  (∀ (k : nat) (inv : Invocation), invs !! k = Some inv →
     ∃ tok : FrameToken, tokens !! k = Some tok ∧
       tok_resumed tok = if doneCalled inv then 1 else 0) →
  Forall (fun tok => tok_resumed tok ≤ 1) tokens ∧
  length (unresumed tokens) = in_flight invs.
Proof.
  unfold unresumed. revert tokens.
  induction invs as [|inv invs IH]; intros [|tok tokens] Hlen Hall; try done.
  destruct (Hall 0 inv eq_refl) as [tok0 [[= <-] Hcount]].
  destruct (IH tokens) as [IH1 IH2].
  { simpl in Hlen. lia. }
  { intros k invk Hk. apply (Hall (S k) invk Hk). }
  split.
  - apply Forall_cons. split; [|done]. rewrite Hcount. destruct (doneCalled inv); lia.
  - simpl. destruct (doneCalled inv).
    + rewrite filter_cons_False by lia. by rewrite IH2.
    + rewrite filter_cons_True by done. simpl. by rewrite IH2.
Qed.

(** X11: in every state a mounted adapter can reach, no pause token has
    been resumed more than once, the tokens not yet resumed are as many as
    the invocations in flight, and so at most one token is outstanding. *)
Theorem pause_tokens_balanced s :
  reachable s →
  Forall (fun tok => tok_resumed tok ≤ 1) (frameTokens (pipeline s)) ∧
  length (unresumed (frameTokens (pipeline s))) = in_flight (invocations s) ∧
  length (unresumed (frameTokens (pipeline s))) ≤ 1.
Proof.
  intros Hreach. pose proof (reachable_inv s Hreach) as Hinv.
  destruct (tokens_aligned (invocations s) (frameTokens (pipeline s))) as [H1 H2].
  { apply Hinv. }
  { intros k inv Hk. by destruct (inv_tokens s Hinv k inv Hk) as [_ Htok]. }
  split; [done|]. split; [done|]. rewrite H2. apply Hinv.
Qed.

Lemma done_repeated (n k : nat) (inv : Invocation) s :
  invocations s !! k = Some inv → doneCalled inv = true →
  Nat.iter n (done k) s =
    set_log (log s ++ replicate n (warn_done_twice (inv_panelId inv))) s.
Proof.
  intros Hk Hdone. induction n as [|n IH].
  - simpl. rewrite app_nil_r. by destruct s.
  - change (Nat.iter (S n) (done k) s) with (done k (Nat.iter n (done k) s)).
    rewrite IH. rewrite (done_completed k inv) by done.
    rewrite replicate_S_end, app_assoc. reflexivity.
Qed.

Lemma insert_last {A : Type} (l : list A) (x y : A) :
  <[length l := y]> (l ++ [x]) = l ++ [y].
Proof. rewrite insert_app_r_alt by done. by rewrite Nat.sub_diag. Qed.

Lemma alter_last {A : Type} (g : A -> A) (l : list A) (x : A) :
  alter g (length l) (l ++ [x]) = l ++ [g x].
Proof. rewrite alter_app_r_alt by done. by rewrite Nat.sub_diag. Qed.

(** X12: a render function that calls the completion callback before it
    returns (or throws) leaves the render lock free: the invocation is
    recorded as completed, its pause token was taken and resumed once, and
    each further synchronous call only adds a warning to the log. *)
Theorem synchronous_done_releases_lock (env : Env) (f : RenderFn) (b : Builder)
    (rs : RenderState) (extra : nat) s :
  renderFn s = Some f →
  runBuilder (buildRenderState s) (builderInput env s) = (b, Some rs) →
  renderingRef s = false →
  doneCallsDuringRender (f rs) = S extra →
  let s' := renderCycle env s in
  renderingRef s' = false ∧
  invocations s' =
    invocations s ++
      [{| doneCalled := true;
          resumeFrame := length (frameTokens (pipeline s));
          inv_panelId := panelId s |}] ∧
  frameTokens (pipeline s') =
    frameTokens (pipeline s) ++ [{| tok_subscriber := panelId s; tok_resumed := 1 |}] ∧
  log s' = log s ++ replicate extra (warn_done_twice (panelId s)) ∧
  error s' = thrown (f rs).
Proof.
  intros Hf Hb Href Hcalls. simpl. rewrite (renderCycle_free env f b rs) by done.
  simpl. rewrite Hcalls, Nat.iter_succ_r.
  set (started := {| doneCalled := false;
                     resumeFrame := length (frameTokens (pipeline s));
                     inv_panelId := panelId s |}).
  set (finished := {| doneCalled := true;
                      resumeFrame := length (frameTokens (pipeline s));
                      inv_panelId := panelId s |}).
  assert (invocations (render_entered b s) !! length (invocations s) = Some started) as Hk.
  { simpl. by rewrite list_lookup_middle. }
  rewrite (done_in_flight _ started) by done.
  rewrite (done_repeated extra _ finished); cycle 1.
  { simpl. by rewrite insert_last, list_lookup_middle. }
  { done. }
  destruct (thrown (f rs)); simpl; by rewrite insert_last, alter_last.
Qed.

(** The closure of invocation [k] is [inv], and its [doneCalled] is unset. *)
Definition pending (k : nat) (inv : Invocation) s : Prop :=
  invocations s !! k = Some inv ∧ doneCalled inv = false.

Lemma pending_in_flight (k : nat) (inv : Invocation) (invs : list Invocation) :
  invs !! k = Some inv → doneCalled inv = false → 1 ≤ in_flight invs.
Proof.
  revert k. induction invs as [|x invs IH]; intros [|k] Hk Hdone; simpl in *; try done.
  - injection Hk as ->. rewrite Hdone. lia.
  - specialize (IH k Hk Hdone). lia.
Qed.

Lemma pending_core (k : nat) (inv : Invocation) s s' :
  render_core s' = render_core s → pending k inv s → pending k inv s'.
Proof. unfold render_core, pending. intros [= -> _ _ _ _ _]. done. Qed.

Lemma pending_done (k : nat) (inv : Invocation) (j : nat) s :
  j ≠ k → pending k inv s → pending k inv (done j s).
Proof.
  intros Hne [Hk Hdone]. unfold done, pending.
  destruct (invocations s !! j) as [invj|] eqn:Hj; [|done].
  destruct (doneCalled invj); simpl; [done|].
  by rewrite list_lookup_insert_ne.
Qed.

Lemma pending_renderCycle (k : nat) (inv : Invocation) (env : Env) s :
  pending k inv s → pending k inv (renderCycle env s).
Proof.
  intros Hs. unfold renderCycle. destruct (renderFn s) as [f|]; [|done].
  destruct (runBuilder _ _) as [builder [renderState|]]; simpl; [|done].
  destruct (renderingRef s); [done|].
  match goal with
  | |- pending k inv (match ?o with Some _ => set_error _ ?x | None => _ end) =>
      assert (pending k inv x) as Hx; [|by destruct o]
  end.
  destruct Hs as [Hk Hdone]. pose proof (lookup_lt_Some _ _ _ Hk) as Hlt.
  induction (doneCallsDuringRender _) as [|n IH]; simpl.
  - split; [|done]. simpl. by rewrite lookup_app_l.
  - apply pending_done; [lia|done].
Qed.

Lemma pending_step (k : nat) (inv : Invocation) (ev : Event) s :
  ev ≠ ev_done k → pending k inv s → pending k inv (step ev s).
Proof.
  intros Hev Hs. destruct ev as [env rd od ip|config|j|ctx c|ps]; simpl.
  - destruct (render env rd od ip s) as [s2|] eqn:Hrender; [|done].
    apply (render_preserve (pending k inv)) in Hrender; [done| | |done..].
    + apply pending_core.
    + intros env0. apply pending_renderCycle.
  - destruct (componentBody s); [|done]. unfold configUpdateEffect.
    by destruct (isEqual_empty_object config).
  - apply pending_done; [|done]. intros ->. done.
  - apply (pending_core k inv s); [apply contextCall_core|done].
  - done.
Qed.

(** X13: an invocation in flight stays in flight, with the render lock held
    and its pause token unresumed, until its own completion callback is
    called: no other callback, render, stored render error, context call,
    configuration change or re-initialisation completes it. *)
Theorem only_own_done_completes (k : nat) (inv : Invocation) (evs : list Event) s :
  reachable s →
  invocations s !! k = Some inv →
  doneCalled inv = false →
  Forall (fun ev => ev ≠ ev_done k) evs →
  let s' := run evs s in
  invocations s' !! k = Some inv ∧
  renderingRef s' = true ∧
  in_flight (invocations s') = 1 ∧
  ∃ tok : FrameToken,
    frameTokens (pipeline s') !! resumeFrame inv = Some tok ∧ tok_resumed tok = 0.
Proof.
  intros Hreach Hk Hdone Hevs. simpl.
  assert (pending k inv (run evs s)) as [Hk' _].
  { unfold run. assert (pending k inv s) as Hs by done. clear Hreach Hk.
    revert s Hs. induction Hevs as [|ev evs Hev _ IH]; intros s Hs; simpl; [done|].
    by apply IH, pending_step. }
  pose proof (reachable_inv _ (reachable_run evs s Hreach)) as Hinv.
  pose proof (pending_in_flight k inv _ Hk' Hdone) as Hge.
  pose proof (inv_single _ Hinv) as Hle.
  split_and!.
  - done.
  - destruct (renderingRef (run evs s)) eqn:Href; [done|].
    pose proof (inv_idle _ Hinv Href). lia.
  - lia.
  - destruct (inv_tokens _ Hinv k inv Hk') as [Hres [tok [Htok Hcount]]].
    exists tok. by rewrite Hres, Htok, Hcount, Hdone.
Qed.

End AdapterLifecycle.

(** * App settings of the adapter (PanelExtensionAdapter.tsx, lines 109-110,
      155-182 and 396-398)

    The effect that keeps [appSettings] in step with the settings the
    extension subscribed to only touches its own two state cells and the
    app configuration store, so it is modelled on a record of its own. *)
Module AppSettings.

(** Modelled from the spec: AppConfigurationContext is not among the
    sources.  "For each subscribed setting key, a listener is registered
    with an external configuration store and removed on cleanup": the store
    holds a value per key (a missing one reads as [undefined]) and the
    listeners of each key.  A listener is a closure; the number stands for
    its identity. *)
Record AppConfiguration :=
  { stored : gmap string JsValue;
    listeners : list (string * nat) }.

Definition get (key : string) (cfg : AppConfiguration) : JsValue :=
  default JUndefined (stored cfg !! key).

Definition addChangeListener (key : string) (handler : nat) (cfg : AppConfiguration)
    : AppConfiguration :=
  {| stored := stored cfg; listeners := listeners cfg ++ [(key, handler)] |}.

Definition removeChangeListener (key : string) (handler : nat) (cfg : AppConfiguration)
    : AppConfiguration :=
  {| stored := stored cfg;
     listeners := filter (fun entry => entry ≠ (key, handler)) (listeners cfg) |}.

(** The two state cells, the store, and the number of closures made so far
    (the next closure is a new one). *)
Record Cells :=
  { appSettings : list (string * JsValue);
    subscribedAppSettings : list string;
    appConfiguration : AppConfiguration;
    closures : nat }.

(** [subscribeAppSettings(settings)] *)
Definition subscribeAppSettings (settings : list string) (s : Cells) : Cells :=
  {| appSettings := appSettings s;
     subscribedAppSettings := settings;
     appConfiguration := appConfiguration s;
     closures := closures s |}.

(** The first loop of the effect: one handler per subscribed key, kept in
    the [handlers] map and registered with the store. *)
Fixpoint register (keys : list string) (handlers : list (string * nat))
    (cfg : AppConfiguration) (next : nat) : list (string * nat) * AppConfiguration * nat :=
  match keys with
  | [] => (handlers, cfg, next)
  | key :: rest =>
      let handler := next in
      register rest (Map_set key handler handlers) (addChangeListener key handler cfg) (S next)
  end.

(** The second loop: the current value of every subscribed key. *)
Fixpoint read (keys : list string) (newAppSettings : list (string * JsValue))
    (cfg : AppConfiguration) : list (string * JsValue) :=
  match keys with
  | [] => newAppSettings
  | key :: rest => read rest (Map_set key (get key cfg) newAppSettings) cfg
  end.

(** The body of the effect; it returns the [handlers] map its clean-up
    closes over. *)
Definition effect (s : Cells) : Cells * list (string * nat) :=
  let '(handlers, cfg, next) :=
    register (subscribedAppSettings s) [] (appConfiguration s) (closures s) in
  ({| appSettings := read (subscribedAppSettings s) [] cfg;
      subscribedAppSettings := subscribedAppSettings s;
      appConfiguration := cfg;
      closures := next |},
   handlers).

(** The clean-up of the effect. *)
Definition cleanup (handlers : list (string * nat)) (s : Cells) : Cells :=
  {| appSettings := appSettings s;
     subscribedAppSettings := subscribedAppSettings s;
     appConfiguration :=
       fold_left (fun cfg entry => removeChangeListener entry.1 entry.2 cfg)
         handlers (appConfiguration s);
     closures := closures s |}.

(** The handler made for [key], called with a new value. *)
Definition handler (key : string) (newValue : JsValue) (s : Cells) : Cells :=
  {| appSettings := Map_set key newValue (appSettings s);
     subscribedAppSettings := subscribedAppSettings s;
     appConfiguration := appConfiguration s;
     closures := closures s |}.

(** [Map.prototype.get] *)
Fixpoint Map_get {V : Type} (key : string) (m : list (string * V)) : option V :=
  match m with
  | [] => None
  | (k, v) :: rest => if String.eqb k key then Some v else Map_get key rest
  end.

(** Every listener of the store is a closure made earlier. *)
Definition listeners_known (s : Cells) : Prop :=
  Forall (fun entry => entry.2 < closures s) (listeners (appConfiguration s)).

(** The listeners the first loop adds for [keys], starting with closure
    [next]. *)
Definition added (keys : list string) (next : nat) : list (string * nat) :=
  zip keys (seq next (length keys)).

Lemma Map_get_set_eq {V : Type} (key : string) (v : V) (m : list (string * V)) :
  Map_get key (Map_set key v m) = Some v.
Proof.
  induction m as [|[k old] rest IH]; simpl.
  - by rewrite String.eqb_refl.
  - destruct (String.eqb k key) eqn:Hk; simpl; [by rewrite String.eqb_refl|].
    by rewrite Hk.
Qed.

Lemma Map_get_set_ne {V : Type} (key other : string) (v : V) (m : list (string * V)) :
  other ≠ key → Map_get other (Map_set key v m) = Map_get other m.
Proof.
  intros Hne. induction m as [|[k old] rest IH]; simpl.
  - by rewrite (proj2 (String.eqb_neq key other)).
  - destruct (String.eqb k key) eqn:Hk; simpl.
    + apply String.eqb_eq in Hk as ->. by rewrite (proj2 (String.eqb_neq key other)).
    + destruct (String.eqb k other); [done|apply IH].
Qed.

Lemma Map_set_NoDup {V : Type} (key : string) (v : V) (m : list (string * V)) :
  NoDup m.*1 → NoDup (Map_set key v m).*1.
Proof.
  intros Hnodup. rewrite Map_set_keys. case_bool_decide as Hin; [done|].
  apply NoDup_app. split_and!; [done| |apply NoDup_singleton].
  intros k Hk ->%list_elem_of_singleton. done.
Qed.

Lemma Map_set_elem_of {V : Type} (key k : string) (v : V) (m : list (string * V)) :
  k ∈ (Map_set key v m).*1 ↔ k = key ∨ k ∈ m.*1.
Proof.
  rewrite Map_set_keys. case_bool_decide as Hin.
  - split; [by right|]. by intros [->|?].
  - rewrite elem_of_app, list_elem_of_singleton. tauto.
Qed.

Lemma read_spec (keys : list string) (acc : list (string * JsValue)) (cfg : AppConfiguration) :
  NoDup acc.*1 →
  NoDup (read keys acc cfg).*1 ∧
  (∀ k : string, k ∈ (read keys acc cfg).*1 ↔ k ∈ keys ∨ k ∈ acc.*1) ∧
  (∀ k : string, k ∈ keys → Map_get k (read keys acc cfg) = Some (get k cfg)) ∧
  (∀ k : string, k ∉ keys → Map_get k (read keys acc cfg) = Map_get k acc).
Proof.
  revert acc. induction keys as [|key rest IH]; intros acc Hacc; simpl.
  - split_and!; [done| | |done].
    + intros k. rewrite elem_of_nil. tauto.
    + intros k Hk. by apply elem_of_nil in Hk.
  - destruct (IH (Map_set key (get key cfg) acc)) as (H1 & H2 & H3 & H4);
      [by apply Map_set_NoDup|].
    split_and!; [done| | |].
    + intros k. rewrite H2, Map_set_elem_of, elem_of_cons. tauto.
    + intros k [->|Hin]%elem_of_cons.
      * destruct (decide (key ∈ rest)) as [Hin|Hout]; [by apply H3|].
        rewrite H4 by done. apply Map_get_set_eq.
      * by apply H3.
    + intros k [Hne Hout]%not_elem_of_cons. rewrite H4 by done.
      by apply Map_get_set_ne.
Qed.

Lemma register_spec (keys : list string) (handlers : list (string * nat))
    (cfg : AppConfiguration) (next : nat) :
  NoDup keys → (∀ k : string, k ∈ keys → k ∉ handlers.*1) →
  register keys handlers cfg next =
    (handlers ++ added keys next,
     {| stored := stored cfg; listeners := listeners cfg ++ added keys next |},
     next + length keys).
Proof.
  unfold added. revert handlers cfg next.
  induction keys as [|key rest IH]; intros handlers cfg next Hnodup Hfresh; simpl.
  - rewrite !app_nil_r, Nat.add_0_r. by destruct cfg.
  - apply NoDup_cons in Hnodup as [Hkey Hrest].
    rewrite Map_set_fresh by (apply Hfresh, list_elem_of_here).
    rewrite IH; [|done|].
    + simpl. rewrite <- !app_assoc. simpl. by rewrite Nat.add_succ_r.
    + intros k Hk. rewrite fmap_app, elem_of_app. simpl. rewrite list_elem_of_singleton.
      intros [Hin| ->]; [|done].
      by apply (Hfresh k); [apply list_elem_of_further|].
Qed.

Lemma remove_all (handlers : list (string * nat)) (cfg : AppConfiguration) :
  fold_left (fun cfg entry => removeChangeListener entry.1 entry.2 cfg) handlers cfg =
    {| stored := stored cfg;
       listeners := filter (fun entry => entry ∉ handlers) (listeners cfg) |}.
Proof.
  revert cfg. induction handlers as [|[k h] rest IH]; intros cfg; simpl.
  - destruct cfg as [st ls]. simpl. f_equal.
    induction ls as [|entry ls IHls]; [done|].
    rewrite filter_cons_True by apply not_elem_of_nil. by rewrite <- IHls.
  - rewrite IH. simpl. f_equal. rewrite list_filter_filter.
    apply list_filter_iff. intros entry. rewrite not_elem_of_cons. tauto.
Qed.

Lemma added_elem_of (keys : list string) (next : nat) (entry : string * nat) :
  entry ∈ added keys next → next ≤ entry.2.
Proof.
  unfold added. intros Hin. destruct entry as [k h].
  apply elem_of_zip_r in Hin. apply elem_of_seq in Hin. simpl. lia.
Qed.

(** X14: after the effect ran, [appSettings] holds one entry for every
    subscribed key and for nothing else, each with the value the store has
    for it at that moment ([undefined] for a key the store does not have),
    whatever it held before and however often a key is listed. *)
Theorem effect_reads_subscribed_settings (s : Cells) :
  let after := (effect s).1 in
  NoDup (appSettings after).*1 ∧
  (∀ key : string,
      key ∈ (appSettings after).*1 ↔ key ∈ subscribedAppSettings s) ∧
  (∀ key : string, key ∈ subscribedAppSettings s →
      Map_get key (appSettings after) = Some (get key (appConfiguration s))).
Proof.
  unfold effect.
  destruct (register _ _ _ _) as [[handlers cfg] next] eqn:Hreg. simpl.
  assert (stored cfg = stored (appConfiguration s)) as Hstored.
  { clear -Hreg. revert Hreg. generalize (@nil (string * nat)) as hs.
    generalize (appConfiguration s) as c0. generalize (closures s) as n0.
    induction (subscribedAppSettings s) as [|key rest IH]; intros n0 c0 hs; simpl.
    - by intros [= _ <- _].
    - intros Hreg. by rewrite (IH _ _ _ Hreg). }
  destruct (read_spec (subscribedAppSettings s) [] cfg) as (H1 & H2 & H3 & _);
    [apply NoDup_nil_2|].
  split_and!; [done| |].
  - intros key. rewrite H2. simpl. rewrite elem_of_nil. tauto.
  - intros key Hkey. rewrite H3 by done. unfold get. by rewrite Hstored.
Qed.

(** X15: when no key is subscribed twice, the clean-up of the effect
    removes exactly the listeners the effect added: the store's listeners
    are again those from before the effect. *)
Theorem effect_cleanup_restores_listeners (s : Cells) :
  NoDup (subscribedAppSettings s) →
  listeners_known s →
  appConfiguration (cleanup (effect s).2 (effect s).1) = appConfiguration s.
Proof.
  intros Hnodup Hknown. unfold effect.
  rewrite register_spec by (try done; intros k _; apply not_elem_of_nil).
  simpl. rewrite remove_all. simpl.
  destruct (appConfiguration s) as [st ls] eqn:Hcfg. simpl. f_equal.
  unfold listeners_known in Hknown. rewrite Hcfg in Hknown. simpl in Hknown.
  rewrite filter_app.
  assert (filter (fun entry => entry ∉ added (subscribedAppSettings s) (closures s)) ls = ls)
    as ->.
  { clear Hcfg. induction ls as [|entry ls IH]; [done|].
    apply Forall_cons in Hknown as [Hentry Hls].
    rewrite filter_cons_True; [by rewrite IH|].
    intros Hin%added_elem_of. lia. }
  assert (filter (fun entry => entry ∉ added (subscribedAppSettings s) (closures s))
            (added (subscribedAppSettings s) (closures s)) = []) as ->.
  { generalize (added (subscribedAppSettings s) (closures s)) as l. intros l.
    assert (∀ l0 : list (string * nat), l0 ⊆ l →
              filter (fun entry => entry ∉ l) l0 = []) as Hnone; [|by apply Hnone].
    induction l0 as [|entry l0 IH]; intros Hsub; [done|].
    rewrite filter_cons_False; [apply IH; set_solver|].
    intros Hout. apply Hout, Hsub, list_elem_of_here. }
  by rewrite app_nil_r.
Qed.

(** X16: the handler registered for a key stores the new value under that
    key and keeps what [appSettings] holds for every other key; a key that
    has an entry keeps its place, a key without one is added last. *)
Theorem handler_updates_its_key (key : string) (newValue : JsValue) (s : Cells) :
  let after := handler key newValue s in
  Map_get key (appSettings after) = Some newValue ∧
  (∀ other : string, other ≠ key →
      Map_get other (appSettings after) = Map_get other (appSettings s)) ∧
  (appSettings after).*1 =
    (if bool_decide (key ∈ (appSettings s).*1) then (appSettings s).*1
     else (appSettings s).*1 ++ [key]) ∧
  appConfiguration after = appConfiguration s.
Proof.
  simpl. split_and!.
  - apply Map_get_set_eq.
  - intros other Hother. by apply Map_get_set_ne.
  - apply Map_set_keys.
  - done.
Qed.

End AppSettings.

(** * The panel toolbar (components/PanelToolbar) *)

(** What the toolbar components read of [PanelContext]. *)
Record PanelContextType :=
  { pc_type : string;
    pc_id : string;
    pc_title : string;
    pc_tabId : option string;
    pc_isFullscreen : bool;
    (* [connectToolbarDragHandle?]: the element the drag source connects to *)
    pc_connectToolbarDragHandle : option nat }.

(** Membership in a list that is written out. *)
Ltac listed :=
  first
    [ done
    | by repeat first [apply list_elem_of_here | apply list_elem_of_further]
    | by repeat match goal with
                | H : _ ∈ _ :: _ |- _ => apply elem_of_cons in H as [H|H]; [done|]
                | H : _ ∈ [] |- _ => apply elem_of_nil in H
                end ].

(** ** PanelActionsDropdown *)
Module PanelActionsDropdown.

Inductive Direction := row | column.

(** [getCurrentLayoutState()]: [selectedLayout?.data?.configById]. *)
Record LayoutData := { configById : gmap string JsValue }.
Record SelectedLayout := { data : option LayoutData }.
Record LayoutState := { selectedLayout : option SelectedLayout }.

(** The argument of [splitPanel]; [root] and [path] come from the mosaic
    and are passed through. *)
Record SplitPanelPayload (Mosaic : Type) :=
  { split_id : string;
    split_tabId : option string;
    split_direction : Direction;
    split_root : Mosaic;
    split_path : Mosaic;
    split_config : JsValue }.
Arguments split_id {Mosaic} _.
Arguments split_tabId {Mosaic} _.
Arguments split_direction {Mosaic} _.
Arguments split_root {Mosaic} _.
Arguments split_path {Mosaic} _.
Arguments split_config {Mosaic} _.

(** The argument of [closePanel]. *)
Record ClosePanelPayload (Mosaic : Type) :=
  { close_tabId : option string; close_root : Mosaic; close_path : Mosaic }.
Arguments close_tabId {Mosaic} _.
Arguments close_root {Mosaic} _.
Arguments close_path {Mosaic} _.

(** What a click on a menu item asks of the layout. *)
Inductive LayoutRequest (Mosaic : Type) :=
| request_split (payload : SplitPanelPayload Mosaic)
| request_close (payload : ClosePanelPayload Mosaic)
| request_enterFullscreen.
Arguments request_split {Mosaic} _.
Arguments request_close {Mosaic} _.
Arguments request_enterFullscreen {Mosaic}.

(** [a ?? b] on a looked-up value: [undefined] and [null] give way. *)
Definition nullish_or (looked_up : option JsValue) (fallback : JsValue) : JsValue :=
  match looked_up with
  | None | Some JUndefined | Some JNull => fallback
  | Some v => v
  end.

Section Dropdown.

(** The mosaic's root and path, which the component only hands on. *)
Context {Mosaic : Type}.

(** What the callbacks of one render close over: the panel context, the
    panel type the mosaic reports ([getPanelType()], from
    [getPanelTypeFromMosaic], which is not among the sources), the mosaic's
    root and path, and the layout state. *)
Record Surroundings :=
  { panelContext : option PanelContextType;
    getPanelType : option string;
    getRoot : Mosaic;
    getPath : Mosaic;
    getCurrentLayout : LayoutState }.

Definition tabId (env : Surroundings) : option string :=
  panelContext env ≫= pc_tabId.

(** [close()] *)
Definition close (env : Surroundings) : LayoutRequest Mosaic :=
  request_close
    {| close_tabId := tabId env; close_root := getRoot env; close_path := getPath env |}.

(** [getCurrentLayout().selectedLayout?.data?.configById[id]] *)
Definition storedConfig (env : Surroundings) (id : string) : option JsValue :=
  match selectedLayout (getCurrentLayout env) with
  | Some layout =>
      match data layout with
      | Some d => configById d !! id
      | None => None
      end
  | None => None
  end.

(** [split(id, direction)] *)
Definition split (env : Surroundings) (id : option string) (direction : Direction)
    : Completion (LayoutRequest Mosaic) :=
  match id, getPanelType env with
  | Some id, Some _ =>
      let config := nullish_or (storedConfig env id) (JObject []) in
      returned
        (request_split
           {| split_id := id;
              split_tabId := tabId env;
              split_direction := direction;
              split_root := getRoot env;
              split_path := getPath env;
              split_config := config |})
  | _, _ => threw "Trying to split unknown panel!"
  end.

(** What the [onClick] of a menu item does. *)
Inductive OnClick :=
| click_split (id : option string) (direction : Direction)
| click_enterFullscreen
| click_close.

(** An element of [menuItems]. *)
Record MenuItem :=
  { key : string;
    text : option string;
    type : option string;
    onClick : option OnClick;
    data_testid : option string;
    error_class : bool }.

(** [menuItems] *)
Definition menuItems (isUnknownPanel : bool) (env : Surroundings) : list MenuItem :=
  let items := [] in
  let items :=
    if negb isUnknownPanel then
      items ++
        [{| key := "hsplit"; text := Some "Split horizontal"; type := None;
            onClick := Some (click_split (pc_id <$> panelContext env) column);
            data_testid := None; error_class := false |};
         {| key := "vsplit"; text := Some "Split vertical"; type := None;
            onClick := Some (click_split (pc_id <$> panelContext env) row);
            data_testid := None; error_class := false |}]
    else items in
  let items :=
    if negb (bool_decide (pc_isFullscreen <$> panelContext env = Some true)) then
      items ++
        [{| key := "enter-fullscreen"; text := Some "Fullscreen"; type := None;
            onClick := (fun _ => click_enterFullscreen) <$> panelContext env;
            data_testid := Some "panel-menu-fullscreen"; error_class := false |}]
    else items in
  let items :=
    items ++
      [{| key := "divider"; text := None; type := Some "divider"; onClick := None;
          data_testid := None; error_class := false |}] in
  items ++
    [{| key := "remove"; text := Some "Remove panel"; type := None;
        onClick := Some click_close;
        data_testid := Some "panel-menu-remove"; error_class := true |}].

(** Running the [onClick] of a menu item. *)
Definition click (env : Surroundings) (handler : OnClick)
    : Completion (LayoutRequest Mosaic) :=
  match handler with
  | click_split id direction => split env id direction
  | click_enterFullscreen => returned request_enterFullscreen
  | click_close => returned (close env)
  end.

(** [menuOpen = isOpen || Boolean(anchorEl)] *)
Definition menuOpen (isOpen : bool) (anchorEl : option nat) : bool :=
  isOpen || bool_decide (is_Some anchorEl).

(** X17: [split] asks the layout to split exactly when it was given a panel
    id and the mosaic knows the panel's type, and throws otherwise; the
    request names that id and direction, the tab id and the mosaic's root
    and path.  Its configuration is the one stored for the id in the
    selected layout; it is the empty object when there is no selected
    layout, no layout data, no entry for the id, or an entry that is
    [undefined] or [null]: it is never [undefined] or [null]. *)
Theorem split_requires_known_panel (env : Surroundings) (id : option string)
    (direction : Direction) :
  match id, getPanelType env with
  | Some known, Some _ =>
      ∃ payload : SplitPanelPayload Mosaic,
        split env id direction = returned (request_split payload) ∧
        split_id payload = known ∧
        split_direction payload = direction ∧
        split_tabId payload = tabId env ∧
        split_root payload = getRoot env ∧
        split_path payload = getPath env ∧
        split_config payload ≠ JUndefined ∧
        split_config payload ≠ JNull ∧
        (∀ (layout : SelectedLayout) (d : LayoutData) (config : JsValue),
            selectedLayout (getCurrentLayout env) = Some layout →
            data layout = Some d →
            configById d !! known = Some config →
            config ≠ JUndefined → config ≠ JNull →
            split_config payload = config) ∧
        (selectedLayout (getCurrentLayout env) = None →
           split_config payload = JObject []) ∧
        (∀ layout : SelectedLayout,
            selectedLayout (getCurrentLayout env) = Some layout →
            data layout = None →
            split_config payload = JObject []) ∧
        (∀ (layout : SelectedLayout) (d : LayoutData),
            selectedLayout (getCurrentLayout env) = Some layout →
            data layout = Some d →
            configById d !! known = None ∨
            configById d !! known = Some JUndefined ∨
            configById d !! known = Some JNull →
            split_config payload = JObject [])
  | _, _ => split env id direction = threw "Trying to split unknown panel!"
  end.
Proof.
  unfold split. destruct id as [known|]; [|done].
  destruct (getPanelType env); [|done].
  eexists. split; [done|]. simpl. split_and!; [done..| | | | | |].
  - unfold nullish_or. by repeat case_match.
  - unfold nullish_or. by repeat case_match.
  - intros layout d config Hlayout Hd Hconfig Hu Hn. unfold storedConfig.
    rewrite Hlayout, Hd, Hconfig. unfold nullish_or. by destruct config.
  - intros Hlayout. unfold storedConfig. by rewrite Hlayout.
  - intros layout Hlayout Hd. unfold storedConfig. by rewrite Hlayout, Hd.
  - intros layout d Hlayout Hd Hconfig. unfold storedConfig. rewrite Hlayout, Hd.
    by destruct Hconfig as [->|[->| ->]].
Qed.

Lemma menuItems_keys (isUnknownPanel : bool) (env : Surroundings) :
  key <$> menuItems isUnknownPanel env =
    (if isUnknownPanel then [] else ["hsplit"; "vsplit"]) ++
    (if bool_decide (pc_isFullscreen <$> panelContext env = Some true)
     then [] else ["enter-fullscreen"]) ++
    ["divider"; "remove"].
Proof. unfold menuItems. by destruct isUnknownPanel; case_bool_decide. Qed.

(** X18: whatever the panel and its context, the menu items have distinct
    keys, the last two are the divider and "Remove panel", the two split
    items are there exactly for a known panel, and the fullscreen item is
    there exactly when the panel is not in fullscreen already. *)
Theorem menuItems_structure (isUnknownPanel : bool) (env : Surroundings) :
  let keys := key <$> menuItems isUnknownPanel env in
  NoDup keys ∧
  (∃ before : list string, keys = before ++ ["divider"; "remove"]) ∧
  ("hsplit" ∈ keys ↔ isUnknownPanel = false) ∧
  ("vsplit" ∈ keys ↔ isUnknownPanel = false) ∧
  ("enter-fullscreen" ∈ keys ↔ pc_isFullscreen <$> panelContext env ≠ Some true).
Proof.
  simpl. rewrite menuItems_keys. split_and!.
  - destruct isUnknownPanel; case_bool_decide; compute_done.
  - eexists. by rewrite app_assoc.
  - destruct isUnknownPanel; case_bool_decide; split; intros Hx; simpl in *; listed.
  - destruct isUnknownPanel; case_bool_decide; split; intros Hx; simpl in *; listed.
  - destruct isUnknownPanel; case_bool_decide; split; intros Hx; simpl in *; listed.
Qed.

(** X19: clicking a split item of the menu of a panel that has a context and
    a type known to the mosaic asks for a split of that panel, in a column for
    "Split horizontal" and in a row for "Split vertical"; without a panel
    context the click throws. *)
Theorem split_items_click (env : Surroundings) (item : MenuItem) (handler : OnClick) :
  item ∈ menuItems false env →
  (key item = "hsplit" ∨ key item = "vsplit") →
  onClick item = Some handler →
  match panelContext env, getPanelType env with
  | Some context, Some _ =>
      ∃ payload : SplitPanelPayload Mosaic,
        click env handler = returned (request_split payload) ∧
        split_id payload = pc_id context ∧
        split_tabId payload = pc_tabId context ∧
        split_direction payload = (if String.eqb (key item) "hsplit" then column else row)
  | _, _ => click env handler = threw "Trying to split unknown panel!"
  end.
Proof.
  unfold menuItems. intros Hitem Hkey Hclick.
  assert (handler = click_split (pc_id <$> panelContext env)
                      (if String.eqb (key item) "hsplit" then column else row)) as ->.
  { case_bool_decide; simpl in Hitem;
      repeat (apply elem_of_cons in Hitem as [->|Hitem]);
      simpl in *; try (by destruct Hkey); try (by apply elem_of_nil in Hitem);
      congruence. }
  simpl. unfold split, tabId.
  destruct (panelContext env) as [context|]; simpl; [|done].
  destruct (getPanelType env); [|done]. by eexists.
Qed.

End Dropdown.

End PanelActionsDropdown.

(** ** ChangePanelMenuItem *)
Module ChangePanelMenuItem.

(** [PanelSelection] of PanelList. *)
Record PanelSelection :=
  { sel_type : string;
    sel_config : option JsValue;
    sel_relatedConfigs : option (gmap string JsValue) }.

(** The argument of [swapPanel]. *)
Record SwapPanelPayload (Mosaic : Type) :=
  { swap_tabId : option string;
    swap_originalId : string;
    swap_type : string;
    swap_root : Mosaic;
    swap_path : Mosaic;
    swap_config : JsValue;
    swap_relatedConfigs : option (gmap string JsValue) }.
Arguments swap_tabId {Mosaic} _.
Arguments swap_originalId {Mosaic} _.
Arguments swap_type {Mosaic} _.
Arguments swap_root {Mosaic} _.
Arguments swap_path {Mosaic} _.
Arguments swap_config {Mosaic} _.
Arguments swap_relatedConfigs {Mosaic} _.

Section MenuItem.

Context {Mosaic : Type}.

(** The prop, the panel context and the mosaic the component renders with. *)
Record Surroundings :=
  { tabId : option string;
    panelContext : option PanelContextType;
    getRoot : Mosaic;
    getPath : Mosaic }.

(** The two state cells, and the requests made to [swapPanel]. *)
Record State :=
  { anchorEl : option nat;
    overSubMenu : bool;
    swapPanel : list (SwapPanelPayload Mosaic) }.

Definition setAnchorEl (v : option nat) (s : State) : State :=
  {| anchorEl := v; overSubMenu := overSubMenu s; swapPanel := swapPanel s |}.

Definition setOverSubMenu (v : bool) (s : State) : State :=
  {| anchorEl := anchorEl s; overSubMenu := v; swapPanel := swapPanel s |}.

(** [open = Boolean(anchorEl)] *)
Definition open (s : State) : bool := bool_decide (is_Some (anchorEl s)).

(** [handleClick(event)], with [event.currentTarget] *)
Definition handleClick (currentTarget : nat) (s : State) : State :=
  let s :=
    if bool_decide (anchorEl s ≠ Some currentTarget)
    then setAnchorEl (Some currentTarget) s
    else s in
  setAnchorEl None s.

(** [handleMouseEnter(event)] *)
Definition handleMouseEnter (currentTarget : nat) (s : State) : State :=
  setAnchorEl (Some currentTarget) s.

(** [handleClose()] *)
Definition handleClose (s : State) : State :=
  if negb (overSubMenu s) then setAnchorEl None s else s.

(** [swap(id)({ type, config, relatedConfigs })] *)
Definition swap (env : Surroundings) (id : option string) (selection : PanelSelection)
    (s : State) : State :=
  (* Reselecting current panel type is a no-op. *)
  if bool_decide (Some (sel_type selection) = pc_type <$> panelContext env)
  then handleClose s
  else
    {| anchorEl := anchorEl s;
       overSubMenu := overSubMenu s;
       swapPanel :=
         swapPanel s ++
           [{| swap_tabId := tabId env;
               swap_originalId := default "" id;
               swap_type := sel_type selection;
               swap_root := getRoot env;
               swap_path := getPath env;
               swap_config :=
                 PanelActionsDropdown.nullish_or (sel_config selection) (JObject []);
               swap_relatedConfigs := sel_relatedConfigs selection |}] |}.

(** What the user can do with the item and its submenu. *)
Inductive Event :=
| ev_click (currentTarget : nat)        (* onClick of the menu item *)
| ev_mouseEnter (currentTarget : nat)   (* onMouseEnter of the menu item *)
| ev_clickAway                          (* onClickAway of the submenu *)
| ev_paperEnter                         (* onMouseEnter of the submenu *)
| ev_paperLeave                         (* onMouseLeave of the submenu *)
| ev_select (selection : PanelSelection).  (* onPanelSelect of the panel list *)

Definition step (env : Surroundings) (ev : Event) (s : State) : State :=
  match ev with
  | ev_click currentTarget => handleClick currentTarget s
  | ev_mouseEnter currentTarget => handleMouseEnter currentTarget s
  | ev_clickAway => handleClose s
  | ev_paperEnter => setOverSubMenu true s
  | ev_paperLeave => setOverSubMenu false s
  | ev_select selection => swap env (pc_id <$> panelContext env) selection s
  end.

Definition run (env : Surroundings) (evs : list Event) (s : State) : State :=
  fold_left (fun acc ev => step env ev acc) evs s.

(** The request a selection leads to, if it leads to one. *)
Definition swap_request (env : Surroundings) (ev : Event)
    : option (SwapPanelPayload Mosaic) :=
  match ev with
  | ev_select selection =>
      if bool_decide (Some (sel_type selection) = pc_type <$> panelContext env) then None
      else
        Some {| swap_tabId := tabId env;
                swap_originalId := default "" (pc_id <$> panelContext env);
                swap_type := sel_type selection;
                swap_root := getRoot env;
                swap_path := getPath env;
                swap_config :=
                  PanelActionsDropdown.nullish_or (sel_config selection) (JObject []);
                swap_relatedConfigs := sel_relatedConfigs selection |}
  | _ => None
  end.

Definition is_mouseEnter (ev : Event) : Prop :=
  match ev with
  | ev_mouseEnter _ => True
  | _ => False
  end.

Lemma step_swapPanel (env : Surroundings) (ev : Event) (s : State) :
  swapPanel (step env ev s) =
    swapPanel s ++ match swap_request env ev with Some request => [request] | None => [] end.
Proof.
  destruct ev; simpl; rewrite ?app_nil_r; try done.
  - unfold handleClick. by case_bool_decide.
  - unfold handleClose. by destruct (overSubMenu s).
  - unfold swap. case_bool_decide; simpl; [|done].
    rewrite app_nil_r. unfold handleClose. by destruct (overSubMenu s).
Qed.

(** X20: over any sequence of user events, [swapPanel] is called once for
    every selection of a panel type other than the panel's own, in the order
    of the selections, and for nothing else: reselecting the current type,
    clicking and hovering never swap.  Each request names the selected
    type, the panel id (the empty string without a panel context) and a
    configuration that is the empty object when the selection has none. *)
Theorem swapPanel_once_per_new_type (env : Surroundings) (evs : list Event) (s : State) :
  swapPanel (run env evs s) = swapPanel s ++ omap (swap_request env) evs.
Proof.
  unfold run. revert s. induction evs as [|ev evs IH]; intros s; simpl.
  - by rewrite app_nil_r.
  - rewrite IH, step_swapPanel, <- app_assoc. f_equal.
    by destruct (swap_request env ev).
Qed.

Lemma step_stays_closed (env : Surroundings) (ev : Event) (s : State) :
  ¬ is_mouseEnter ev → open s = false → open (step env ev s) = false.
Proof.
  intros Hev Hclosed. destruct ev; simpl in *; try done.
  - unfold handleClose. by destruct (overSubMenu s).
  - unfold swap. case_bool_decide; [|done].
    unfold handleClose. by destruct (overSubMenu s).
Qed.

(** X21: a click on the menu item closes the submenu, whether it was open
    or not and whatever element was clicked, and the submenu then stays
    closed until the pointer enters the menu item again. *)
Theorem click_closes_until_mouseEnter (env : Surroundings) (before after : list Event)
    (currentTarget : nat) (s : State) :
  Forall (fun ev => ¬ is_mouseEnter ev) after →
  open (run env (before ++ [ev_click currentTarget] ++ after) s) = false.
Proof.
  intros Hafter. unfold run. rewrite !fold_left_app. simpl.
  set (clicked := handleClick currentTarget _).
  assert (open clicked = false) as Hclosed by done. clearbody clicked.
  revert clicked Hclosed. induction Hafter as [|ev after Hev _ IH]; intros s0 Hs0; simpl.
  - done.
  - by apply IH, step_stays_closed.
Qed.

End MenuItem.

End ChangePanelMenuItem.

(** ** PanelToolbar *)
Module PanelToolbar.

(** The props the toolbar looks at; [children] and [additionalIcons] stand
    for the nodes passed in. *)
Record Props :=
  { additionalIcons : option nat;
    children : option nat;
    isUnknownPanel : option bool }.

(** What the toolbar renders. *)
Record Rendered :=
  { rootDragRef : option nat;
    controlsDragRef : option nat;
    cursor : string;
    (* the children, or else the panel title *)
    content : option (nat + string);
    (* [additionalIconsWithHelp]: the icons passed in and, in fullscreen, the
       exit button *)
    controls_additionalIcons : option nat;
    exitFullscreenButton : bool;
    controls_isUnknownPanel : bool }.

(** [PanelToolbar(props)] with the panel context in scope. *)
Definition PanelToolbar (props : Props) (panelContext : option PanelContextType)
    : Rendered :=
  let isUnknownPanel := default false (isUnknownPanel props) in
  let isFullscreen := pc_isFullscreen <$> panelContext in
  let rootDragRef :=
    if isUnknownPanel || bool_decide (children props ≠ None) then None
    else panelContext ≫= pc_connectToolbarDragHandle in
  let controlsDragRef :=
    if isUnknownPanel || bool_decide (children props = None) then None
    else panelContext ≫= pc_connectToolbarDragHandle in
  {| rootDragRef := rootDragRef;
     controlsDragRef := controlsDragRef;
     cursor := if bool_decide (rootDragRef ≠ None) then "grab" else "auto";
     content :=
       match children props with
       | Some nodes => Some (inl nodes)
       | None => (fun context => inr (pc_title context)) <$> panelContext
       end;
     controls_additionalIcons := additionalIcons props;
     exitFullscreenButton := bool_decide (isFullscreen = Some true);
     controls_isUnknownPanel := isUnknownPanel |}.

(** X22: the toolbar connects the drag handle to at most one element: to its
    root when it has no children and to the controls when it has, and to
    neither for an unknown panel or when the panel context offers no handle.
    The cursor is "grab" exactly when the root is the handle. *)
Theorem drag_handle_in_one_place (props : Props) (panelContext : option PanelContextType) :
  let rendered := PanelToolbar props panelContext in
  let handle := panelContext ≫= pc_connectToolbarDragHandle in
  let known := negb (default false (isUnknownPanel props)) in
  (rootDragRef rendered = None ∨ controlsDragRef rendered = None) ∧
  rootDragRef rendered =
    (if known && bool_decide (children props = None) then handle else None) ∧
  controlsDragRef rendered =
    (if known && bool_decide (children props ≠ None) then handle else None) ∧
  (cursor rendered = "grab" ↔ is_Some (rootDragRef rendered)).
Proof.
  simpl.
  destruct (default false (isUnknownPanel props)), (children props) as [nodes|],
    (panelContext ≫= pc_connectToolbarDragHandle) as [h|];
    simpl; repeat case_bool_decide; simpl;
    (split_and!; [first [by left|by right] | done.. | ]);
    (split; [intros Hc|intros [? Hc]]; first [done | by eexists]).
Qed.

End PanelToolbar.

(** * More scenarios *)
Section MoreScenarios.

#[local] Existing Instance frameCounterBuilder.

(** [demo_rendering] after its configuration was cleared: panel id 1, the
    context of panel id 0 still memoised. *)
Definition demo_cleared : Adapter := step (ev_config (JObject [])) demo_rendering.

(** [demo_advertising] after its configuration was cleared. *)
Definition demo_advertising_cleared : Adapter :=
  step (ev_config (JObject [])) demo_advertising.

(** A render function that calls the completion callback twice before it
    returns. *)
Definition demo_render_twice : RenderFn :=
  fun _ => {| doneCallsDuringRender := 2; thrown := None |}.

(** A context memoised while the player could not advertise. *)
Definition demo_context_plain : ExtensionContext :=
  {| ctx_panelId := 0; ctx_initialState := demo_config; ctx_capabilities := [] |}.

(** A store with one setting and a listener of somebody else. *)
Definition demo_cells : AppSettings.Cells :=
  {| AppSettings.appSettings := [("stale", JBool true)];
     AppSettings.subscribedAppSettings := ["timezone"; "theme"];
     AppSettings.appConfiguration :=
       {| AppSettings.stored := {["timezone" := JString "UTC"]};
          AppSettings.listeners := [("timezone", 0)] |};
     AppSettings.closures := 1 |}.

(** A known panel in a tab, in a layout that holds no configuration. *)
Definition demo_panelContext : PanelContextType :=
  {| pc_type := "Plot";
     pc_id := "Plot!abc";
     pc_title := "Plot";
     pc_tabId := Some "Tab!1";
     pc_isFullscreen := false;
     pc_connectToolbarDragHandle := Some 4 |}.

Definition demo_dropdown : @PanelActionsDropdown.Surroundings nat :=
  {| PanelActionsDropdown.panelContext := Some demo_panelContext;
     PanelActionsDropdown.getPanelType := Some "Plot";
     PanelActionsDropdown.getRoot := 0;
     PanelActionsDropdown.getPath := 1;
     PanelActionsDropdown.getCurrentLayout :=
       {| PanelActionsDropdown.selectedLayout := None |} |}.

Definition demo_changePanel : @ChangePanelMenuItem.Surroundings nat :=
  {| ChangePanelMenuItem.tabId := Some "Tab!1";
     ChangePanelMenuItem.panelContext := Some demo_panelContext;
     ChangePanelMenuItem.getRoot := 0;
     ChangePanelMenuItem.getPath := 1 |}.

Definition demo_submenu_open : @ChangePanelMenuItem.State nat :=
  {| ChangePanelMenuItem.anchorEl := Some 9;
     ChangePanelMenuItem.overSubMenu := true;
     ChangePanelMenuItem.swapPanel := [] |}.

End MoreScenarios.

(** * The further properties at work on the scenarios *)
Section MoreWitnesses.

#[local] Existing Instance frameCounterBuilder.

Lemma demo_advertising_reachable : reachable demo_advertising.
Proof. apply reachable_step, demo_initialised_reachable. Qed.

Lemma demo_cleared_commit :
  render (frame 3) true false None demo_cleared =
    returned (step (ev_render (frame 3) true false None) demo_cleared).
Proof. vm_compute. reflexivity. Qed.

Lemma demo_cleared_quiet_commit :
  render (frame 3) false false None demo_cleared =
    returned (step (ev_render (frame 3) false false None) demo_cleared).
Proof. vm_compute. reflexivity. Qed.

(** X2 on [demo_rendering]: panel id 7 is another panel's. *)
Lemma contextCalls_leave_other_panels_witness :
  subscriptions
    (pipeline
       (contextCalls demo_context
          [call_subscribe [TopicString "/tf"]; call_advertise "/cmd" "std_msgs/String" None]
          demo_rendering)) !! 7 =
  subscriptions (pipeline demo_rendering) !! 7.
Proof.
  apply (contextCalls_leave_other_panels demo_context
           [call_subscribe [TopicString "/tf"]; call_advertise "/cmd" "std_msgs/String" None]
           7 demo_rendering).
  discriminate.
Defined.

(** X4 on [demo_advertising], whose registration lists its map: "/cmd" is
    advertised with another datatype, and "/goal" is advertised next to
    "/cmd", which stays registered as it was. *)
Lemma advertise_registers_one_payload_witness :
  payloads_for "/cmd"
    (publishersOf
       (pipeline (advertise_fn demo_context "/cmd" "std_msgs/String" None demo_advertising))
       0) =
  [{| adv_topic := "/cmd"; adv_datatype := "std_msgs/String"; adv_options := None |}] ∧
  payloads_besides "/goal"
    (publishersOf
       (pipeline
          (advertise_fn demo_context "/goal" "geometry_msgs/Pose" None demo_advertising))
       0) =
  payloads_besides "/goal" (publishersOf (pipeline demo_advertising) 0).
Proof.
  destruct (advertise_registers_one_payload demo_context "/cmd" "std_msgs/String" None
              (advertise_fn demo_context) demo_advertising demo_advertising_reachable
              eq_refl) as (Hone & _).
  destruct (advertise_registers_one_payload demo_context "/goal" "geometry_msgs/Pose" None
              (advertise_fn demo_context) demo_advertising demo_advertising_reachable
              eq_refl) as (_ & _ & Hrest & _).
  split; [exact Hone|]. apply Hrest. reflexivity.
Defined.

(** X5 on [demo_advertising]: "/cmd" is unadvertised; unadvertising "/goal",
    which is not advertised, leaves the registration as it was. *)
Lemma unadvertise_removes_topic_witness :
  payloads_for "/cmd"
    (publishersOf (pipeline (unadvertise_fn demo_context "/cmd" demo_advertising)) 0) = [] ∧
  publishersOf (pipeline (unadvertise_fn demo_context "/goal" demo_advertising)) 0 =
    publishersOf (pipeline demo_advertising) 0.
Proof.
  destruct (unadvertise_removes_topic demo_context "/cmd" (unadvertise_fn demo_context)
              demo_advertising demo_advertising_reachable eq_refl) as (Hnone & _).
  destruct (unadvertise_removes_topic demo_context "/goal" (unadvertise_fn demo_context)
              demo_advertising demo_advertising_reachable eq_refl)
    as (_ & _ & _ & Hsync & _).
  split; [exact Hnone|]. apply (Hsync eq_refl). reflexivity.
Defined.

(** X6 on [demo_advertising] and a context without the capability. *)
Lemma context_without_advertise_witness :
  publishers
    (pipeline
       (contextCalls demo_context_plain
          [call_advertise "/goal" "geometry_msgs/Pose" None; call_unadvertise "/cmd"]
          demo_advertising)) =
  publishers (pipeline demo_advertising).
Proof.
  apply (context_without_advertise demo_context_plain
           [call_advertise "/goal" "geometry_msgs/Pose" None; call_unadvertise "/cmd"]
           demo_advertising).
  apply not_elem_of_nil.
Defined.

Lemma demo_rendering_prop_commit :
  render (frame 3) false false (Some (demo_initPanel demo_render_twice)) demo_rendering =
    returned
      (step (ev_render (frame 3) false false (Some (demo_initPanel demo_render_twice)))
         demo_rendering).
Proof. vm_compute. reflexivity. Qed.

Lemma demo_rendering_quiet_commit :
  render (frame 3) false false None demo_rendering =
    returned (step (ev_render (frame 3) false false None) demo_rendering).
Proof. vm_compute. reflexivity. Qed.

(** X7 on [demo_cleared], whose memoised context is of panel id 0: the commit
    runs [initPanel] for panel id 1; and on [demo_rendering], whose memoised
    context is up to date: a commit with another [initPanel] prop runs it for
    panel id 0 again, a commit without runs nothing. *)
Lemma commit_initialises_iff_init_deps_changed_witness :
  initialised (log (step (ev_render (frame 3) true false None) demo_cleared)) = [0; 1] ∧
  initialised
    (log (step (ev_render (frame 3) false false (Some (demo_initPanel demo_render_twice)))
            demo_rendering)) = [0; 0] ∧
  initialised (log (step (ev_render (frame 3) false false None) demo_rendering)) = [0].
Proof.
  pose proof (commit_initialises_iff_init_deps_changed (frame 3) true false None
                demo_cleared _ demo_cleared_commit) as Hstale.
  pose proof (commit_initialises_iff_init_deps_changed (frame 3) false false
                (Some (demo_initPanel demo_render_twice))
                demo_rendering _ demo_rendering_prop_commit) as Hprop.
  pose proof (commit_initialises_iff_init_deps_changed (frame 3) false false None
                demo_rendering _ demo_rendering_quiet_commit) as Hquiet.
  change (context_stale false demo_cleared) with true in Hstale.
  change (context_stale false demo_rendering) with false in Hprop, Hquiet.
  split; [exact (proj1 (proj1 Hstale))|].
  split; [exact (proj1 (proj1 Hprop))|exact (proj1 (proj1 Hquiet))].
Defined.

Lemma demo_advertising_cleared_commit :
  render (frame 3) true false None demo_advertising_cleared =
    returned (step (ev_render (frame 3) true false None) demo_advertising_cleared).
Proof. vm_compute. reflexivity. Qed.

(** X8 on [demo_advertising_cleared]: nothing stays registered under panel
    id 0, which had a publisher. *)
Lemma panel_id_change_clears_previous_id_witness :
  publishers (pipeline demo_advertising_cleared) !! 0 =
    Some [{| adv_topic := "/cmd";
             adv_datatype := "geometry_msgs/Twist";
             adv_options := None |}] ∧
  subscriptions
    (pipeline (step (ev_render (frame 3) true false None) demo_advertising_cleared)) !! 0 =
    Some [] ∧
  publishers
    (pipeline (step (ev_render (frame 3) true false None) demo_advertising_cleared)) !! 0 =
    Some [].
Proof.
  destruct (panel_id_change_clears_previous_id (frame 3) true false None demo_context
              demo_advertising_cleared _ demo_advertising_cleared_commit) as (Hs & Hp & _);
    [reflexivity|discriminate|].
  split; [reflexivity|]. split; [exact Hs|exact Hp].
Defined.

(** X9 on [demo_advertising_cleared]: the advertisement of "/cmd" is still
    in the map after the panel was initialised again under panel id 1. *)
Lemma commit_keeps_advertisements_witness :
  advertisementsRef (step (ev_render (frame 3) true false None) demo_advertising_cleared) =
    [("/cmd",
      {| adv_topic := "/cmd"; adv_datatype := "geometry_msgs/Twist"; adv_options := None |})].
Proof.
  exact (proj1 (commit_keeps_advertisements (frame 3) true false None
                  demo_advertising_cleared _ demo_advertising_cleared_commit)).
Defined.

(** X10 on [demo_cleared]: invocation 0 is still in flight after the panel
    was initialised again. *)
Lemma initialisation_keeps_render_lock_witness :
  renderingRef (step (ev_render (frame 3) false false None) demo_cleared) = true.
Proof.
  destruct (initialisation_keeps_render_lock (frame 3) false None demo_cleared _
              demo_cleared_quiet_commit) as (_ & Href & _).
  exact Href.
Defined.

(** X11 on [demo_rendering]. *)
Lemma pause_tokens_balanced_witness :
  length (unresumed (frameTokens (pipeline demo_rendering))) = 1.
Proof.
  destruct (pause_tokens_balanced demo_rendering demo_rendering_reachable) as (_ & Hn & _).
  exact Hn.
Defined.

(** X12 on a panel whose render function calls back twice at once. *)
Lemma synchronous_done_releases_lock_witness :
  renderingRef (renderCycle (frame 2) (demo_initialised demo_render_twice)) = false ∧
  log (renderCycle (frame 2) (demo_initialised demo_render_twice)) =
    [info_init_panel 0; warn_done_twice 0].
Proof.
  destruct (synchronous_done_releases_lock (frame 2) demo_render_twice (Some 2) 2 1
              (demo_initialised demo_render_twice))
    as (Href & _ & _ & Hlog & _); [vm_compute; reflexivity..|].
  split; [exact Href|exact Hlog].
Defined.

(** X13 on [demo_rendering]: renders, a configuration change and the
    callback of an invocation that does not exist leave invocation 0 in
    flight. *)
Lemma only_own_done_completes_witness :
  renderingRef
    (run [ev_render (frame 3) true false None; ev_config (JObject []); ev_done 5]
       demo_rendering) = true.
Proof.
  destruct (only_own_done_completes 0
              {| doneCalled := false; resumeFrame := 0; inv_panelId := 0 |}
              [ev_render (frame 3) true false None; ev_config (JObject []); ev_done 5]
              demo_rendering demo_rendering_reachable) as (_ & Href & _);
    [vm_compute; reflexivity|reflexivity|repeat constructor; discriminate|].
  exact Href.
Defined.

(** X15 on [demo_cells]. *)
Lemma effect_cleanup_restores_listeners_witness :
  AppSettings.listeners
    (AppSettings.appConfiguration
       (AppSettings.cleanup (AppSettings.effect demo_cells).2
          (AppSettings.effect demo_cells).1)) = [("timezone", 0)].
Proof.
  rewrite (AppSettings.effect_cleanup_restores_listeners demo_cells).
  - reflexivity.
  - compute_done.
  - repeat constructor.
Defined.

(** X19 on the "Split horizontal" item of [demo_dropdown]. *)
Lemma split_items_click_witness :
  ∃ payload : PanelActionsDropdown.SplitPanelPayload nat,
    PanelActionsDropdown.click demo_dropdown
      (PanelActionsDropdown.click_split (Some "Plot!abc") PanelActionsDropdown.column) =
      returned (PanelActionsDropdown.request_split payload) ∧
    PanelActionsDropdown.split_direction payload = PanelActionsDropdown.column.
Proof.
  destruct (PanelActionsDropdown.split_items_click demo_dropdown
              {| PanelActionsDropdown.key := "hsplit";
                 PanelActionsDropdown.text := Some "Split horizontal";
                 PanelActionsDropdown.type := None;
                 PanelActionsDropdown.onClick :=
                   Some (PanelActionsDropdown.click_split (Some "Plot!abc")
                           PanelActionsDropdown.column);
                 PanelActionsDropdown.data_testid := None;
                 PanelActionsDropdown.error_class := false |}
              (PanelActionsDropdown.click_split (Some "Plot!abc") PanelActionsDropdown.column))
    as (payload & Hclick & _ & _ & Hdirection).
  - apply list_elem_of_here.
  - by left.
  - reflexivity.
  - exists payload. split; [exact Hclick|exact Hdirection].
Defined.

(** X21 on [demo_submenu_open]: after the click, a click-away and a
    selection leave the submenu closed. *)
Lemma click_closes_until_mouseEnter_witness :
  ChangePanelMenuItem.open
    (ChangePanelMenuItem.run demo_changePanel
       ([ChangePanelMenuItem.ev_mouseEnter 9] ++ [ChangePanelMenuItem.ev_click 9] ++
        [ChangePanelMenuItem.ev_paperLeave; ChangePanelMenuItem.ev_clickAway])
       demo_submenu_open) = false.
Proof.
  apply (ChangePanelMenuItem.click_closes_until_mouseEnter demo_changePanel
           [ChangePanelMenuItem.ev_mouseEnter 9]
           [ChangePanelMenuItem.ev_paperLeave; ChangePanelMenuItem.ev_clickAway]
           9 demo_submenu_open).
  repeat constructor; intros [].
Defined.

End MoreWitnesses.
